(** * HTMpandaVis: the hot-gym training loop, the toy neuron node and the
    camera / picking controller, embedded and verified.

  Three source files are covered:
  - [src/Panda3d/neuron.py]       (module [Neuron]),
  - [src/PandaVis/interaction.py] (module [Interaction]),
  - [src/HotgymExample/hotgym.py] (module [Hotgym]).

  Python objects become records, dictionaries become [gmap]s, attributes
  that a constructor does not set become [option] fields, and a method
  becomes a function in a state-and-exception monad: a raised exception
  keeps the side effects made before it, as in Python.  Python floats are
  idealised as rationals ([Q]). *)

From stdpp Require Import gmap strings list pretty sorting.
From Stdlib Require Import Ascii QArith Qminmax Lqa.

Close Scope Q_scope.

(** ** Python results: a value or a raised exception *)

Module Py.

Inductive exn : Type :=
  | SystemExit (code : Z)
  | KeyError (key : string)
  | IndexError
  | ValueError
  | AttributeError (attr : string)
  | NameError (name : string)
  | StopIteration
  | OverflowError
  | OSError.

Inductive result (A : Type) : Type :=
  | Ok (a : A)
  | Raise (e : exn).
Arguments Ok {A} a.
Arguments Raise {A} e.

(** A method over a mutable world [S]: the world after the call is returned
  in both outcomes. *)
Definition M (S A : Type) : Type := S -> result A * S.

Definition ret {S A} (a : A) : M S A := fun s => (Ok a, s).
Definition raise {S A} (e : exn) : M S A := fun s => (Raise e, s).
Definition bind {S A B} (m : M S A) (k : A -> M S B) : M S B :=
  fun s => match m s with
           | (Ok a, s') => k a s'
           | (Raise e, s') => (Raise e, s')
           end.
Definition get {S} : M S S := fun s => (Ok s, s).
Definition modify {S} (f : S -> S) : M S unit := fun s => (Ok tt, f s).
Definition lift {S A} (e : exn) (o : option A) : M S A :=
  match o with Some a => ret a | None => raise e end.
Definition when {S} (b : bool) (m : M S unit) : M S unit :=
  if b then m else ret tt.

End Py.

Declare Scope py_scope.
Delimit Scope py_scope with py.
Notation "x <- m ;; k" := (Py.bind m (fun x => k))
  (at level 100, m at next level, right associativity) : py_scope.
Notation "m ;;; k" := (Py.bind m (fun _ => k))
  (at level 100, right associativity) : py_scope.

(** ** [src/Panda3d/neuron.py] *)

Module Neuron.

(** [LColor(r, g, b, a)] *)
Definition LColor : Type := (Q * Q * Q * Q)%type.

Definition black : LColor := (0, 0, 0, 1)%Q.
Definition red : LColor := (1, 0, 0, 1)%Q.
Definition white : LColor := (1, 1, 1, 1)%Q.

Inductive RenderMode : Type :=
  | RenderDefault
  | RenderFilledWireframe (wire : LColor).

(** The attributes of the engine node that this class touches. *)
Record Node : Type := mkNode {
  model : string;
  color : option LColor;
  renderMode : RenderMode;
  pos : Q * Q * Q;
  scale : Q * Q * Q
}.

Definition setColor (c : LColor) (n : Node) : Node :=
  mkNode (model n) (Some c) (renderMode n) (pos n) (scale n).
Definition setRenderModeFilledWireframe (w : LColor) (n : Node) : Node :=
  mkNode (model n) (color n) (RenderFilledWireframe w) (pos n) (scale n).
Definition setPos (p : Q * Q * Q) (n : Node) : Node :=
  mkNode (model n) (color n) (renderMode n) p (scale n).
Definition setScale (s : Q * Q * Q) (n : Node) : Node :=
  mkNode (model n) (color n) (renderMode n) (pos n) s.

(** [self.state] is set by [__init__]; [self.__node] only by [CreateGfx].
  Inside the class the name [__node] is mangled: the attribute is
  [_cNeuron__node], and that is the name in the [AttributeError] of a
  read before [CreateGfx]. *)
Record cNeuron : Type := mkNeuron {
  state : bool;
  node : option Node
}.

(** [__init__]: [random.randint(0,1)] is the argument [r]. *)
Definition init (r : Z) : cNeuron :=
  mkNeuron (if (r =? 0)%Z then false else true) None.

Definition UpdateState : Py.M cNeuron unit := (
  self <- Py.get ;;
  nd <- Py.lift (Py.AttributeError "_cNeuron__node") (node self) ;;
  let nd :=
    if state self
    then setColor (1, 0, 0, 1)%Q nd
    else setColor (1, 1, 1, 1)%Q nd in
  let nd := setRenderModeFilledWireframe (0, 0, 0, 1)%Q nd in
  Py.modify (fun self => mkNeuron (state self) (Some nd)))%py.

(** [loader.loadModel(name)] gives the node of the model, or raises
  [OSError] when the model cannot be loaded ([None]); the attribute is
  then not assigned. *)
Definition CreateGfx (loader : string -> option Node) : Py.M cNeuron unit := (
  cube <- Py.lift Py.OSError (loader "cube") ;;
  Py.modify (fun self => mkNeuron (state self) (Some cube)) ;;;
  Py.modify (fun self => mkNeuron (state self)
    (setRenderModeFilledWireframe (0, 0, 0, 1)%Q <$> node self)) ;;;
  Py.modify (fun self => mkNeuron (state self)
    (setPos (0, 0, 0)%Q <$> node self)) ;;;
  Py.modify (fun self => mkNeuron (state self)
    (setScale (1 # 2, 1 # 2, 1 # 2)%Q <$> node self)) ;;;
  UpdateState)%py.

Definition getNode : Py.M cNeuron Node := (
  self <- Py.get ;;
  Py.lift (Py.AttributeError "_cNeuron__node") (node self))%py.

(** A neuron to run the methods on: drawn active, its cube loaded and
  then moved and recoloured by other code. *)
Definition sample_node : Node :=
  mkNode "cube" (Some (0, 1, 0, 1)%Q) RenderDefault (5, 5, 5)%Q (1, 1, 1)%Q.
Definition sample_neuron : cNeuron := mkNeuron true (Some sample_node).

(** A loader that knows the model [cube] and no other. *)
Definition sample_cube : Node :=
  mkNode "cube" None RenderDefault (0, 0, 0)%Q (1, 1, 1)%Q.
Definition sample_loader (name : string) : option Node :=
  if bool_decide (name = "cube") then Some sample_cube else None.

End Neuron.

(** ** [src/PandaVis/interaction.py]

    [onWindowEvent] (lens settings, and [CloseApp] on a closed window) and
    [onEscape] (the HTM objects' [DestroySynapses]) are not embedded: they
    touch none of the state that the properties below are about. *)

Module Interaction.

Definition verbosityLow : Z := 0.
Definition verbosityMedium : Z := 1.
Definition verbosityHigh : Z := 2.
Definition FILE_VERBOSITY : Z := verbosityHigh.

(** *** Strings: [str.split("/")], ["/".join], [int(...)] and [str(int)] *)

Fixpoint split_on (sep : ascii) (s : string) : list string :=
  match s with
  | EmptyString => [EmptyString]
  | String a s' =>
      if Ascii.eqb a sep then EmptyString :: split_on sep s'
      else match split_on sep s' with
           | h :: t => String a h :: t
           | [] => [String a EmptyString]
           end
  end.

Fixpoint join_with (sep : string) (l : list string) : string :=
  match l with
  | [] => EmptyString
  | [x] => x
  | x :: rest => x +:+ sep +:+ join_with sep rest
  end.

Definition is_space (a : ascii) : bool :=
  let n := nat_of_ascii a in
  (n =? 32)%nat || ((9 <=? n)%nat && (n <=? 13)%nat).

Definition digit_val (a : ascii) : option Z :=
  let n := nat_of_ascii a in
  if ((48 <=? n)%nat && (n <=? 57)%nat)%bool
  then Some (Z.of_nat (n - 48)) else None.

(** Decimal digits, single underscores allowed between digits. *)
Fixpoint parse_digits (acc : Z) (after_digit : bool) (l : list ascii)
  : option Z :=
  match l with
  | [] => if after_digit then Some acc else None
  | a :: l' =>
      if Ascii.eqb a "_"%char
      then (if after_digit then parse_digits acc false l' else None)
      else match digit_val a with
           | Some d => parse_digits (10 * acc + d)%Z true l'
           | None => None
           end
  end.

Fixpoint lstrip (l : list ascii) : list ascii :=
  match l with
  | a :: l' => if is_space a then lstrip l' else l
  | [] => []
  end.

Definition strip (l : list ascii) : list ascii :=
  rev (lstrip (rev (lstrip l))).

(** [int(s)] on a string, for ASCII text: surrounding white space, an
  optional sign and decimal digits; [None] is [ValueError]. *)
Definition py_int (s : string) : option Z :=
  match strip (String.list_ascii_of_string s) with
  | "-"%char :: ds => Z.opp <$> parse_digits 0 false ds
  | "+"%char :: ds => parse_digits 0 false ds
  | ds => parse_digits 0 false ds
  end.

Definition int (s : string) {S} : Py.M S Z := Py.lift Py.ValueError (py_int s).

(** [l[i]] on a Python list: negative indices count from the end. *)
Definition py_getitem {A} (l : list A) (i : Z) : option A :=
  let n := Z.of_nat (length l) in
  if (0 <=? i)%Z then l !! Z.to_nat i
  else if (- n <=? i)%Z then l !! Z.to_nat (n + i)
  else None.

(** [l.index(x)]: position of the first element equal to [x]. *)
Fixpoint py_index {A} (eqb : A -> A -> bool) (x : A) (l : list A)
  : option nat :=
  match l with
  | [] => None
  | y :: l' => if eqb y x then Some 0%nat else S <$> py_index eqb x l'
  end.

(** *** The scene graph as the controller sees it *)

Record PandaNode : Type := mkPandaNode {
  node_name : string;
  node_tags : gmap string string
}.

(** A [NodePath]: the node itself first, then its ancestors up to the
  root; the empty list is the empty [NodePath]. *)
Abbreviation NodePath := (list PandaNode).

Definition isEmpty (p : NodePath) : bool :=
  match p with [] => true | _ => false end.
Definition getParent (p : NodePath) : NodePath := tail p.
Definition getName (p : NodePath) : string :=
  match p with [] => EmptyString | n :: _ => node_name n end.
(** An absent tag, and any tag of the empty path, reads as [""]. *)
Definition getTag (key : string) (p : NodePath) : string :=
  match p with
  | [] => EmptyString
  | n :: _ => default EmptyString (node_tags n !! key)
  end.
Definition hasTag (key : string) (n : PandaNode) : bool :=
  bool_decide (is_Some (node_tags n !! key)).
(** The node itself or its lowest ancestor that defines [key]. *)
Fixpoint findNetTag (key : string) (p : NodePath) : NodePath :=
  match p with
  | [] => []
  | n :: anc => if hasTag key n then p else findNetTag key anc
  end.
(** [str(path)]: the names from the root down, joined by ["/"]. *)
Definition str_path (p : NodePath) : string :=
  join_with "/" (rev (node_name <$> p)).

Record CollisionEntry : Type := mkEntry {
  entry_distance : Q;
  getIntoNodePath : NodePath
}.

Definition closer (e1 e2 : CollisionEntry) : Prop :=
  Qle_bool (entry_distance e1) (entry_distance e2) = true.

Global Instance closer_dec : RelDecision closer.
Proof. intros e1 e2. unfold closer. apply _. Defined.

(** [CollisionHandlerQueue.sortEntries]: closest entry first. *)
Definition sortEntries (q : list CollisionEntry) : list CollisionEntry :=
  merge_sort closer q.

(** *** The visualised HTM objects *)

(** Objects are compared by identity: every cell and every column object
  carries its own identifier. *)
Record Cell : Type := mkCell {
  cell_uid : nat;
  cell_column : nat   (* [cell.column]: the identifier of a column *)
}.
Record Column : Type := mkColumn {
  col_uid : nat;
  cells : list Cell
}.
Record Layer : Type := mkLayer { corticalColumns : list Column }.
Record HTMObject : Type := mkHTMObject { layers : gmap string Layer }.

Definition cell_is (c x : Cell) : bool := (cell_uid c =? cell_uid x)%nat.
Definition column_is (c : Column) (uid : nat) : bool := (col_uid c =? uid)%nat.

Fixpoint index_column (uid : nat) (l : list Column) : option nat :=
  match l with
  | [] => None
  | c :: l' => if column_is c uid then Some 0%nat
               else S <$> index_column uid l'
  end.

(** *** The controller and the objects it holds *)

Inductive Out : Type :=
  | OutStr (s : string)
  | OutEntries (q : list CollisionEntry)
  | OutPath (p : NodePath).

Inductive Handler : Type :=
  | HonKey (key : string) (value : Z)
  | HonEscape
  | HonMouseEvent (event : string) (press : bool).

Record MouseWatcher : Type := mkMouse {
  hasMouse : bool;
  getMouseX : Q;
  getMouseY : Q
}.

(** Calls received by [base.camera], oldest first. *)
Inductive CameraCall : Type :=
  | setPos (other_is_camera : bool) (x y z : Q)
  | setZ (z : Q)
  | setHpr (h p r : Q).

Record Base : Type := mkBase {
  speed : Q;
  mouseWatcherNode : MouseWatcher;
  rotateCamera : bool;
  move_z : Q;
  camHeading : Q;
  camPitch : Q;
  camera : list CameraCall;
  HTMObjects : gmap string HTMObject;
  accepted : gmap string Handler;     (* [base.accept(event, ...)] *)
  mouseDisabled : bool;
  (* what a traversal of [render] finds for a ray through lens point (x, y) *)
  collide : Q * Q -> list CollisionEntry
}.

Inductive GuiCall : Type := onSpeedBoostChanged (b : bool).

Record Gui : Type := mkGui {
  gui_focusedCell : option Cell;
  gui_focusedPath : option (list string);
  columnID : option nat;
  cellID : option nat;
  showProximalSynapses : bool;
  showDistalSynapses : bool;
  gui_calls : list GuiCall
}.

Inductive ClientCall : Type := reqProximalData | reqDistalData.

Record Client : Type := mkClient {
  terminateClientThread : bool;
  client_calls : list ClientCall
}.

(** Calls received by cell objects, oldest first. *)
Inductive CellCall : Type :=
  | resetFocus (uid : nat)
  | setFocus (uid : nat).

(** [pickerRay], [myTraverser] and [myHandler], made by [SetupOnClick]. *)
Record Picker : Type := mkPicker {
  pickerRay : option (Q * Q);          (* [setFromLens(camNode, x, y)] *)
  myHandler : list CollisionEntry
}.

(** [self] with the objects it reaches; [self.gui] and [self.client] are
  the very objects [base.gui] and [base.client]. *)
Record cInteraction : Type := mkInteraction {
  base : Base;
  gui : Gui;
  client : Client;
  focusedCell : option Cell;
  focusedPath : option (list string);
  speedBoost : bool;
  keys : option (gmap string Z);
  mouseX_last : option Q;
  mouseY_last : option Q;
  picker : option Picker;
  clock_dt : Q;                        (* [globalClock.getDt()] *)
  cell_calls : list CellCall;
  stdout : list Out
}.

Definition with_base (f : Base -> Base) (w : cInteraction) : cInteraction :=
  mkInteraction (f (base w)) (gui w) (client w) (focusedCell w)
    (focusedPath w) (speedBoost w) (keys w) (mouseX_last w) (mouseY_last w)
    (picker w) (clock_dt w) (cell_calls w) (stdout w).
Definition with_gui (f : Gui -> Gui) (w : cInteraction) : cInteraction :=
  mkInteraction (base w) (f (gui w)) (client w) (focusedCell w)
    (focusedPath w) (speedBoost w) (keys w) (mouseX_last w) (mouseY_last w)
    (picker w) (clock_dt w) (cell_calls w) (stdout w).
Definition with_client (f : Client -> Client) (w : cInteraction)
  : cInteraction :=
  mkInteraction (base w) (gui w) (f (client w)) (focusedCell w)
    (focusedPath w) (speedBoost w) (keys w) (mouseX_last w) (mouseY_last w)
    (picker w) (clock_dt w) (cell_calls w) (stdout w).
Definition set_focusedCell (c : option Cell) (w : cInteraction)
  : cInteraction :=
  mkInteraction (base w) (gui w) (client w) c
    (focusedPath w) (speedBoost w) (keys w) (mouseX_last w) (mouseY_last w)
    (picker w) (clock_dt w) (cell_calls w) (stdout w).
Definition set_focusedPath (p : option (list string)) (w : cInteraction)
  : cInteraction :=
  mkInteraction (base w) (gui w) (client w) (focusedCell w)
    p (speedBoost w) (keys w) (mouseX_last w) (mouseY_last w)
    (picker w) (clock_dt w) (cell_calls w) (stdout w).
Definition set_speedBoost (b : bool) (w : cInteraction) : cInteraction :=
  mkInteraction (base w) (gui w) (client w) (focusedCell w)
    (focusedPath w) b (keys w) (mouseX_last w) (mouseY_last w)
    (picker w) (clock_dt w) (cell_calls w) (stdout w).
Definition set_keys (k : option (gmap string Z)) (w : cInteraction)
  : cInteraction :=
  mkInteraction (base w) (gui w) (client w) (focusedCell w)
    (focusedPath w) (speedBoost w) k (mouseX_last w) (mouseY_last w)
    (picker w) (clock_dt w) (cell_calls w) (stdout w).
Definition set_mouseX_last (x : option Q) (w : cInteraction) : cInteraction :=
  mkInteraction (base w) (gui w) (client w) (focusedCell w)
    (focusedPath w) (speedBoost w) (keys w) x (mouseY_last w)
    (picker w) (clock_dt w) (cell_calls w) (stdout w).
Definition set_mouseY_last (y : option Q) (w : cInteraction) : cInteraction :=
  mkInteraction (base w) (gui w) (client w) (focusedCell w)
    (focusedPath w) (speedBoost w) (keys w) (mouseX_last w) y
    (picker w) (clock_dt w) (cell_calls w) (stdout w).
Definition set_picker (p : option Picker) (w : cInteraction) : cInteraction :=
  mkInteraction (base w) (gui w) (client w) (focusedCell w)
    (focusedPath w) (speedBoost w) (keys w) (mouseX_last w) (mouseY_last w)
    p (clock_dt w) (cell_calls w) (stdout w).
Definition call_cell (c : CellCall) (w : cInteraction) : cInteraction :=
  mkInteraction (base w) (gui w) (client w) (focusedCell w)
    (focusedPath w) (speedBoost w) (keys w) (mouseX_last w) (mouseY_last w)
    (picker w) (clock_dt w) (cell_calls w ++ [c]) (stdout w).
Definition write_stdout (o : Out) (w : cInteraction) : cInteraction :=
  mkInteraction (base w) (gui w) (client w) (focusedCell w)
    (focusedPath w) (speedBoost w) (keys w) (mouseX_last w) (mouseY_last w)
    (picker w) (clock_dt w) (cell_calls w) (stdout w ++ [o]).

Definition set_rotateCamera (b : bool) (x : Base) : Base :=
  mkBase (speed x) (mouseWatcherNode x) b (move_z x) (camHeading x)
    (camPitch x) (camera x) (HTMObjects x) (accepted x) (mouseDisabled x)
    (collide x).
Definition set_move_z (z : Q) (x : Base) : Base :=
  mkBase (speed x) (mouseWatcherNode x) (rotateCamera x) z (camHeading x)
    (camPitch x) (camera x) (HTMObjects x) (accepted x) (mouseDisabled x)
    (collide x).
Definition set_camHeading (h : Q) (x : Base) : Base :=
  mkBase (speed x) (mouseWatcherNode x) (rotateCamera x) (move_z x) h
    (camPitch x) (camera x) (HTMObjects x) (accepted x) (mouseDisabled x)
    (collide x).
Definition set_camPitch (p : Q) (x : Base) : Base :=
  mkBase (speed x) (mouseWatcherNode x) (rotateCamera x) (move_z x)
    (camHeading x) p (camera x) (HTMObjects x) (accepted x)
    (mouseDisabled x) (collide x).
Definition call_camera (c : CameraCall) (x : Base) : Base :=
  mkBase (speed x) (mouseWatcherNode x) (rotateCamera x) (move_z x)
    (camHeading x) (camPitch x) (camera x ++ [c]) (HTMObjects x)
    (accepted x) (mouseDisabled x) (collide x).
Definition accept (event : string) (h : Handler) (x : Base) : Base :=
  mkBase (speed x) (mouseWatcherNode x) (rotateCamera x) (move_z x)
    (camHeading x) (camPitch x) (camera x) (HTMObjects x)
    (<[event := h]> (accepted x)) (mouseDisabled x) (collide x).
Definition disableMouse (x : Base) : Base :=
  mkBase (speed x) (mouseWatcherNode x) (rotateCamera x) (move_z x)
    (camHeading x) (camPitch x) (camera x) (HTMObjects x)
    (accepted x) true (collide x).

Definition set_gui_focusedCell (c : option Cell) (g : Gui) : Gui :=
  mkGui c (gui_focusedPath g) (columnID g) (cellID g)
    (showProximalSynapses g) (showDistalSynapses g) (gui_calls g).
Definition set_gui_focusedPath (p : option (list string)) (g : Gui) : Gui :=
  mkGui (gui_focusedCell g) p (columnID g) (cellID g)
    (showProximalSynapses g) (showDistalSynapses g) (gui_calls g).
Definition set_columnID (i : option nat) (g : Gui) : Gui :=
  mkGui (gui_focusedCell g) (gui_focusedPath g) i (cellID g)
    (showProximalSynapses g) (showDistalSynapses g) (gui_calls g).
Definition set_cellID (i : option nat) (g : Gui) : Gui :=
  mkGui (gui_focusedCell g) (gui_focusedPath g) (columnID g) i
    (showProximalSynapses g) (showDistalSynapses g) (gui_calls g).
Definition call_gui (c : GuiCall) (g : Gui) : Gui :=
  mkGui (gui_focusedCell g) (gui_focusedPath g) (columnID g) (cellID g)
    (showProximalSynapses g) (showDistalSynapses g) (gui_calls g ++ [c]).

Definition set_terminateClientThread (b : bool) (c : Client) : Client :=
  mkClient b (client_calls c).
Definition call_client (k : ClientCall) (c : Client) : Client :=
  mkClient (terminateClientThread c) (client_calls c ++ [k]).

Abbreviation Meth := (Py.M cInteraction).

Definition print (o : Out) : Meth unit := Py.modify (write_stdout o).

Definition printLog (txt : string) (verbosity : Z) : Meth unit :=
  Py.when (bool_decide (FILE_VERBOSITY >= verbosity)%Z) (print (OutStr txt)).

(** [__init__(self, base)] *)
Definition init (b : Base) (g : Gui) (c : Client) (dt : Q) : cInteraction :=
  mkInteraction b g c None None false None None None None dt [] [].

(** [self.keys[k]] *)
Definition getkey (k : string) : Meth Q := (
  self <- Py.get ;;
  ks <- Py.lift (Py.AttributeError "keys") (keys self) ;;
  v <- Py.lift (Py.KeyError k) (ks !! k) ;;
  Py.ret (inject_Z v))%py.

Definition UpdateCameraMovement : Meth unit := (
  self <- Py.get ;;
  let deltaT := clock_dt self in
  let speed := speed (base self) in
  let speed := if speedBoost self then (speed * 4)%Q else speed in
  let mw := mouseWatcherNode (base self) in
  deltas <-
    (if hasMouse mw && rotateCamera (base self)
     then
       mxl <- Py.lift (Py.AttributeError "mouseX_last") (mouseX_last self) ;;
       myl <- Py.lift (Py.AttributeError "mouseY_last") (mouseY_last self) ;;
       Py.modify (set_mouseX_last (Some (getMouseX mw))) ;;;
       Py.modify (set_mouseY_last (Some (getMouseY mw))) ;;;
       Py.ret (getMouseX mw - mxl, getMouseY mw - myl)%Q
     else Py.ret (0, 0)%Q) ;;
  let deltaX := fst deltas in
  let deltaY := snd deltas in
  let deltaT := if Qle_bool deltaT (1 # 20) then deltaT else (1 # 20)%Q in
  a <- getkey "a" ;;
  d <- getkey "d" ;;
  let move_x := (deltaT * speed * - a + deltaT * speed * d)%Q in
  s <- getkey "s" ;;
  w <- getkey "w" ;;
  let move_y := (deltaT * speed * s + deltaT * speed * - w)%Q in
  shift <- getkey "shift" ;;
  control <- getkey "control" ;;
  Py.modify (with_base (fun b => set_move_z
    (move_z b + (deltaT * speed * shift + deltaT * speed * - control))%Q b)) ;;;
  Py.modify (with_base (call_camera (setPos true move_x (- move_y) 0)%Q)) ;;;
  Py.modify (with_base (fun b => call_camera (setZ (move_z b)) b)) ;;;
  arrow_left <- getkey "arrow_left" ;;
  arrow_right <- getkey "arrow_right" ;;
  Py.modify (with_base (fun b => set_camHeading
    (camHeading b + (deltaT * 90 * arrow_left + deltaT * 90 * - arrow_right
                     + deltaT * 5000 * - deltaX))%Q b)) ;;;
  arrow_up <- getkey "arrow_up" ;;
  arrow_down <- getkey "arrow_down" ;;
  Py.modify (with_base (fun b => set_camPitch
    (camPitch b + (deltaT * 90 * arrow_up + deltaT * 90 * - arrow_down
                   + deltaT * 5000 * deltaY))%Q b)) ;;;
  Py.modify (with_base (fun b =>
    call_camera (setHpr (camHeading b) (camPitch b) 0) b)))%py.

Definition key_names : list string :=
  ["arrow_left"; "arrow_right"; "arrow_up"; "arrow_down";
   "a"; "d"; "w"; "s"; "shift"; "control"; "space"].

Definition SetupKeys : Meth unit := (
  Py.modify (set_keys (Some ∅)) ;;;
  foldr (fun key rest =>
      Py.modify (fun self => set_keys (<[key := 0%Z]> <$> keys self) self) ;;;
      Py.modify (with_base (accept key (HonKey key 1))) ;;;
      Py.modify (with_base (accept ("shift-" +:+ key) (HonKey key 1))) ;;;
      Py.modify (with_base (accept (key +:+ "-up") (HonKey key 0))) ;;;
      rest)
    (Py.ret tt) key_names ;;;
  Py.modify (with_base (accept "escape" HonEscape)) ;;;
  Py.modify (with_base disableMouse) ;;;
  Py.modify (with_base (accept "mouse1" (HonMouseEvent "left" true))) ;;;
  Py.modify (with_base (accept "mouse1-up" (HonMouseEvent "left" false))) ;;;
  Py.modify (with_base (accept "mouse3" (HonMouseEvent "right" true))) ;;;
  Py.modify (with_base (accept "mouse3-up" (HonMouseEvent "right" false))))%py.

Definition truthy (v : Z) : bool := negb (v =? 0)%Z.

Definition onKey (key : string) (value : Z) : Meth unit := (
  self <- Py.get ;;
  ks <- Py.lift (Py.AttributeError "keys") (keys self) ;;
  Py.modify (set_keys (Some (<[key := value]> ks))) ;;;
  space <- Py.lift (Py.KeyError "space") (<[key := value]> ks !! "space") ;;
  Py.when (truthy space) (
    Py.modify (fun self => set_speedBoost (negb (speedBoost self)) self) ;;;
    Py.modify (fun self =>
      with_gui (call_gui (onSpeedBoostChanged (speedBoost self))) self)))%py.

Definition sys_exit (code : Z) : Meth unit := Py.raise (Py.SystemExit code).

Definition CloseApp : Meth unit := (
  printLog "CLOSE app event" verbosityLow ;;;
  sys_exit 0 ;;;
  Py.modify (with_client (set_terminateClientThread true)))%py.

Definition HandlePickedObject (obj : NodePath) : Meth unit := (
  printLog ("PICKED OBJECT:" +:+ str_path obj) verbosityMedium ;;;
  thisId <- int (getTag "clickable" obj) ;;
  printLog ("TAG:" +:+ pretty thisId) verbosityHigh ;;;
  let parent := getParent obj in
  let tag := getTag "id" parent in
  if bool_decide (tag = EmptyString)
  then printLog "Parent is not clickable!" verbosityHigh
  else
    parentId <- int tag ;;
    printLog ("PARENT TAG:" +:+ pretty parentId) verbosityHigh ;;;
    if bool_decide (getName obj = "cell")
    then
      printLog "We clicked on cell" verbosityHigh ;;;
      focusedHTMObject <-
        Py.lift Py.IndexError (split_on "/" (str_path obj) !! 1%nat) ;;
      focusedLayer <-
        Py.lift Py.IndexError (split_on "/" (str_path obj) !! 2%nat) ;;
      self <- Py.get ;;
      HTMObj <- Py.lift (Py.KeyError focusedHTMObject)
                  (HTMObjects (base self) !! focusedHTMObject) ;;
      Layer <- Py.lift (Py.KeyError focusedLayer)
                 (layers HTMObj !! focusedLayer) ;;
      column <- Py.lift Py.IndexError
                  (py_getitem (corticalColumns Layer) parentId) ;;
      newCellFocus <- Py.lift Py.IndexError
                        (py_getitem (cells column) thisId) ;;
      Py.modify (set_focusedPath (Some [focusedHTMObject; focusedLayer])) ;;;
      match focusedCell self with
      | Some previous => Py.modify (call_cell (resetFocus (cell_uid previous)))
      | None => Py.ret tt
      end ;;;
      Py.modify (set_focusedCell (Some newCellFocus)) ;;;
      Py.modify (call_cell (setFocus (cell_uid newCellFocus))) ;;;
      Py.modify (fun self =>
        with_gui (set_gui_focusedCell (focusedCell self)) self) ;;;
      Py.modify (fun self =>
        with_gui (set_gui_focusedPath (focusedPath self)) self) ;;;
      columnID <- Py.lift Py.ValueError
        (index_column (cell_column newCellFocus) (corticalColumns Layer)) ;;
      Py.modify (with_gui (set_columnID (Some columnID))) ;;;
      column' <- Py.lift Py.IndexError (corticalColumns Layer !! columnID) ;;
      cellID <- Py.lift Py.ValueError
        (py_index cell_is newCellFocus (cells column')) ;;
      Py.modify (with_gui (set_cellID (Some cellID))) ;;;
      self <- Py.get ;;
      Py.when (showProximalSynapses (gui self))
        (Py.modify (with_client (call_client reqProximalData))) ;;;
      Py.when (showDistalSynapses (gui self))
        (Py.modify (with_client (call_client reqDistalData)))
    else if bool_decide (getName obj = "basement")
    then Py.raise (Py.AttributeError "testRoutine")
    else Py.ret tt)%py.

Definition onClickObject : Meth unit := (
  self <- Py.get ;;
  let mw := mouseWatcherNode (base self) in
  let mpos := (getMouseX mw, getMouseY mw) in
  pk <- Py.lift (Py.AttributeError "pickerRay") (picker self) ;;
  let pk := mkPicker (Some mpos) (myHandler pk) in
  Py.modify (set_picker (Some pk)) ;;;
  (* myTraverser.traverse(self.render) refills the queue *)
  let pk := mkPicker (pickerRay pk) (collide (base self) mpos) in
  Py.modify (set_picker (Some pk)) ;;;
  if (0 <? length (myHandler pk))%nat
  then
    let pk := mkPicker (pickerRay pk) (sortEntries (myHandler pk)) in
    Py.modify (set_picker (Some pk)) ;;;
    entry <- Py.lift Py.IndexError (myHandler pk !! 0%nat) ;;
    let pickedObj := getIntoNodePath entry in
    print (OutEntries (myHandler pk)) ;;;
    let pickedObj := findNetTag "clickable" pickedObj in
    print (OutPath pickedObj) ;;;
    if negb (isEmpty pickedObj)
    then HandlePickedObject pickedObj
    else Py.ret tt
  else Py.ret tt)%py.

Definition onMouseEvent (event : string) (press : bool) : Meth unit := (
  printLog ("Mouse event:" +:+ event) verbosityHigh ;;;
  if bool_decide (event = "right")
  then
    Py.modify (with_base (set_rotateCamera press)) ;;;
    self <- Py.get ;;
    let mw := mouseWatcherNode (base self) in
    if hasMouse mw
    then
      Py.modify (set_mouseX_last (Some (getMouseX mw))) ;;;
      Py.modify (set_mouseY_last (Some (getMouseY mw)))
    else
      Py.modify (set_mouseX_last (Some 0%Q)) ;;;
      Py.modify (set_mouseY_last (Some 0%Q))
  else if bool_decide (event = "left") && press
  then onClickObject
  else Py.ret tt)%py.

Definition SetupOnClick : Meth unit :=
  Py.modify (set_picker (Some (mkPicker None []))).

(** *** Which cells are focused

  Modelled from the spec: the class of the cell objects is not among the
  sources, so the effect of its two methods is taken from the claim's
  words: [setFocus] makes the cell a focused one and [resetFocus] takes
  its focus away.  [focus_after] reads the set of focused cells off the
  calls made so far. *)
Definition focus_step (s : gset nat) (c : CellCall) : gset nat :=
  match c with
  | setFocus uid => {[uid]} ∪ s
  | resetFocus uid => s ∖ {[uid]}
  end.
Definition focus_after (calls : list CellCall) : gset nat :=
  foldl focus_step ∅ calls.

(** At most one cell is focused, and it is [self.focusedCell]. *)
Definition at_most_one_focused (w : cInteraction) : Prop :=
  forall uid, uid ∈ focus_after (cell_calls w) ->
    exists c, focusedCell w = Some c /\ cell_uid c = uid.

(** The calls [HandlePickedObject] makes when it moves the focus to [c]. *)
Definition refocus_calls (previous : option Cell) (c : Cell) : list CellCall :=
  match previous with
  | Some p => [resetFocus (cell_uid p)]
  | None => []
  end ++ [setFocus (cell_uid c)].

(** [w'] shows the focus moved to cell [c] of the object and layer [path],
  coming from [w]. *)
Definition takes_focus (w w' : cInteraction) (c : Cell) (path : list string)
  : Prop :=
  focusedCell w' = Some c /\
  focusedPath w' = Some path /\
  gui_focusedCell (gui w') = Some c /\
  gui_focusedPath (gui w') = Some path /\
  cell_calls w' = cell_calls w ++ refocus_calls (focusedCell w) c.

(** *** A small scene to run the controller on

  One HTM object with one layer of two columns of two cells; the node
  of the second cell of the first column is hit by the picker ray, in
  front of the floor. *)
Definition sample_layer : Layer :=
  mkLayer [mkColumn 100 [mkCell 1 100; mkCell 2 100];
           mkColumn 200 [mkCell 3 200; mkCell 4 200]].

Definition sample_cell_path : NodePath :=
  [mkPandaNode "cell" {["clickable" := "1"]};
   mkPandaNode "column" {["id" := "0"]};
   mkPandaNode "SensoryLayer" ∅;
   mkPandaNode "HTM1" ∅;
   mkPandaNode "render" ∅].

(** The first cell of the second column. *)
Definition sample_other_cell_path : NodePath :=
  [mkPandaNode "cell" {["clickable" := "0"]};
   mkPandaNode "column" {["id" := "1"]};
   mkPandaNode "SensoryLayer" ∅;
   mkPandaNode "HTM1" ∅;
   mkPandaNode "render" ∅].

(** A cell node whose parent carries an [id] tag that is not a number. *)
Definition sample_mistagged_path : NodePath :=
  [mkPandaNode "cell" {["clickable" := "1"]};
   mkPandaNode "column" {["id" := "x"]};
   mkPandaNode "SensoryLayer" ∅;
   mkPandaNode "HTM1" ∅;
   mkPandaNode "render" ∅].

Definition sample_floor_path : NodePath :=
  [mkPandaNode "floor" ∅; mkPandaNode "render" ∅].

Definition sample_base : Base :=
  mkBase 20 (mkMouse true (1 # 4) (1 # 2)) false 0 0 0 []
    {["HTM1" := mkHTMObject {["SensoryLayer" := sample_layer]}]}
    ∅ false
    (fun _ => [mkEntry 9 sample_floor_path;
               mkEntry 3 (mkPandaNode "geometry" ∅ :: sample_cell_path)]).

Definition sample_gui : Gui := mkGui None None None None true false [].
Definition sample_client : Client := mkClient false [].

(** The speed in use, the mouse condition and the number under a key, as
  [UpdateCameraMovement] reads them. *)
Definition speed_in_use (w : cInteraction) : Q :=
  if speedBoost w then (speed (base w) * 4)%Q else speed (base w).
Definition rotating (w : cInteraction) : bool :=
  hasMouse (mouseWatcherNode (base w)) && rotateCamera (base w).
Definition key_value (ks : gmap string Z) (k : string) : Q :=
  inject_Z (default 0%Z (ks !! k)).

(** The controller after [__init__], [SetupKeys] and [SetupOnClick]. *)
Definition sample_world : cInteraction :=
  snd (SetupOnClick
    (snd (SetupKeys (init sample_base sample_gui sample_client (1 # 10))))).

(** Space is held down. *)
Definition sample_space_held : cInteraction :=
  snd (onKey "space" 1 sample_world).

(** The right button is held and [w] is pressed, on a slow frame. *)
Definition sample_flying : cInteraction :=
  snd (onKey "w" 1 (snd (onMouseEvent "right" true sample_world))).

(** The first cell of the second column has been picked. *)
Definition sample_focused : cInteraction :=
  snd (HandlePickedObject sample_other_cell_path sample_world).

Definition keys_of (w : cInteraction) : gmap string Z := default ∅ (keys w).

End Interaction.

(** ** [src/HotgymExample/hotgym.py]

    [main] is embedded from the reading of the file (line 69) to the shift
    of the predictions (line 237).  The printing and the [Metrics] objects
    feed nothing back into the loop and are left out, as are the accuracy
    figures and the plots after line 237. *)

Module Hotgym.

(** An [SDR] as the script reads it: [.size] and [.sparse]. *)
Record SDR : Type := mkSDR {
  size : nat;
  sparse : list nat
}.

(** [int(x)] on a float [x]: the integer part, [ValueError] on a NaN and
  [OverflowError] on an infinity. *)
Inductive IntOfFloat : Type :=
  | int_is (z : Z)
  | int_of_nan
  | int_of_inf.

(** The external HTM library, [datetime] and the float primitives: the
  script only calls them, so they are an interface.  A [None] from a
  parser is its [ValueError]; [float] may read a NaN or an infinity, on
  which [int_of_float] has no integer to give. *)
Record Library : Type := mkLibrary {
  Datetime : Type;
  Float : Type;
  SpatialPooler : Type;
  TemporalMemory : Type;
  Predictor : Type;
  AnomalyLikelihood : Type;
  Prob : Type;
  strptime : string -> option Datetime;
  float : string -> option Float;
  format_2f : Float -> string;
  int_of_float : Float -> IntOfFloat;
  dateEncoder_encode : Datetime -> SDR;
  scalarEncoder_encode : Float -> SDR;
  dateEncoder_size : nat;
  scalarEncoder_size : nat;
  concatenate : nat -> list SDR -> SDR;
  new_sp : nat -> SpatialPooler;
  new_tm : TemporalMemory;
  new_predictor : Predictor;
  new_anomaly_history : nat -> AnomalyLikelihood;
  sp_compute : SpatialPooler -> SDR -> bool -> SpatialPooler * SDR;
  tm_activateDendrites : TemporalMemory -> bool -> TemporalMemory;
  tm_getPredictiveCells : TemporalMemory -> SDR;
  tm_getWinnerCells : TemporalMemory -> SDR;
  tm_activateCells : TemporalMemory -> SDR -> bool -> TemporalMemory;
  tm_getActiveCells : TemporalMemory -> SDR;
  tm_cellsToColumns : TemporalMemory -> SDR -> SDR;
  predictor_infer : Predictor -> SDR -> nat -> list Prob;
  predictor_learn : Predictor -> nat -> SDR -> Z -> Predictor;
  argmax : list Prob -> nat;
  calculateRawAnomaly : SDR -> SDR -> Float;
  anomalyProbability :
    AnomalyLikelihood -> Float -> Float -> AnomalyLikelihood * Float
}.

(** *** Reading the input file: [csv.reader] as an iterator of rows *)

Definition next {A} (reader : list A) : Py.result (A * list A) :=
  match reader with
  | [] => Py.Raise Py.StopIteration
  | row :: rest => Py.Ok (row, rest)
  end.

Definition read_records (reader : list (list string))
  : Py.result (list (list string)) :=
  match next reader with
  | Py.Raise e => Py.Raise e
  | Py.Ok (headers, reader) =>
      match next reader with
      | Py.Raise e => Py.Raise e
      | Py.Ok (_, reader) =>
          match next reader with
          | Py.Raise e => Py.Raise e
          | Py.Ok (_, reader) =>
              Py.Ok (foldl (fun records record => records ++ [record])
                           [] reader)
          end
      end
  end.

(** *** The data handed to the visualisation ([pandaComm.dataExchange])

    Modelled from the spec: the classes [ServerData], [dataHTMObject],
    [dataInput] and [dataLayer] are not among the sources; they are plain
    holders of the attributes that [main] and [BuildPandaSystem] write. *)

Record dataInput : Type := mkInput {
  stringValue : string;
  bits : list nat;
  count : nat
}.

Record dataLayer : Type := mkLayer {
  columnCount : nat;
  cellsPerColumn : nat;
  activeColumns : list nat;
  winnerCells : list nat;
  predictiveCells : list nat;
  proximalInputs : list string
}.

Record dataHTMObject : Type := mkHTMObject {
  inputs : gmap string dataInput;
  layers : gmap string dataLayer
}.

Record ServerData : Type := mkServerData {
  HTMObjects : gmap string dataHTMObject
}.

(** [BuildPandaSystem]: the global [serverData] for the hot-gym model. *)
Definition BuildPandaSystem : ServerData :=
  let sd := mkServerData ∅ in
  let sd := mkServerData (<["HTM1" := mkHTMObject ∅ ∅]> (HTMObjects sd)) in
  let upd (f : dataHTMObject -> dataHTMObject) (sd : ServerData) :=
    mkServerData (alter f "HTM1" (HTMObjects sd)) in
  let sd := upd (fun h => mkHTMObject
    (<["SL_Consumption" := mkInput EmptyString [] 0]> (inputs h)) (layers h)) sd in
  let sd := upd (fun h => mkHTMObject
    (<["SL_TimeOfDay" := mkInput EmptyString [] 0]> (inputs h)) (layers h)) sd in
  let sd := upd (fun h => mkHTMObject (inputs h)
    (<["SensoryLayer" := mkLayer 1638 13 [] [] [] []]> (layers h))) sd in
  upd (fun h => mkHTMObject (inputs h)
    (alter (fun l => mkLayer (columnCount l) (cellsPerColumn l)
              (activeColumns l) (winnerCells l) (predictiveCells l)
              ["SL_Consumption"; "SL_TimeOfDay"])
       "SensoryLayer" (layers h))) sd.

(** A prediction: [np.argmax(pdf) * predictor_resolution] or
  [float('nan')]. *)
Inductive Prediction : Type :=
  | nan
  | predicted (v : nat).

(** [pred_list.insert(0, float('nan')); pred_list.pop()], [n_steps] times *)
Definition shift_once (pred_list : list Prediction) : list Prediction :=
  removelast (nan :: pred_list).
Definition shift (n_steps : nat) (pred_list : list Prediction)
  : list Prediction :=
  Nat.iter n_steps shift_once pred_list.

(** *** The training loop of [main] as a machine

  The loop shares [pandaServer.runInLoop] and [pandaServer.runOneStep]
  with the server's own thread, so [main] is cut into atomic program
  steps and the other thread's writes to the two flags may fall between
  any two of them.  A schedule says who moves next. *)

Inductive ServerAction : Type :=
  | SetRunInLoop (b : bool)
  | SetRunOneStep (b : bool).

Inductive Tick : Type :=
  | Prog
  | Server (a : ServerAction).

Global Instance ServerAction_eq_dec : EqDecision ServerAction.
Proof. solve_decision. Defined.
Global Instance Tick_eq_dec : EqDecision Tick.
Proof. solve_decision. Defined.

Inductive PC : Type :=
  | AtFor             (* line 141: take the next record, run lines 143-189 *)
  | AtWhileRunInLoop  (* line 192: read [pandaServer.runInLoop] *)
  | AtWhileRunOneStep (* line 192: read [pandaServer.runOneStep] *)
  | AtReset           (* line 194 *)
  | AtActivate        (* lines 199-221 *)
  | AtShift           (* lines 234-237 *)
  | Finished
  | Raised (e : Py.exn).

Section Main.
Context {L : Library}.

Record PandaServer : Type := mkServer {
  runInLoop : bool;
  runOneStep : bool;
  (* [pandaServer.serverData] is, once assigned, the global object *)
  serverData_assigned : bool;
  spatialPoolers : gmap string (SpatialPooler L);
  temporalMemories : gmap string (TemporalMemory L);
  (* what [serverData] held at each call of [NewStateDataReady] *)
  published : list ServerData
}.

Record Locals : Type := mkLocals {
  l_count : nat;
  l_record : list string;
  l_consumption : Float L;
  l_activeColumns : SDR;
  l_predictiveCellsSDR : SDR
}.

Record Main : Type := mkMain {
  pc : PC;
  todo : list (nat * list string);   (* rest of [enumerate(records)] *)
  cur : option Locals;
  sp : SpatialPooler L;
  tm : TemporalMemory L;
  anomaly_history : AnomalyLikelihood L;
  predictor : Predictor L;
  m_inputs : list (Float L);
  anomaly : list (Float L);
  anomalyProb : list (Float L);
  predictions : gmap nat (list Prediction);
  serverData : option ServerData;    (* the global; [None]: undefined *)
  pandaServer : PandaServer
}.

Definition set_pc (p : PC) (m : Main) : Main :=
  mkMain p (todo m) (cur m) (sp m) (tm m) (anomaly_history m)
    (predictor m) (m_inputs m) (anomaly m) (anomalyProb m)
    (predictions m) (serverData m) (pandaServer m).
Definition set_todo (t : list (nat * list string)) (m : Main) : Main :=
  mkMain (pc m) t (cur m) (sp m) (tm m) (anomaly_history m)
    (predictor m) (m_inputs m) (anomaly m) (anomalyProb m)
    (predictions m) (serverData m) (pandaServer m).
Definition set_cur (c : option Locals) (m : Main) : Main :=
  mkMain (pc m) (todo m) c (sp m) (tm m) (anomaly_history m)
    (predictor m) (m_inputs m) (anomaly m) (anomalyProb m)
    (predictions m) (serverData m) (pandaServer m).
Definition set_sp (x : SpatialPooler L) (m : Main) : Main :=
  mkMain (pc m) (todo m) (cur m) x (tm m) (anomaly_history m)
    (predictor m) (m_inputs m) (anomaly m) (anomalyProb m)
    (predictions m) (serverData m) (pandaServer m).
Definition set_tm (x : TemporalMemory L) (m : Main) : Main :=
  mkMain (pc m) (todo m) (cur m) (sp m) x (anomaly_history m)
    (predictor m) (m_inputs m) (anomaly m) (anomalyProb m)
    (predictions m) (serverData m) (pandaServer m).
Definition set_anomaly_history (x : AnomalyLikelihood L) (m : Main) : Main :=
  mkMain (pc m) (todo m) (cur m) (sp m) (tm m) x
    (predictor m) (m_inputs m) (anomaly m) (anomalyProb m)
    (predictions m) (serverData m) (pandaServer m).
Definition set_predictor (x : Predictor L) (m : Main) : Main :=
  mkMain (pc m) (todo m) (cur m) (sp m) (tm m) (anomaly_history m)
    x (m_inputs m) (anomaly m) (anomalyProb m)
    (predictions m) (serverData m) (pandaServer m).
Definition set_inputs (x : list (Float L)) (m : Main) : Main :=
  mkMain (pc m) (todo m) (cur m) (sp m) (tm m) (anomaly_history m)
    (predictor m) x (anomaly m) (anomalyProb m)
    (predictions m) (serverData m) (pandaServer m).
Definition set_anomaly (x : list (Float L)) (m : Main) : Main :=
  mkMain (pc m) (todo m) (cur m) (sp m) (tm m) (anomaly_history m)
    (predictor m) (m_inputs m) x (anomalyProb m)
    (predictions m) (serverData m) (pandaServer m).
Definition set_anomalyProb (x : list (Float L)) (m : Main) : Main :=
  mkMain (pc m) (todo m) (cur m) (sp m) (tm m) (anomaly_history m)
    (predictor m) (m_inputs m) (anomaly m) x
    (predictions m) (serverData m) (pandaServer m).
Definition set_predictions (x : gmap nat (list Prediction)) (m : Main)
  : Main :=
  mkMain (pc m) (todo m) (cur m) (sp m) (tm m) (anomaly_history m)
    (predictor m) (m_inputs m) (anomaly m) (anomalyProb m)
    x (serverData m) (pandaServer m).
Definition set_serverData (x : option ServerData) (m : Main) : Main :=
  mkMain (pc m) (todo m) (cur m) (sp m) (tm m) (anomaly_history m)
    (predictor m) (m_inputs m) (anomaly m) (anomalyProb m)
    (predictions m) x (pandaServer m).
Definition with_server (f : PandaServer -> PandaServer) (m : Main) : Main :=
  mkMain (pc m) (todo m) (cur m) (sp m) (tm m) (anomaly_history m)
    (predictor m) (m_inputs m) (anomaly m) (anomalyProb m)
    (predictions m) (serverData m) (f (pandaServer m)).

Definition set_runInLoop (b : bool) (p : PandaServer) : PandaServer :=
  mkServer b (runOneStep p) (serverData_assigned p) (spatialPoolers p)
    (temporalMemories p) (published p).
Definition set_runOneStep (b : bool) (p : PandaServer) : PandaServer :=
  mkServer (runInLoop p) b (serverData_assigned p) (spatialPoolers p)
    (temporalMemories p) (published p).
Definition assign_serverData (p : PandaServer) : PandaServer :=
  mkServer (runInLoop p) (runOneStep p) true (spatialPoolers p)
    (temporalMemories p) (published p).
Definition set_spatialPooler (k : string) (x : SpatialPooler L)
  (p : PandaServer) : PandaServer :=
  mkServer (runInLoop p) (runOneStep p) (serverData_assigned p)
    (<[k := x]> (spatialPoolers p)) (temporalMemories p) (published p).
Definition set_temporalMemory (k : string) (x : TemporalMemory L)
  (p : PandaServer) : PandaServer :=
  mkServer (runInLoop p) (runOneStep p) (serverData_assigned p)
    (spatialPoolers p) (<[k := x]> (temporalMemories p)) (published p).
(** Modelled from the spec: [PandaServer.NewStateDataReady] (the
  [pandaComm] package is not among the sources) tells the server thread
  that a new state is ready to be streamed; the state to send is what the
  server's [serverData] holds at the call, which the model appends to
  [published]. *)
Definition NewStateDataReady (now : ServerData) (p : PandaServer)
  : PandaServer :=
  mkServer (runInLoop p) (runOneStep p) (serverData_assigned p)
    (spatialPoolers p) (temporalMemories p) (published p ++ [now]).

Abbreviation Stmt := (Py.M Main).

(** [serverData.HTMObjects[h].inputs[i].<attribute> = ...] *)
Definition update_input (h i : string) (f : dataInput -> dataInput)
  : Stmt unit := (
  m <- Py.get ;;
  sd <- Py.lift (Py.NameError "serverData") (serverData m) ;;
  obj <- Py.lift (Py.KeyError h) (HTMObjects sd !! h) ;;
  inp <- Py.lift (Py.KeyError i) (inputs obj !! i) ;;
  Py.modify (set_serverData (Some (mkServerData
    (<[h := mkHTMObject (<[i := f inp]> (inputs obj)) (layers obj)]>
       (HTMObjects sd))))))%py.

(** [serverData.HTMObjects[h].layers[l].<attribute> = ...] *)
Definition update_layer (h l : string) (f : dataLayer -> dataLayer)
  : Stmt unit := (
  m <- Py.get ;;
  sd <- Py.lift (Py.NameError "serverData") (serverData m) ;;
  obj <- Py.lift (Py.KeyError h) (HTMObjects sd !! h) ;;
  lay <- Py.lift (Py.KeyError l) (layers obj !! l) ;;
  Py.modify (set_serverData (Some (mkServerData
    (<[h := mkHTMObject (inputs obj) (<[l := f lay]> (layers obj))]>
       (HTMObjects sd))))))%py.

Definition set_stringValue (s : string) (i : dataInput) : dataInput :=
  mkInput s (bits i) (count i).
Definition set_bits (b : list nat) (i : dataInput) : dataInput :=
  mkInput (stringValue i) b (count i).
Definition set_count (c : nat) (i : dataInput) : dataInput :=
  mkInput (stringValue i) (bits i) c.
Definition set_activeColumns (x : list nat) (l : dataLayer) : dataLayer :=
  mkLayer (columnCount l) (cellsPerColumn l) x (winnerCells l)
    (predictiveCells l) (proximalInputs l).
Definition set_winnerCells (x : list nat) (l : dataLayer) : dataLayer :=
  mkLayer (columnCount l) (cellsPerColumn l) (activeColumns l) x
    (predictiveCells l) (proximalInputs l).
Definition set_predictiveCells (x : list nat) (l : dataLayer) : dataLayer :=
  mkLayer (columnCount l) (cellsPerColumn l) (activeColumns l)
    (winnerCells l) x (proximalInputs l).

Definition encodingWidth : nat := dateEncoder_size L + scalarEncoder_size L.

Definition enumerate {A} (l : list A) : list (nat * A) :=
  imap (fun i x => (i, x)) l.

(** [predictions[n].append(x)] *)
Definition append_prediction (n : nat) (x : Prediction) : Stmt unit := (
  m <- Py.get ;;
  preds <- Py.lift (Py.KeyError (pretty n)) (predictions m !! n) ;;
  Py.modify (set_predictions (<[n := preds ++ [x]]> (predictions m))))%py.

Definition predictor_resolution : nat := 1.

(** Lines 143-189: from parsing the record to [NewStateDataReady]. *)
Definition publish_step (count : nat) (record : list string)
  : Stmt unit := (
  r0 <- Py.lift Py.IndexError (record !! 0%nat) ;;
  dateString <- Py.lift Py.ValueError (strptime L r0) ;;
  r1 <- Py.lift Py.IndexError (record !! 1%nat) ;;
  consumption <- Py.lift Py.ValueError (float L r1) ;;
  Py.modify (fun m => set_inputs (m_inputs m ++ [consumption]) m) ;;;
  let dateBits := dateEncoder_encode L dateString in
  let consumptionBits := scalarEncoder_encode L consumption in
  let encoding := concatenate L encodingWidth [consumptionBits; dateBits] in
  m <- Py.get ;;
  let computed := sp_compute L (sp m) encoding true in
  let activeColumns := snd computed in
  Py.modify (set_sp (fst computed)) ;;;
  Py.modify (fun m => set_tm (tm_activateDendrites L (tm m) true) m) ;;;
  m <- Py.get ;;
  let predictiveCellsSDR := tm_getPredictiveCells L (tm m) in
  update_input "HTM1" "SL_Consumption"
    (set_stringValue ("consumption: " +:+ format_2f L consumption)) ;;;
  update_input "HTM1" "SL_Consumption" (set_bits (sparse consumptionBits)) ;;;
  update_input "HTM1" "SL_Consumption" (set_count (size consumptionBits)) ;;;
  update_input "HTM1" "SL_TimeOfDay" (set_stringValue r0) ;;;
  update_input "HTM1" "SL_TimeOfDay" (set_bits (sparse dateBits)) ;;;
  update_input "HTM1" "SL_TimeOfDay" (set_count (size dateBits)) ;;;
  update_layer "HTM1" "SensoryLayer"
    (set_activeColumns (sparse activeColumns)) ;;;
  m <- Py.get ;;
  update_layer "HTM1" "SensoryLayer"
    (set_winnerCells (sparse (tm_getWinnerCells L (tm m)))) ;;;
  update_layer "HTM1" "SensoryLayer"
    (set_predictiveCells (sparse predictiveCellsSDR)) ;;;
  Py.modify (with_server assign_serverData) ;;;
  Py.modify (fun m => with_server (set_spatialPooler "HTM1" (sp m)) m) ;;;
  Py.modify (fun m => with_server (set_temporalMemory "HTM1" (tm m)) m) ;;;
  m <- Py.get ;;
  now <- Py.lift (Py.NameError "serverData") (serverData m) ;;
  Py.modify (with_server (NewStateDataReady now)) ;;;
  Py.modify (set_cur (Some
    (mkLocals count record consumption activeColumns predictiveCellsSDR))))%py.

(** What [int] raises when it has no integer to give. *)
Definition int_error (r : IntOfFloat) : Py.exn :=
  match r with
  | int_of_inf => Py.OverflowError
  | _ => Py.ValueError
  end.

(** [int(consumption / predictor_resolution)] of line 221;
  [predictor_resolution] is 1 (line 134), and a float divided by 1 is
  that float. *)
Definition py_int_of_float (x : Float L) : Stmt Z :=
  match int_of_float L x with
  | int_is z => Py.ret z
  | r => Py.raise (int_error r)
  end.

(** Lines 199-221: from [tm.activateCells] to [predictor.learn].  The
  arguments of [predictor.learn] are evaluated before the call, so an
  [int] that raises leaves the predictor untrained, after everything
  else of the step is done. *)
Definition learn_step : Stmt unit := (
  m <- Py.get ;;
  loc <- Py.lift (Py.NameError "activeColumns") (cur m) ;;
  Py.modify (set_tm (tm_activateCells L (tm m) (l_activeColumns loc) true)) ;;;
  m <- Py.get ;;
  let pdf := predictor_infer L (predictor m) (tm_getActiveCells L (tm m)) in
  foldr (fun n rest =>
      append_prediction n
        (match pdf n with
         | [] => nan
         | _ :: _ => predicted (argmax L (pdf n) * predictor_resolution)
         end) ;;;
      rest)
    (Py.ret tt) [1%nat; 5%nat] ;;;
  let rawAnomaly :=
    calculateRawAnomaly L (l_activeColumns loc)
      (tm_cellsToColumns L (tm m) (l_predictiveCellsSDR loc)) in
  let likelihood :=
    anomalyProbability L (anomaly_history m) (l_consumption loc) rawAnomaly in
  Py.modify (set_anomaly_history (fst likelihood)) ;;;
  Py.modify (fun m => set_anomaly (anomaly m ++ [rawAnomaly]) m) ;;;
  Py.modify (fun m => set_anomalyProb (anomalyProb m ++ [snd likelihood]) m) ;;;
  bucket <- py_int_of_float (l_consumption loc) ;;
  Py.modify (fun m => set_predictor
    (predictor_learn L (predictor m) (l_count loc)
       (tm_getActiveCells L (tm m)) bucket) m))%py.

(** Lines 234-237 *)
Definition shift_predictions (p : gmap nat (list Prediction))
  : gmap nat (list Prediction) :=
  map_imap (fun n_steps pred_list => Some (shift n_steps pred_list)) p.

Definition run_stmt (s : Stmt unit) (after : PC) (m : Main) : Main :=
  match s m with
  | (Py.Ok _, m') => set_pc after m'
  | (Py.Raise e, m') => set_pc (Raised e) m'
  end.

(** One atomic step of [main]. *)
Definition step (m : Main) : Main :=
  match pc m with
  | AtFor =>
      match todo m with
      | [] => set_pc AtShift m
      | (count, record) :: rest =>
          run_stmt (publish_step count record) AtWhileRunInLoop
            (set_todo rest m)
      end
  | AtWhileRunInLoop =>
      if runInLoop (pandaServer m) then set_pc AtReset m
      else set_pc AtWhileRunOneStep m
  | AtWhileRunOneStep =>
      if runOneStep (pandaServer m) then set_pc AtReset m
      else set_pc AtWhileRunInLoop m
  | AtReset => set_pc AtActivate (with_server (set_runOneStep false) m)
  | AtActivate => run_stmt learn_step AtFor m
  | AtShift =>
      set_pc Finished (set_predictions (shift_predictions (predictions m)) m)
  | Finished => m
  | Raised _ => m
  end.

Definition serve (a : ServerAction) (m : Main) : Main :=
  match a with
  | SetRunInLoop b => with_server (set_runInLoop b) m
  | SetRunOneStep b => with_server (set_runOneStep b) m
  end.

Definition exec (m : Main) (t : Tick) : Main :=
  match t with
  | Prog => step m
  | Server a => serve a m
  end.

Definition run (schedule : list Tick) (m : Main) : Main :=
  foldl exec m schedule.

(** [main] from line 69 up to the loop: the state in which the loop
  starts, or the exception of reading the file.  [server] is
  [pandaServer] as the server thread left it; its publication log
  starts empty. *)
Definition main_start (global_serverData : option ServerData)
  (server : PandaServer) (reader : list (list string)) : Main :=
  let server := mkServer (runInLoop server) (runOneStep server)
    (serverData_assigned server) (spatialPoolers server)
    (temporalMemories server) [] in
  let at_loop (p : PC) (records : list (list string)) :=
    mkMain p (enumerate records) None (new_sp L encodingWidth) (new_tm L)
      (new_anomaly_history L (length records)) (new_predictor L)
      [] [] [] (<[1%nat := []]> (<[5%nat := []]> ∅))
      global_serverData server in
  match read_records reader with
  | Py.Ok records => at_loop AtFor records
  | Py.Raise e => at_loop (Raised e) []
  end.

(** *** What each record should give: the loop body read sequentially

  The names below follow the claims' words: the per-step state shown to
  the visualisation, and what one pass of the loop body produces from a
  record when nothing runs in between. *)

(** The per-step state as the visualisation reads it. *)
Record StepView : Type := mkView {
  v_consumption_string : string;
  v_consumption_bits : list nat;
  v_consumption_count : nat;
  v_time_string : string;
  v_time_bits : list nat;
  v_time_count : nat;
  v_activeColumns : list nat;
  v_winnerCells : list nat;
  v_predictiveCells : list nat
}.

Definition get_input (i : string) (sd : ServerData) : option dataInput :=
  obj ← HTMObjects sd !! "HTM1"; inputs obj !! i.
Definition get_layer (l : string) (sd : ServerData) : option dataLayer :=
  obj ← HTMObjects sd !! "HTM1"; layers obj !! l.

Definition view_of (sd : ServerData) : option StepView :=
  c ← get_input "SL_Consumption" sd;
  t ← get_input "SL_TimeOfDay" sd;
  l ← get_layer "SensoryLayer" sd;
  Some (mkView (stringValue c) (bits c) (count c)
               (stringValue t) (bits t) (count t)
               (activeColumns l) (winnerCells l) (predictiveCells l)).

(** [serverData] has the object, the two inputs and the layer that the
  loop writes to, as [BuildPandaSystem] makes them. *)
Definition built (sd : ServerData) : Prop :=
  is_Some (get_input "SL_Consumption" sd) /\
  is_Some (get_input "SL_TimeOfDay" sd) /\
  is_Some (get_layer "SensoryLayer" sd).

(** A record the loop can read: a date in the first field, a number in the
  second. *)
Definition parse_record (record : list string)
  : option (string * Datetime L * Float L) :=
  r0 ← record !! 0%nat;
  dateString ← strptime L r0;
  r1 ← record !! 1%nat;
  consumption ← float L r1;
  Some (r0, dateString, consumption).

(** What one record produces. *)
Record StepOut : Type := mkOut {
  o_view : StepView;
  o_consumption : Float L;
  o_prediction : nat -> Prediction;
  o_rawAnomaly : Float L;
  o_likelihood : Float L
}.

(** The model objects between two records. *)
Record Model : Type := mkModel {
  mo_sp : SpatialPooler L;
  mo_tm : TemporalMemory L;
  mo_predictor : Predictor L;
  mo_anomaly_history : AnomalyLikelihood L
}.

Definition model_of (m : Main) : Model :=
  mkModel (sp m) (tm m) (predictor m) (anomaly_history m).

(** The second half of the loop body on the model objects alone, up to
  line 219. *)
Definition learn_out (view : StepView) (count : nat) (consumption : Float L)
    (activeColumns predictiveCellsSDR : SDR) (mo : Model) : StepOut * Model :=
  let tm2 := tm_activateCells L (mo_tm mo) activeColumns true in
  let active := tm_getActiveCells L tm2 in
  let pdf := predictor_infer L (mo_predictor mo) active in
  let prediction n :=
    match pdf n with
    | [] => nan
    | _ :: _ => predicted (argmax L (pdf n) * predictor_resolution)
    end in
  let raw := calculateRawAnomaly L activeColumns
               (tm_cellsToColumns L tm2 predictiveCellsSDR) in
  let likelihood :=
    anomalyProbability L (mo_anomaly_history mo) consumption raw in
  (mkOut view consumption prediction raw (snd likelihood),
   mkModel (mo_sp mo) tm2 (mo_predictor mo) (fst likelihood)).

(** Line 221: the predictor learns, unless [int] raises. *)
Definition train (count : nat) (consumption : Float L) (mo : Model)
  : option Model :=
  match int_of_float L consumption with
  | int_is bucket =>
      Some (mkModel (mo_sp mo) (mo_tm mo)
              (predictor_learn L (mo_predictor mo) count
                 (tm_getActiveCells L (mo_tm mo)) bucket)
              (mo_anomaly_history mo))
  | _ => None
  end.

(** The first half: encoders, spatial pooler, dendrites, and the view. *)
Definition publish_out (r0 : string) (dateString : Datetime L)
    (consumption : Float L) (mo : Model) : StepView * SDR * SDR * Model :=
  let dateBits := dateEncoder_encode L dateString in
  let consumptionBits := scalarEncoder_encode L consumption in
  let encoding := concatenate L encodingWidth [consumptionBits; dateBits] in
  let computed := sp_compute L (mo_sp mo) encoding true in
  let activeColumns := snd computed in
  let tm1 := tm_activateDendrites L (mo_tm mo) true in
  let predictiveCellsSDR := tm_getPredictiveCells L tm1 in
  (mkView ("consumption: " +:+ format_2f L consumption)
          (sparse consumptionBits) (size consumptionBits)
          r0 (sparse dateBits) (size dateBits)
          (sparse activeColumns) (sparse (tm_getWinnerCells L tm1))
          (sparse predictiveCellsSDR),
   activeColumns, predictiveCellsSDR,
   mkModel (fst computed) tm1 (mo_predictor mo) (mo_anomaly_history mo)).

(** Record after record, up to the first one that cannot be read, or up
  to and with the first one whose consumption [int] rejects. *)
Fixpoint reference (mo : Model) (todo : list (nat * list string))
  : list StepOut :=
  match todo with
  | [] => []
  | (count, record) :: rest =>
      match parse_record record with
      | None => []
      | Some (r0, dateString, consumption) =>
          let '(view, activeColumns, predictiveCellsSDR, mo1) :=
            publish_out r0 dateString consumption mo in
          let '(out, mo2) :=
            learn_out view count consumption activeColumns
              predictiveCellsSDR mo1 in
          out :: match train count consumption mo2 with
                 | Some mo3 => reference mo3 rest
                 | None => []
                 end
      end
  end.

(** The records after a step, when the step got through line 221. *)
Definition reference_from (trained : option Model)
    (todo : list (nat * list string)) : list StepOut :=
  match trained with
  | Some mo => reference mo todo
  | None => []
  end.

Definition new_model (records : list (list string)) : Model :=
  mkModel (new_sp L encodingWidth) (new_tm L) (new_predictor L)
    (new_anomaly_history L (length records)).

(** How often lines 199-221 have run. *)
Definition steps_done (m : Main) : nat := length (anomaly m).

(** *** The loop invariant

  [R] is what the records give when read sequentially and [n] their
  number; [data_ok m shown learned] says that the lists of [m] hold the
  results of the records [shown] as far as the first half of the body is
  concerned, and of [learned] for the second half. *)
Definition data_ok (m : Main) (shown learned : list StepOut) : Prop :=
  view_of <$> published (pandaServer m) = Some <$> (o_view <$> shown) /\
  m_inputs m = o_consumption <$> shown /\
  anomaly m = o_rawAnomaly <$> learned /\
  anomalyProb m = o_likelihood <$> learned /\
  predictions m !! 1%nat = Some ((fun o => o_prediction o 1%nat) <$> learned) /\
  predictions m !! 5%nat = Some ((fun o => o_prediction o 5%nat) <$> learned) /\
  exists sd, serverData m = Some sd /\ built sd.

Definition Inv (R : list StepOut) (n : nat) (m : Main) : Prop :=
  match pc m with
  | AtFor =>
      exists done,
        R = done ++ reference (model_of m) (todo m) /\
        length done + length (todo m) = n /\
        data_ok m done done
  | AtWhileRunInLoop | AtWhileRunOneStep | AtReset | AtActivate =>
      exists done loc view,
        cur m = Some loc /\
        let step := learn_out view (l_count loc) (l_consumption loc)
                      (l_activeColumns loc) (l_predictiveCellsSDR loc)
                      (model_of m) in
        R = done ++ fst step
                 :: reference_from
                      (train (l_count loc) (l_consumption loc) (snd step))
                      (todo m) /\
        length done + 1 + length (todo m) = n /\
        data_ok m (done ++ [fst step]) done
  | AtShift => todo m = [] /\ length R = n /\ data_ok m R R
  | Finished =>
      length R = n /\
      view_of <$> published (pandaServer m) = Some <$> (o_view <$> R) /\
      m_inputs m = o_consumption <$> R /\
      anomaly m = o_rawAnomaly <$> R /\
      predictions m !! 1%nat
      = Some (shift 1 ((fun o => o_prediction o 1%nat) <$> R)) /\
      predictions m !! 5%nat
      = Some (shift 5 ((fun o => o_prediction o 5%nat) <$> R))
  | Raised _ =>
      (exists k,
         view_of <$> published (pandaServer m)
         = Some <$> (o_view <$> take k R)) /\
      length (anomaly m) <= length (m_inputs m) <= n /\
      length (m_inputs m) <= length R
  end.

(** The steps asked for and not yet taken count with the steps done. *)
Definition credit (m : Main) : nat :=
  let asked := if runOneStep (pandaServer m) then 1 else 0 in
  steps_done m +
  match pc m with
  | AtReset => 1
  | AtActivate => 1 + asked
  | _ => asked
  end.

(** *** Schedules *)


(** Between [NewStateDataReady] and the end of the loop body. *)
Definition in_body (p : PC) : Prop :=
  p = AtWhileRunInLoop \/ p = AtWhileRunOneStep \/ p = AtReset \/ p = AtActivate.

(** The server thread asks for one step. *)
Definition trigger : Tick := Server (SetRunOneStep true).


(** A record the loop gets through: it can be read and the integer part
  of its consumption exists. *)
Definition processable (record : list string) : Prop :=
  exists r0 dateString consumption bucket,
    parse_record record = Some (r0, dateString, consumption) /\
    int_of_float L consumption = int_is bucket.





(** [main] under a schedule: the state reached. *)
Definition main (schedule : list Tick) (global_serverData : option ServerData)
    (server : PandaServer) (reader : list (list string)) : Main :=
  run schedule (main_start global_serverData server reader).

End Main.

Arguments PandaServer : clear implicits.
Arguments Main : clear implicits.
Arguments Locals : clear implicits.
Arguments StepOut : clear implicits.
Arguments Model : clear implicits.

(** *** A small library and input file to run the loop on *)

Definition toy : Library := {|
  Datetime := string;
  Float := Z;
  SpatialPooler := nat;
  TemporalMemory := list nat;
  Predictor := list Z;
  AnomalyLikelihood := nat;
  Prob := nat;
  strptime := fun s => if bool_decide (s = EmptyString) then None else Some s;
  float := Interaction.py_int;
  format_2f := fun z => pretty z +:+ ".00";
  int_of_float := int_is;
  dateEncoder_encode := fun d => mkSDR 8 [String.length d `mod` 8];
  scalarEncoder_encode := fun z => mkSDR 16 [Z.to_nat (z `mod` 16)];
  dateEncoder_size := 8;
  scalarEncoder_size := 16;
  concatenate := fun n l => mkSDR n (l ≫= sparse);
  new_sp := fun _ => 0;
  new_tm := [];
  new_predictor := [];
  new_anomaly_history := fun n => n;
  sp_compute := fun sp encoding _ => (S sp, mkSDR 4 (take 1 (sparse encoding)));
  tm_activateDendrites := fun tm _ => tm;
  tm_getPredictiveCells := fun tm => mkSDR 52 (take 1 tm);
  tm_getWinnerCells := fun tm => mkSDR 52 (take 2 tm);
  tm_activateCells := fun tm active _ => sparse active ++ tm;
  tm_getActiveCells := fun tm => mkSDR 52 tm;
  tm_cellsToColumns := fun _ cells => cells;
  predictor_infer := fun p _ n => if (length p <? n)%nat then [] else Z.to_nat <$> p;
  predictor_learn := fun p _ _ z => z :: p;
  argmax := fun pdf => foldr Nat.max 0 pdf;
  calculateRawAnomaly := fun a b =>
    (Z.of_nat (length (sparse a)) - Z.of_nat (length (sparse b)))%Z;
  anomalyProbability := fun h _ raw => (S h, raw)
|}.

Definition sample_reader : list (list string) :=
  [["timestamp"; "consumption"]; ["datetime"; "float"]; ["T"; ""];
   ["7/2/10 0:00"; "21"]; ["7/2/10 1:00"; "16"]; ["7/2/10 2:00"; "4"]].



Definition sample_server : PandaServer toy := mkServer false false false ∅ ∅ [].

Definition sample_start : Main toy :=
  main_start (Some BuildPandaSystem) sample_server sample_reader.

(** The gui switches to running in a loop and leaves [main] alone. *)
Definition sample_schedule : list Tick :=
  Server (SetRunInLoop true) :: replicate 14 Prog.

(** The small library with a float that may be a NaN: [float] reads
  ["nan"] as one, and [int] has no integer for it. *)
Definition toy_nan : Library := {|
  Datetime := string;
  Float := option Z;
  SpatialPooler := nat;
  TemporalMemory := list nat;
  Predictor := list Z;
  AnomalyLikelihood := nat;
  Prob := nat;
  strptime := fun s => if bool_decide (s = EmptyString) then None else Some s;
  float := fun s =>
    if bool_decide (s = "nan") then Some None else Some <$> Interaction.py_int s;
  format_2f := fun x =>
    match x with Some z => pretty z +:+ ".00" | None => "nan" end;
  int_of_float := fun x =>
    match x with Some z => int_is z | None => int_of_nan end;
  dateEncoder_encode := fun d => mkSDR 8 [String.length d `mod` 8];
  scalarEncoder_encode := fun x =>
    mkSDR 16 (match x with Some z => [Z.to_nat (z `mod` 16)] | None => [] end);
  dateEncoder_size := 8;
  scalarEncoder_size := 16;
  concatenate := fun n l => mkSDR n (l ≫= sparse);
  new_sp := fun _ => 0;
  new_tm := [];
  new_predictor := [];
  new_anomaly_history := fun n => n;
  sp_compute := fun sp encoding _ => (S sp, mkSDR 4 (take 1 (sparse encoding)));
  tm_activateDendrites := fun tm _ => tm;
  tm_getPredictiveCells := fun tm => mkSDR 52 (take 1 tm);
  tm_getWinnerCells := fun tm => mkSDR 52 (take 2 tm);
  tm_activateCells := fun tm active _ => sparse active ++ tm;
  tm_getActiveCells := fun tm => mkSDR 52 tm;
  tm_cellsToColumns := fun _ cells => cells;
  predictor_infer := fun p _ n => if (length p <? n)%nat then [] else Z.to_nat <$> p;
  predictor_learn := fun p _ _ z => z :: p;
  argmax := fun pdf => foldr Nat.max 0 pdf;
  calculateRawAnomaly := fun a b =>
    Some (Z.of_nat (length (sparse a)) - Z.of_nat (length (sparse b)))%Z;
  anomalyProbability := fun h _ raw => (S h, raw)
|}.

(** The same file with a consumption that reads as a NaN. *)
Definition sample_nan_reader : list (list string) :=
  [["timestamp"; "consumption"]; ["datetime"; "float"]; ["T"; ""];
   ["7/2/10 0:00"; "21"]; ["7/2/10 1:00"; "nan"]; ["7/2/10 2:00"; "4"]].

Definition sample_nan_server : PandaServer toy_nan :=
  mkServer false false false ∅ ∅ [].

End Hotgym.

(** ** Results with [ZeroDivisionError] *)

Module PyMore.

Inductive exn : Type :=
  | Known (e : Py.exn)
  | ZeroDivisionError.

Inductive result (A : Type) : Type :=
  | Ok (a : A)
  | Raise (e : exn).
Arguments Ok {A} a.
Arguments Raise {A} e.

Definition bind {A B} (r : result A) (k : A -> result B) : result B :=
  match r with
  | Ok a => k a
  | Raise e => Raise e
  end.

(** A loop whose body may raise: the first exception ends it. *)
Fixpoint for_each {A B} (body : A -> B -> result A) (a : A) (l : list B)
  : result A :=
  match l with
  | [] => Ok a
  | x :: rest => bind (body a x) (fun a' => for_each body a' rest)
  end.

End PyMore.

(** ** [src/PandaVis/interaction.py]: the window and escape handlers

    [onWindowEvent] and [onEscape] reach objects that [cInteraction]
    above does not hold: the window, the camera's lens and the HTM
    objects' own methods.  [App] adds them. *)

Module InteractionEvents.
Import Interaction.

Record Window : Type := mkWindow {
  isClosed : bool;
  getXSize : Z;
  getYSize : Z
}.

(** Calls received by the lens of [base.cam], oldest first. *)
Inductive LensCall : Type :=
  | setFov (fov : Q)
  | setAspectRatio (ratio : Q)
  | setFar (far : Q).

Record App : Type := mkApp {
  self : cInteraction;
  win : Window;                          (* [base.win] *)
  lens : list LensCall;
  setLens_calls : nat;                   (* [base.cam.node().setLens(lens)] *)
  gui_onWindowEvent_calls : nat;         (* [base.gui.onWindowEvent(window)] *)
  (* [obj.DestroySynapses()], by the key of [obj] in [base.HTMObjects] *)
  DestroySynapses_calls : list string
}.

Definition set_self (w : cInteraction) (a : App) : App :=
  mkApp w (win a) (lens a) (setLens_calls a) (gui_onWindowEvent_calls a)
    (DestroySynapses_calls a).
Definition call_lens (c : LensCall) (a : App) : App :=
  mkApp (self a) (win a) (lens a ++ [c]) (setLens_calls a)
    (gui_onWindowEvent_calls a) (DestroySynapses_calls a).
Definition call_setLens (a : App) : App :=
  mkApp (self a) (win a) (lens a) (S (setLens_calls a))
    (gui_onWindowEvent_calls a) (DestroySynapses_calls a).
Definition call_gui_onWindowEvent (a : App) : App :=
  mkApp (self a) (win a) (lens a) (setLens_calls a)
    (S (gui_onWindowEvent_calls a)) (DestroySynapses_calls a).
Definition call_DestroySynapses (a : App) (key : string) : App :=
  mkApp (self a) (win a) (lens a) (setLens_calls a)
    (gui_onWindowEvent_calls a) (DestroySynapses_calls a ++ [key]).

(** [width / height] on two Python ints. *)
Definition true_div (x y : Z) : PyMore.result Q :=
  if (y =? 0)%Z then PyMore.Raise PyMore.ZeroDivisionError
  else PyMore.Ok (inject_Z x / inject_Z y)%Q.

Definition onWindowEvent (a : App) : PyMore.result unit * App :=
  let closed :=
    if isClosed (win a) then CloseApp (self a) else (Py.Ok tt, self a) in
  match closed with
  | (Py.Raise e, w) => (PyMore.Raise (PyMore.Known e), set_self w a)
  | (Py.Ok _, w) =>
      let a := set_self w a in
      let width := getXSize (win a) in
      let height := getYSize (win a) in
      let a := call_lens (setFov 60) a in
      match true_div width height with
      | PyMore.Raise e => (PyMore.Raise e, a)
      | PyMore.Ok ratio =>
          let a := call_lens (setAspectRatio ratio) a in
          let a := call_lens (setFar 500) a in
          let a := call_setLens a in
          (PyMore.Ok tt, call_gui_onWindowEvent a)
      end
  end.

(** [onEscape]: the objects are visited in the order of the map's listing;
    Python visits them in the order in which they were put in. *)
Definition onEscape (a : App) : App :=
  foldl call_DestroySynapses a
    (fst <$> map_to_list (HTMObjects (base (self a)))).

(** The sample scene in a window of 800 by 600. *)
Definition sample_app : App :=
  mkApp sample_focused (mkWindow false 800 600) [] 0 0 [].

End InteractionEvents.

(** ** [src/HotgymExample/hotgym.py]: the accuracy figures, lines 239-251
    and the value [main] returns

    The plots of the verbose mode (lines 257-282) are not embedded; they
    come after the figures and do not change what is returned. *)

Module HotgymAccuracy.
Import Hotgym.

(** The float arithmetic of lines 247, 250 and 284. *)
Record Arith (L : Library) : Type := mkArith {
  Acc : Type;                 (* an accuracy figure: the int [0] or a float *)
  acc_zero : Acc;
  (* [acc + (inp - val) ** 2] *)
  add_squared_error : Acc -> Float L -> nat -> Acc;
  (* [(acc / samples) ** .5], for [samples] other than 0 *)
  root_mean : Acc -> nat -> Acc;
  negate : Acc -> Acc
}.
Arguments Acc {L} a.
Arguments acc_zero {L} a.
Arguments add_squared_error {L} a.
Arguments root_mean {L} a.
Arguments negate {L} a.

Global Instance Prediction_eq_dec : EqDecision Prediction.
Proof. solve_decision. Defined.

Section Accuracy.
Context {L : Library} (F : Arith L).

(** The keys of [predictions] as line 140 puts them in; no line adds or
    removes one.  They are also [sorted(predictions)]. *)
Definition horizons : list nat := [1; 5].

(** [accuracy] and [accuracy_samples] *)
Record Tally : Type := mkTally {
  accuracy : gmap nat (Acc F);
  accuracy_samples : gmap nat nat
}.

Definition key_error (n : nat) {A} : PyMore.result A :=
  PyMore.Raise (PyMore.Known (Py.KeyError (pretty n))).

(** Lines 245-248 *)
Definition score (predictions : gmap nat (list Prediction)) (idx : nat)
    (inp : Float L) (t : Tally) (n : nat) : PyMore.result Tally :=
  match predictions !! n with
  | None => key_error n
  | Some pred_list =>
      match pred_list !! idx with
      | None => PyMore.Raise (PyMore.Known Py.IndexError)
      | Some nan => PyMore.Ok t
      | Some (predicted val) =>
          match accuracy t !! n with
          | None => key_error n
          | Some a =>
              let accuracy' :=
                <[n := add_squared_error F a inp val]> (accuracy t) in
              match accuracy_samples t !! n with
              | None => key_error n
              | Some samples =>
                  PyMore.Ok (mkTally accuracy'
                               (<[n := S samples]> (accuracy_samples t)))
              end
          end
      end
  end.

(** Lines 240-248 *)
Definition tally (predictions : gmap nat (list Prediction))
    (inputs : list (Float L)) : PyMore.result Tally :=
  PyMore.for_each
    (fun t entry =>
       PyMore.for_each (score predictions (fst entry) (snd entry)) t horizons)
    (mkTally (<[5 := acc_zero F]> (<[1 := acc_zero F]> ∅))
             (<[5 := 0]> (<[1 := 0]> ∅)))
    (enumerate inputs).

(** Line 250 *)
Definition root_mean_square (t : Tally) (n : nat) : PyMore.result Tally :=
  match accuracy t !! n with
  | None => key_error n
  | Some a =>
      match accuracy_samples t !! n with
      | None => key_error n
      | Some samples =>
          if (samples =? 0)%nat then PyMore.Raise PyMore.ZeroDivisionError
          else PyMore.Ok (mkTally (<[n := root_mean F a samples]> (accuracy t))
                                  (accuracy_samples t))
      end
  end.

(** Lines 240-251 and the [return -accuracy[5]] *)
Definition main_return (m : Main L) : PyMore.result (Acc F) :=
  PyMore.bind (tally (predictions m) (m_inputs m)) (fun t =>
  PyMore.bind (PyMore.for_each root_mean_square t horizons) (fun t =>
  match accuracy t !! 5 with
  | None => key_error 5
  | Some a => PyMore.Ok (negate F a)
  end)).

(** The predictions that enter a figure: those that are not NaN. *)
Definition real_predictions (pred_list : list Prediction) : nat :=
  length (filter (fun p => p <> nan) pred_list).

End Accuracy.

(** Integer stand-ins for the floats of the small library. *)
Definition toy_arith : Arith toy := {|
  Acc := Z;
  acc_zero := 0%Z;
  add_squared_error := fun (a : Z) (inp : Float toy) (val : nat) =>
    (a + ((inp : Z) - Z.of_nat val) ^ 2)%Z;
  root_mean := fun a samples => Z.sqrt (a / Z.of_nat samples);
  negate := Z.opp
|}.

End HotgymAccuracy.

(** ** More scenes for the controller *)

Module InteractionScenes.
Import Interaction.

(** [w] after the lines [lines] have been printed, nothing else changed. *)
Definition logged (lines : list Out) (w : cInteraction) : cInteraction :=
  foldl (fun w o => write_stdout o w) w lines.

(** What [HandlePickedObject] prints before it looks at the node's name. *)
Definition tag_lines (obj : NodePath) (thisId parentId : Z) : list Out :=
  [OutStr ("PICKED OBJECT:" +:+ str_path obj);
   OutStr ("TAG:" +:+ pretty thisId);
   OutStr ("PARENT TAG:" +:+ pretty parentId)].

(** The requests [HandlePickedObject] sends for the gui's two switches. *)
Definition synapse_requests (g : Gui) : list ClientCall :=
  (if showProximalSynapses g then [reqProximalData] else [])
  ++ (if showDistalSynapses g then [reqDistalData] else []).

Definition sample_basement_path : NodePath :=
  [mkPandaNode "basement" {["clickable" := "7"]};
   mkPandaNode "grid" {["id" := "0"]};
   mkPandaNode "render" ∅].

(** A cell node of an HTM object the base does not hold. *)
Definition sample_stale_path : NodePath :=
  [mkPandaNode "cell" {["clickable" := "1"]};
   mkPandaNode "column" {["id" := "0"]};
   mkPandaNode "SensoryLayer" ∅;
   mkPandaNode "HTM2" ∅;
   mkPandaNode "render" ∅].

(** The position [l[i]] reads in a list of length [n]. *)
Definition py_position (n : nat) (i : Z) : nat :=
  if (0 <=? i)%Z then Z.to_nat i else Z.to_nat (Z.of_nat n + i).

(** The controller right after [__init__]. *)
Definition sample_fresh : cInteraction :=
  init sample_base sample_gui sample_client (1 # 10).

End InteractionScenes.

(** ** [src/HotgymExample/hotgym.py]: how runs of [main] end *)

Module HotgymRuns.
Import Hotgym.

Section Runs.
Context {L : Library}.

(** The part of [main] embedded here is over: the shift is done, or an
  exception has been raised. *)
Definition halted (m : Main L) : Prop :=
  pc m = Finished \/ exists e, pc m = Raised e.

(** [m'] is [m] but for the two flags that the server thread writes. *)
Definition same_but_flags (m m' : Main L) : Prop :=
  exists runInLoop' runOneStep',
    m' = with_server
           (fun p => set_runInLoop runInLoop' (set_runOneStep runOneStep' p)) m.

(** The exception of lines 144 and 146 on a record that cannot be read. *)
Definition parse_error (record : list string) : Py.exn :=
  match record with
  | [] => Py.IndexError
  | r0 :: fields =>
      match strptime L r0, fields with
      | None, _ => Py.ValueError
      | Some _, [] => Py.IndexError
      | Some _, _ :: _ => Py.ValueError
      end
  end.



(** A statement that leaves the server's flags alone and only adds to
  what has been published. *)
Definition server_grows (p p' : PandaServer L) : Prop :=
  runInLoop p' = runInLoop p /\ runOneStep p' = runOneStep p /\
  (published p `prefix_of` published p').
(** A statement after which the server object is related by [R] to what
  it was, whether the statement returns or raises. *)
Definition respects (R : relation (PandaServer L)) {A}
    (s : Py.M (Main L) A) : Prop :=
  forall m, R (pandaServer m) (pandaServer (snd (s m))).

End Runs.

(** A file that ends before its third header row. *)
Definition sample_short_reader : list (list string) :=
  [["timestamp"; "consumption"]; ["datetime"; "float"]].

(** The gui asks for one step at a time, three times, and the loop is
  run on after each request. *)
Definition sample_stepwise_schedule : list Tick :=
  mjoin (replicate 3 (Prog :: trigger :: replicate 4 Prog)) ++ [Prog; Prog].

End HotgymRuns.

(** ** [src/HotgymExample/hotgym.py]: the accuracy figures in closed form *)

Module HotgymFigures.
Import Hotgym HotgymAccuracy.

Section Figures.
Context {L : Library} (F : Arith L).

(** What one prediction adds to the sum of its horizon (line 247). *)
Definition add_error (inp : Float L) (a : Acc F) (p : Prediction) : Acc F :=
  match p with
  | nan => a
  | predicted val => add_squared_error F a inp val
  end.

(** The sum of the squared errors of a list of predictions against the
  inputs, entry by entry, NaN entries left out. *)
Definition squared_errors (inputs : list (Float L))
    (pred_list : list Prediction) : Acc F :=
  foldl (fun a entry => add_error entry.1 a entry.2) (acc_zero F)
    (zip inputs pred_list).

(** The four figures that [t] holds. *)
Definition holds (t : Tally F) (a1 : Acc F) (s1 : nat) (a5 : Acc F)
    (s5 : nat) : Prop :=
  accuracy F t !! 1 = Some a1 /\ accuracy_samples F t !! 1 = Some s1 /\
  accuracy F t !! 5 = Some a5 /\ accuracy_samples F t !! 5 = Some s5.

End Figures.

(** Predictions as a longer run would leave them, against the three
  inputs of the sample file. *)
Definition sample_predictions : gmap nat (list Prediction) :=
  <[5 := [nan; nan; predicted 20]]>
    (<[1 := [nan; predicted 21; predicted 16]]> ∅).
Definition sample_inputs : list (Float toy) := [21%Z; 16%Z; 4%Z].

(** The finished sample run, holding those predictions. *)
Definition sample_scored : Main toy :=
  set_predictions sample_predictions (run sample_schedule sample_start).

End HotgymFigures.

(** * Verification *)

(** ** The monad *)

Section PyLemmas.
Context {S A B : Type}.

Lemma bind_Ok (m : Py.M S A) (k : A -> Py.M S B) s a s' :
  m s = (Py.Ok a, s') -> Py.bind m k s = k a s'.
Proof. intros H. unfold Py.bind. now rewrite H. Qed.

Lemma bind_Raise (m : Py.M S A) (k : A -> Py.M S B) s e s' :
  m s = (Py.Raise e, s') -> Py.bind m k s = (Py.Raise e, s').
Proof. intros H. unfold Py.bind. now rewrite H. Qed.

Lemma bind_get (k : S -> Py.M S B) s : Py.bind Py.get k s = k s s.
Proof. reflexivity. Qed.

Lemma bind_modify (f : S -> S) (k : unit -> Py.M S B) s :
  Py.bind (Py.modify f) k s = k tt (f s).
Proof. reflexivity. Qed.

Lemma bind_ret (a : A) (k : A -> Py.M S B) s : Py.bind (Py.ret a) k s = k a s.
Proof. reflexivity. Qed.

Lemma bind_lift_Some e (o : option A) a (k : A -> Py.M S B) s :
  o = Some a -> Py.bind (Py.lift e o) k s = k a s.
Proof. now intros ->. Qed.

Lemma bind_lift_None e (o : option A) (k : A -> Py.M S B) s :
  o = None -> Py.bind (Py.lift e o) k s = (Py.Raise e, s).
Proof. now intros ->. Qed.
End PyLemmas.

(** ** The neuron node *)

Section NeuronFacts.
Import Neuron.

Lemma CreateGfx_creates loader n cube :
  loader "cube" = Some cube ->
  exists nd, CreateGfx loader n = (Py.Ok tt, mkNeuron (state n) (Some nd)).
Proof.
  intros H. unfold CreateGfx, UpdateState.
  rewrite (bind_lift_Some _ _ _ _ _ H). cbn. eexists. reflexivity.
Qed.

(** C8: once [CreateGfx] has made the node, [UpdateState] colours it red
  exactly when [state] is [True] and white exactly when it is [False],
  and in both cases sets the filled-wireframe render mode with a black
  wire colour again; nothing else of the neuron or node changes. *)
Theorem UpdateState_colours (n : cNeuron) (nd : Node) :
  node n = Some nd ->
  exists nd',
    UpdateState n = (Py.Ok tt, mkNeuron (state n) (Some nd')) /\
    (color nd' = Some red <-> state n = true) /\
    (color nd' = Some white <-> state n = false) /\
    renderMode nd' = RenderFilledWireframe black /\
    model nd' = model nd /\ pos nd' = pos nd /\ scale nd' = scale nd.
Proof.
  intros Hnd. unfold UpdateState.
  rewrite bind_get, (bind_lift_Some _ _ nd) by exact Hnd.
  eexists. split; [reflexivity|].
  destruct (state n); cbn; unfold red, white;
    repeat split; intros; congruence.
Qed.

Lemma UpdateState_colours_witness :
  node sample_neuron = Some sample_node /\
  exists nd',
    UpdateState sample_neuron
    = (Py.Ok tt, mkNeuron (state sample_neuron) (Some nd')) /\
    (color nd' = Some red <-> state sample_neuron = true) /\
    (color nd' = Some white <-> state sample_neuron = false) /\
    renderMode nd' = RenderFilledWireframe black /\
    model nd' = model sample_node /\ pos nd' = pos sample_node /\
    scale nd' = scale sample_node.
Proof.
  split; [reflexivity|].
  apply (UpdateState_colours sample_neuron sample_node). reflexivity.
Defined.

End NeuronFacts.

(** ** The camera and picking controller *)

Section InteractionFacts.
Import Interaction.

(** C10: [CloseApp] always raises [SystemExit(0)] after its log line, so
  the assignment to [client.terminateClientThread] is never reached and
  the flag keeps its value; only the log line is added to the state. *)
Theorem CloseApp_exits_before_terminate (w : cInteraction) :
  CloseApp w
  = (Py.Raise (Py.SystemExit 0), write_stdout (OutStr "CLOSE app event") w) /\
  terminateClientThread (client (snd (CloseApp w)))
  = terminateClientThread (client w).
Proof. split; reflexivity. Qed.

Lemma SetupKeys_fills_keys w :
  exists ks, keys (snd (SetupKeys w)) = Some ks /\
             Forall (fun k => ks !! k = Some 0%Z) key_names.
Proof.
  eexists. split; [reflexivity|].
  repeat constructor; vm_compute; reflexivity.
Qed.

Lemma onKey_keeps_space key value w ks :
  keys w = Some ks -> is_Some (ks !! "space") ->
  exists ks', keys (snd (onKey key value w)) = Some ks' /\
              is_Some (ks' !! "space").
Proof.
  intros Hk [v Hv]. unfold onKey.
  rewrite bind_get, (bind_lift_Some _ _ ks), bind_modify by exact Hk.
  assert (Hs : is_Some (<[key := value]> ks !! "space")).
  { rewrite lookup_insert. case_decide; eauto. }
  destruct Hs as [sp Hsp].
  rewrite (bind_lift_Some _ _ sp) by exact Hsp.
  exists (<[key := value]> ks). split; [|eauto].
  destruct (truthy sp); reflexivity.
Qed.

(** C9: [onKey] first stores [value] under [key]; it then toggles
  [speedBoost], and tells the gui the new value, exactly when
  [keys["space"]] is truthy after the store.  So while space is held
  down, a press or release of any other key toggles the boost too. *)
Theorem onKey_toggles_speedBoost (key : string) (value : Z)
    (w : cInteraction) (ks : gmap string Z) (space : Z) :
  keys w = Some ks ->
  <[key := value]> ks !! "space" = Some space ->
  let w' := snd (onKey key value w) in
  fst (onKey key value w) = Py.Ok tt /\
  keys w' = Some (<[key := value]> ks) /\
  (speedBoost w' = negb (speedBoost w) <-> truthy space = true) /\
  gui_calls (gui w')
  = gui_calls (gui w)
    ++ (if truthy space then [onSpeedBoostChanged (negb (speedBoost w))]
        else []) /\
  (key <> "space" -> ks !! "space" = Some space).
Proof.
  intros Hk Hsp. unfold onKey. cbn zeta.
  rewrite bind_get, (bind_lift_Some _ _ ks), bind_modify by exact Hk.
  rewrite (bind_lift_Some _ _ space) by exact Hsp.
  destruct (truthy space) eqn:Ht; cbn.
  - repeat split; auto.
    intros Hne. now rewrite lookup_insert_ne in Hsp.
  - rewrite app_nil_r. repeat split; auto; try discriminate.
    + destruct (speedBoost w); discriminate.
    + intros Hne. now rewrite lookup_insert_ne in Hsp.
Qed.

Lemma getkey_Some k w ks v :
  keys w = Some ks -> ks !! k = Some v ->
  getkey k w = (Py.Ok (inject_Z v), w).
Proof.
  intros Hk Hv. unfold getkey.
  now rewrite bind_get, (bind_lift_Some _ _ ks), (bind_lift_Some _ _ v).
Qed.

Lemma getkey_value k w ks :
  keys w = Some ks -> is_Some (ks !! k) ->
  getkey k w = (Py.Ok (key_value ks k), w).
Proof.
  intros Hk [v Hv]. unfold key_value. rewrite Hv. now apply (getkey_Some k w ks v).
Qed.

Lemma key_names_bound (ks : gmap string Z) k :
  Forall (fun k => is_Some (ks !! k)) key_names ->
  k ∈ key_names -> is_Some (ks !! k).
Proof. intros H Hin. rewrite Forall_forall in H. exact (H k Hin). Qed.

Lemma onKey_toggles_speedBoost_witness :
  keys sample_space_held = Some (keys_of sample_space_held) /\
  <["a" := 1%Z]> (keys_of sample_space_held) !! "space" = Some 1%Z /\
  (let w' := snd (onKey "a" 1%Z sample_space_held) in
  fst (onKey "a" 1%Z sample_space_held) = Py.Ok tt /\
  keys w' = Some (<["a" := 1%Z]> (keys_of sample_space_held)) /\
  (speedBoost w' = negb (speedBoost sample_space_held) <-> truthy 1%Z = true) /\
  gui_calls (gui w')
  = gui_calls (gui sample_space_held)
    ++ (if truthy 1%Z then [onSpeedBoostChanged (negb (speedBoost sample_space_held))]
        else []) /\
  ("a" <> "space" -> (keys_of sample_space_held) !! "space" = Some 1%Z)).
Proof.
  split; [reflexivity|]. split; [reflexivity|].
  apply (onKey_toggles_speedBoost "a" 1 sample_space_held
           (keys_of sample_space_held) 1); reflexivity.
Defined.

Lemma clamp_is_min (d : Q) :
  let dt := if Qle_bool d (1 # 20) then d else (1 # 20)%Q in
  (dt == Qmin d (1 # 20) /\ dt <= 1 # 20)%Q.
Proof.
  cbn zeta. destruct (Qle_bool d (1 # 20)) eqn:E.
  - apply Qle_bool_iff in E. split; [|exact E]. symmetry. now apply Q.min_l.
  - split; [|apply Qle_refl]. symmetry. apply Q.min_r.
    apply Qlt_le_weak, Qnot_le_lt. intros H.
    apply Qle_bool_iff in H. congruence.
Qed.

Ltac key_step Hk Hall :=
  erewrite (bind_Ok (getkey _));
  [| apply getkey_value;
     [exact Hk | apply (key_names_bound _ _ Hall); repeat constructor]].

(** C6: [UpdateCameraMovement] uses the frame time [dt = min(getDt(), 0.05)].
  With [K k] the number stored under key [k] and the speed in use
  (times four under speed boost), the camera is moved in its own frame
  by [dt * speed * (K d - K a)] sideways and [dt * speed * (K w - K s)]
  forward, its height changes by [dt * speed * (K shift - K control)],
  heading and pitch change by [90 * dt] per arrow key, and the mouse
  adds [-5000 * dt * dX] and [5000 * dt * dY], where [dX] and [dY] are the
  mouse motion since the last frame if the mouse is in the window and
  [rotateCamera] is set, and zero otherwise. *)
Theorem UpdateCameraMovement_moves (w : cInteraction) (ks : gmap string Z) :
  keys w = Some ks ->
  Forall (fun k => is_Some (ks !! k)) key_names ->
  (rotating w = true -> is_Some (mouseX_last w) /\ is_Some (mouseY_last w)) ->
  exists dt dX dY mx my : Q,
    let w' := snd (UpdateCameraMovement w) in
    let b := base w in
    let b' := base w' in
    let mw := mouseWatcherNode b in
    let K := key_value ks in
    fst (UpdateCameraMovement w) = Py.Ok tt /\
    (dt == Qmin (clock_dt w) (1 # 20) /\ dt <= 1 # 20)%Q /\
    (if rotating w
     then exists mxl myl,
          mouseX_last w = Some mxl /\ mouseY_last w = Some myl /\
          (dX == getMouseX mw - mxl)%Q /\ (dY == getMouseY mw - myl)%Q /\
          mouseX_last w' = Some (getMouseX mw) /\
          mouseY_last w' = Some (getMouseY mw)
     else dX = 0%Q /\ dY = 0%Q /\
          mouseX_last w' = mouseX_last w /\ mouseY_last w' = mouseY_last w) /\
    camera b'
    = camera b ++ [setPos true mx my 0; setZ (move_z b');
                   setHpr (camHeading b') (camPitch b') 0] /\
    (mx == dt * speed_in_use w * (K "d" - K "a"))%Q /\
    (my == dt * speed_in_use w * (K "w" - K "s"))%Q /\
    (move_z b' == move_z b + dt * speed_in_use w * (K "shift" - K "control"))%Q /\
    (camHeading b' == camHeading b
       + 90 * dt * (K "arrow_left" - K "arrow_right") - 5000 * dt * dX)%Q /\
    (camPitch b' == camPitch b
       + 90 * dt * (K "arrow_up" - K "arrow_down") + 5000 * dt * dY)%Q.
Proof.
  intros Hk Hall Hrot.
  pose proof (clamp_is_min (clock_dt w)) as Hdt. cbn zeta in Hdt.
  set (dt := if Qle_bool (clock_dt w) (1 # 20)
             then clock_dt w else (1 # 20)%Q) in *.
  unfold UpdateCameraMovement. rewrite bind_get.
  fold (rotating w). fold (speed_in_use w).
  destruct (rotating w) eqn:Erot.
  - destruct (Hrot eq_refl) as [[mxl Hx] [myl Hy]].
    rewrite (bind_Ok _ _ _
               (getMouseX (mouseWatcherNode (base w)) - mxl,
                getMouseY (mouseWatcherNode (base w)) - myl)%Q
               (set_mouseY_last (Some (getMouseY (mouseWatcherNode (base w))))
                  (set_mouseX_last
                     (Some (getMouseX (mouseWatcherNode (base w)))) w))).
    2:{ now rewrite (bind_lift_Some _ _ mxl), (bind_lift_Some _ _ myl). }
    cbn zeta. fold dt.
    do 6 key_step Hk Hall. rewrite !bind_modify.
    do 2 key_step Hk Hall. rewrite !bind_modify.
    do 2 key_step Hk Hall. rewrite !bind_modify.
    do 5 eexists. cbn.
    split; [reflexivity|]. split; [exact Hdt|].
    split.
    { exists mxl, myl. repeat split; try reflexivity; assumption. }
    split; [now rewrite <- !app_assoc|].
    repeat split; ring.
  - rewrite bind_ret. cbn zeta. fold dt.
    do 6 key_step Hk Hall. rewrite !bind_modify.
    do 2 key_step Hk Hall. rewrite !bind_modify.
    do 2 key_step Hk Hall. rewrite !bind_modify.
    do 5 eexists. cbn.
    split; [reflexivity|]. split; [exact Hdt|].
    split; [repeat split; reflexivity|].
    split; [now rewrite <- !app_assoc|].
    repeat split; ring.
Qed.

Lemma UpdateCameraMovement_moves_witness :
  keys sample_flying = Some (keys_of sample_flying) /\
  Forall (fun k => is_Some (keys_of sample_flying !! k)) key_names /\
  (rotating sample_flying = true ->
   is_Some (mouseX_last sample_flying) /\ is_Some (mouseY_last sample_flying)) /\
  (exists dt dX dY mx my : Q,
    let w' := snd (UpdateCameraMovement sample_flying) in
    let b := base sample_flying in
    let b' := base w' in
    let mw := mouseWatcherNode b in
    let K := key_value (keys_of sample_flying) in
    fst (UpdateCameraMovement sample_flying) = Py.Ok tt /\
    (dt == Qmin (clock_dt sample_flying) (1 # 20) /\ dt <= 1 # 20)%Q /\
    (if rotating sample_flying
     then exists mxl myl,
          mouseX_last sample_flying = Some mxl /\ mouseY_last sample_flying = Some myl /\
          (dX == getMouseX mw - mxl)%Q /\ (dY == getMouseY mw - myl)%Q /\
          mouseX_last w' = Some (getMouseX mw) /\
          mouseY_last w' = Some (getMouseY mw)
     else dX = 0%Q /\ dY = 0%Q /\
          mouseX_last w' = mouseX_last sample_flying /\ mouseY_last w' = mouseY_last sample_flying) /\
    camera b'
    = camera b ++ [setPos true mx my 0; setZ (move_z b');
                   setHpr (camHeading b') (camPitch b') 0] /\
    (mx == dt * speed_in_use sample_flying * (K "d" - K "a"))%Q /\
    (my == dt * speed_in_use sample_flying * (K "w" - K "s"))%Q /\
    (move_z b' == move_z b + dt * speed_in_use sample_flying * (K "shift" - K "control"))%Q /\
    (camHeading b' == camHeading b
       + 90 * dt * (K "arrow_left" - K "arrow_right") - 5000 * dt * dX)%Q /\
    (camPitch b' == camPitch b
       + 90 * dt * (K "arrow_up" - K "arrow_down") + 5000 * dt * dY)%Q).
Proof.
  split; [reflexivity|].
  split; [repeat constructor; vm_compute; eauto|].
  split; [intros _; vm_compute; eauto|].
  apply (UpdateCameraMovement_moves sample_flying (keys_of sample_flying)).
  - reflexivity.
  - repeat constructor; vm_compute; eauto.
  - intros _; vm_compute; eauto.
Defined.

Lemma findNetTag_found key (p : NodePath) :
  findNetTag key p <> [] <-> Exists (fun n => hasTag key n = true) p.
Proof.
  induction p as [|n anc IH]; cbn.
  - split; [congruence | intros H; inversion H].
  - destruct (hasTag key n) eqn:E.
    + split; [intros _; now left | discriminate].
    + rewrite IH. split; [now right|].
      intros H. inversion H; subst; [congruence | assumption].
Qed.

Lemma findNetTag_lowest key (p : NodePath) n rest :
  findNetTag key p = n :: rest ->
  hasTag key n = true /\
  exists below, p = below ++ n :: rest /\
                Forall (fun m => hasTag key m = false) below.
Proof.
  induction p as [|m anc IH]; cbn; [discriminate|].
  destruct (hasTag key m) eqn:E.
  - intros [= -> ->]. split; [exact E|]. exists []. now split.
  - intros H. destruct (IH H) as (Ht & below & -> & Hb).
    split; [exact Ht|]. exists (m :: below). split; [reflexivity|].
    now constructor.
Qed.

Global Instance closer_trans : Transitive closer.
Proof.
  intros a b c. unfold closer. rewrite !Qle_bool_iff. apply Qle_trans.
Qed.

Global Instance closer_total : Total closer.
Proof.
  intros a b. unfold closer. rewrite !Qle_bool_iff.
  destruct (Qlt_le_dec (entry_distance b) (entry_distance a)) as [H|H].
  - right. now apply Qlt_le_weak.
  - now left.
Qed.

Lemma sortEntries_closest q e rest :
  sortEntries q = e :: rest ->
  e ∈ q /\ forall e', e' ∈ q -> (entry_distance e <= entry_distance e')%Q.
Proof.
  intros Hs.
  pose proof (merge_sort_Permutation closer q) as Hp.
  pose proof (StronglySorted_merge_sort closer q) as Hss.
  unfold sortEntries in Hs. rewrite Hs in Hp, Hss.
  split.
  - rewrite <- Hp. now left.
  - intros e' He'. rewrite <- Hp in He'.
    apply StronglySorted_inv in Hss as [_ Hall].
    apply elem_of_cons in He' as [->|Hin].
    + apply Qle_refl.
    + rewrite Forall_forall in Hall. apply Qle_bool_iff. exact (Hall e' Hin).
Qed.

Lemma sortEntries_nil q : sortEntries q = [] -> q = [].
Proof.
  intros Hs. pose proof (merge_sort_Permutation closer q) as Hp.
  unfold sortEntries in Hs. rewrite Hs in Hp.
  symmetry in Hp. now apply Permutation_nil_r in Hp.
Qed.




(** C4: a left click runs [onClickObject], which casts the ray through the
  mouse position and refills the queue by a traversal.  With an empty
  queue nothing is handled.  Otherwise the queue is sorted, its first
  entry [e] is a closest one, and [HandlePickedObject] is called, on the
  node found by [findNetTag("clickable")], exactly when [e]'s node or one
  of its ancestors carries the tag; if none does, nothing is handled.  A
  release of the left button handles nothing. *)
Theorem onClickObject_handles_clickable (w : cInteraction) (pk : Picker) :
  picker w = Some pk ->
  let mw := mouseWatcherNode (base w) in
  let mpos := (getMouseX mw, getMouseY mw) in
  let queue := collide (base w) mpos in
  let cast q := set_picker (Some (mkPicker (Some mpos) q)) w in
  onMouseEvent "left" true w
  = onClickObject (write_stdout (OutStr "Mouse event:left") w) /\
  onMouseEvent "left" false w
  = (Py.Ok tt, write_stdout (OutStr "Mouse event:left") w) /\
  match sortEntries queue with
  | [] => queue = [] /\ onClickObject w = (Py.Ok tt, cast [])
  | e :: rest =>
      let obj := findNetTag "clickable" (getIntoNodePath e) in
      let seen := write_stdout (OutPath obj)
                    (write_stdout (OutEntries (e :: rest)) (cast (e :: rest))) in
      e ∈ queue /\
      (forall e', e' ∈ queue -> (entry_distance e <= entry_distance e')%Q) /\
      (Exists (fun n => hasTag "clickable" n = true) (getIntoNodePath e) ->
       obj <> [] /\ onClickObject w = HandlePickedObject obj seen) /\
      (~ Exists (fun n => hasTag "clickable" n = true) (getIntoNodePath e) ->
       onClickObject w = (Py.Ok tt, seen))
  end.
Proof.
  intros Hpk mw mpos queue cast.
  split; [reflexivity|]. split; [reflexivity|].
  unfold onClickObject. rewrite bind_get, (bind_lift_Some _ _ pk) by exact Hpk.
  rewrite !bind_modify. fold mw. fold mpos. fold queue. cbn [myHandler pickerRay].
  destruct (sortEntries queue) as [|e rest] eqn:Hs.
  - apply sortEntries_nil in Hs. rewrite Hs. split; reflexivity.
  - destruct (sortEntries_closest _ _ _ Hs) as [Hin Hmin].
    split; [exact Hin|]. split; [exact Hmin|].
    assert (Hlen : (0 <? length queue)%nat = true).
    { apply Nat.ltb_lt. destruct queue; [inversion Hin | cbn; lia]. }
    rewrite Hlen, bind_modify. cbn [myHandler pickerRay].
    rewrite (bind_lift_Some _ _ e) by reflexivity.
    unfold print. rewrite !bind_modify.
    split.
    + intros Hex. apply findNetTag_found in Hex.
      split; [exact Hex|].
      destruct (findNetTag "clickable" (getIntoNodePath e)) eqn:E;
        [congruence | reflexivity].
    + intros Hno. rewrite <- findNetTag_found in Hno.
      destruct (findNetTag "clickable" (getIntoNodePath e)) eqn:E;
        [reflexivity | exfalso; apply Hno; congruence].
Qed.

Lemma onClickObject_handles_clickable_witness :
  picker sample_world = Some (mkPicker None []) /\
  Exists (fun n => hasTag "clickable" n = true)
    (mkPandaNode "geometry" ∅ :: sample_cell_path) /\
  onClickObject sample_world
  = HandlePickedObject sample_cell_path
      (write_stdout (OutPath sample_cell_path)
         (write_stdout
            (OutEntries
               [mkEntry 3 (mkPandaNode "geometry" ∅ :: sample_cell_path);
                mkEntry 9 sample_floor_path])
            (set_picker
               (Some (mkPicker (Some (1 # 4, 1 # 2)%Q)
                  [mkEntry 3 (mkPandaNode "geometry" ∅ :: sample_cell_path);
                   mkEntry 9 sample_floor_path]))
               sample_world))).
Proof.
  split; [reflexivity|].
  split; [right; left; reflexivity|].
  pose proof (onClickObject_handles_clickable sample_world
                (mkPicker None []) eq_refl) as H.
  cbn zeta in H. destruct H as (_ & _ & H).
  change (sortEntries (collide (base sample_world)
            (getMouseX (mouseWatcherNode (base sample_world)),
             getMouseY (mouseWatcherNode (base sample_world)))))
    with [mkEntry 3 (mkPandaNode "geometry" ∅ :: sample_cell_path);
          mkEntry 9 sample_floor_path] in H.
  destruct H as (_ & _ & H & _).
  refine (proj2 (H _)). right; left; reflexivity.
Defined.
Lemma bind_raise {S A B} e (k : A -> Py.M S B) s :
  Py.bind (Py.raise e) k s = (Py.Raise e, s).
Proof. reflexivity. Qed.

Lemma bind_printLog {B} txt verbosity (k : unit -> Meth B) w :
  (verbosity <= FILE_VERBOSITY)%Z ->
  Py.bind (printLog txt verbosity) k w = k tt (write_stdout (OutStr txt) w).
Proof.
  intros H. unfold printLog. rewrite bool_decide_eq_true_2 by lia. reflexivity.
Qed.

Lemma printLog_run txt verbosity w :
  (verbosity <= FILE_VERBOSITY)%Z ->
  printLog txt verbosity w = (Py.Ok tt, write_stdout (OutStr txt) w).
Proof.
  intros H. unfold printLog. rewrite bool_decide_eq_true_2 by lia. reflexivity.
Qed.

Ltac py_step :=
  match goal with
  | |- context [Py.bind Py.get _ _] => rewrite bind_get
  | |- context [Py.bind (Py.modify _) _ _] => rewrite bind_modify
  | |- context [Py.bind (Py.ret _) _ _] => rewrite bind_ret
  | |- context [Py.bind (Py.raise _) _ _] => rewrite bind_raise
  | |- context [Py.bind (printLog _ _) _ _] =>
      rewrite bind_printLog by (vm_compute; discriminate)
  | |- context [printLog _ _ _] =>
      rewrite printLog_run by (vm_compute; discriminate)
  | |- context [Py.bind (Py.lift _ ?o) _ _] =>
      let E := fresh "E" in destruct o eqn:E; cbn [Py.lift]
  | |- context [Py.bind (Py.when ?b _) _ _] =>
      let E := fresh "E" in destruct b eqn:E; cbn [Py.when]
  | |- context [Py.when ?b _ _] =>
      let E := fresh "E" in destruct b eqn:E; cbn [Py.when]
  | |- context [(if ?b then _ else _) _] =>
      let E := fresh "E" in destruct b eqn:E
  | |- context [Py.bind (match ?o with Some _ => _ | None => _ end) _ _] =>
      let E := fresh "E" in destruct o eqn:E
  end.

Lemma HandlePickedObject_cases (obj : NodePath) (w : cInteraction) :
  let w' := snd (HandlePickedObject obj w) in
  (focusedCell w' = focusedCell w /\ cell_calls w' = cell_calls w) \/
  (exists c, focusedCell w' = Some c /\
             cell_calls w' = cell_calls w ++ refocus_calls (focusedCell w) c).
Proof.
  cbn zeta. unfold HandlePickedObject, int.
  repeat py_step; cbn in *; auto.
  all: right; eexists; split; [reflexivity|]; unfold refocus_calls;
    match goal with H : focusedCell _ = _ |- _ => rewrite H end;
    cbn; rewrite <- ?app_assoc; reflexivity.
Qed.

Lemma focus_after_snoc calls c :
  focus_after (calls ++ [c]) = focus_step (focus_after calls) c.
Proof. unfold focus_after. now rewrite foldl_app. Qed.

Lemma HandlePickedObject_one_focus (obj : NodePath) (w : cInteraction) :
  at_most_one_focused w ->
  at_most_one_focused (snd (HandlePickedObject obj w)).
Proof.
  intros Hinv.
  destruct (HandlePickedObject_cases obj w) as [[Hf Hc] | (c & Hf & Hc)];
    unfold at_most_one_focused in *; rewrite Hf, Hc; [exact Hinv|].
  intros uid. unfold refocus_calls.
  rewrite app_assoc, focus_after_snoc. cbn [focus_step].
  destruct (focusedCell w) as [p|] eqn:Ep.
  - rewrite focus_after_snoc. cbn [focus_step]. intros Hin.
    apply elem_of_union in Hin as [Hin|Hin].
    + apply elem_of_singleton in Hin. eauto.
    + apply elem_of_difference in Hin as [Hin Hne].
      destruct (Hinv uid Hin) as (c' & [= <-] & Hu).
      exfalso. apply Hne. now apply elem_of_singleton.
  - rewrite app_nil_r. intros Hin.
    apply elem_of_union in Hin as [Hin|Hin].
    + apply elem_of_singleton in Hin. eauto.
    + destruct (Hinv uid Hin) as (c' & [=] & _).
Qed.


Lemma py_int_empty : py_int EmptyString = None.
Proof. reflexivity. Qed.

Lemma HandlePickedObject_takes_focus (obj : NodePath) (w : cInteraction)
    thisId parentId h l HTMObj Layer column c :
  getName obj = "cell" ->
  py_int (getTag "clickable" obj) = Some thisId ->
  py_int (getTag "id" (getParent obj)) = Some parentId ->
  split_on "/" (str_path obj) !! 1%nat = Some h ->
  split_on "/" (str_path obj) !! 2%nat = Some l ->
  HTMObjects (base w) !! h = Some HTMObj ->
  layers HTMObj !! l = Some Layer ->
  py_getitem (corticalColumns Layer) parentId = Some column ->
  py_getitem (cells column) thisId = Some c ->
  takes_focus w (snd (HandlePickedObject obj w)) c [h; l].
Proof.
  intros Hname Hthis Hparent Hh Hl Hobj Hlay Hcol Hcell.
  assert (Htag : bool_decide (getTag "id" (getParent obj) = EmptyString) = false).
  { apply bool_decide_eq_false. intros E. rewrite E, py_int_empty in Hparent.
    discriminate. }
  unfold HandlePickedObject, int.
  rewrite bind_printLog by (vm_compute; discriminate).
  rewrite (bind_lift_Some _ _ _ _ _ Hthis).
  rewrite bind_printLog by (vm_compute; discriminate).
  rewrite Htag, (bind_lift_Some _ _ _ _ _ Hparent).
  rewrite bind_printLog by (vm_compute; discriminate).
  rewrite bool_decide_eq_true_2 by exact Hname.
  rewrite bind_printLog by (vm_compute; discriminate).
  rewrite (bind_lift_Some _ _ _ _ _ Hh), (bind_lift_Some _ _ _ _ _ Hl), bind_get.
  rewrite (bind_lift_Some _ _ HTMObj) by exact Hobj.
  rewrite (bind_lift_Some _ _ _ _ _ Hlay), (bind_lift_Some _ _ _ _ _ Hcol),
    (bind_lift_Some _ _ _ _ _ Hcell).
  unfold takes_focus, refocus_calls.
  repeat py_step; cbn in *;
    repeat match goal with H : focusedCell _ = _ |- _ => rewrite H end;
    cbn; rewrite <- ?app_assoc; repeat split; reflexivity.
Qed.

Lemma HandlePickedObject_not_clickable (obj : NodePath) (w : cInteraction)
    thisId :
  py_int (getTag "clickable" obj) = Some thisId ->
  getTag "id" (getParent obj) = EmptyString ->
  HandlePickedObject obj w
  = (Py.Ok tt,
     write_stdout (OutStr "Parent is not clickable!")
       (write_stdout (OutStr ("TAG:" +:+ pretty thisId))
          (write_stdout (OutStr ("PICKED OBJECT:" +:+ str_path obj)) w))).
Proof.
  intros Hthis Htag. unfold HandlePickedObject, int.
  rewrite bind_printLog by (vm_compute; discriminate).
  rewrite (bind_lift_Some _ _ _ _ _ Hthis).
  rewrite bind_printLog by (vm_compute; discriminate).
  rewrite bool_decide_eq_true_2 by exact Htag.
  now rewrite printLog_run by (vm_compute; discriminate).
Qed.

(** C5, as the code has it: [HandlePickedObject] keeps at most one cell
  focused, whatever it is given.  When the picked node is named "cell",
  its "clickable" tag and its parent's "id" tag both read as integers,
  and the path and the two indices lead to a cell [c] of a layer, the
  cell focused before (if any) gets [resetFocus] and then [c] gets
  [setFocus], and [focusedCell], [focusedPath] and the gui's two focus
  fields show [c].  When the "clickable" tag is a number and the parent's
  "id" tag is empty, the method returns having written its log lines
  only. *)
Theorem HandlePickedObject_moves_focus (obj : NodePath) (w : cInteraction) :
  at_most_one_focused w ->
  at_most_one_focused (snd (HandlePickedObject obj w)) /\
  (forall thisId parentId h l HTMObj Layer column c,
     getName obj = "cell" ->
     py_int (getTag "clickable" obj) = Some thisId ->
     py_int (getTag "id" (getParent obj)) = Some parentId ->
     split_on "/" (str_path obj) !! 1%nat = Some h ->
     split_on "/" (str_path obj) !! 2%nat = Some l ->
     HTMObjects (base w) !! h = Some HTMObj ->
     layers HTMObj !! l = Some Layer ->
     py_getitem (corticalColumns Layer) parentId = Some column ->
     py_getitem (cells column) thisId = Some c ->
     takes_focus w (snd (HandlePickedObject obj w)) c [h; l]) /\
  (forall thisId,
     py_int (getTag "clickable" obj) = Some thisId ->
     getTag "id" (getParent obj) = EmptyString ->
     HandlePickedObject obj w
     = (Py.Ok tt,
        write_stdout (OutStr "Parent is not clickable!")
          (write_stdout (OutStr ("TAG:" +:+ pretty thisId))
             (write_stdout (OutStr ("PICKED OBJECT:" +:+ str_path obj)) w)))).
Proof.
  intros Hinv. split; [now apply HandlePickedObject_one_focus|]. split.
  - intros. eapply HandlePickedObject_takes_focus; eassumption.
  - intros. now apply HandlePickedObject_not_clickable.
Qed.

Lemma sample_world_one_focus : at_most_one_focused sample_world.
Proof.
  intros uid Hin.
  change (cell_calls sample_world) with (@nil CellCall) in Hin.
  now apply elem_of_empty in Hin.
Qed.

Lemma HandlePickedObject_moves_focus_witness :
  at_most_one_focused sample_focused /\
  at_most_one_focused (snd (HandlePickedObject sample_cell_path sample_focused)) /\
  takes_focus sample_focused
    (snd (HandlePickedObject sample_cell_path sample_focused))
    (mkCell 2 100) ["HTM1"; "SensoryLayer"].
Proof.
  assert (H : at_most_one_focused sample_focused).
  { apply HandlePickedObject_one_focus, sample_world_one_focus. }
  split; [exact H|].
  destruct (HandlePickedObject_moves_focus sample_cell_path sample_focused H)
    as (H1 & H2 & _).
  split; [exact H1|].
  apply (H2 1%Z 0%Z "HTM1" "SensoryLayer"
           (mkHTMObject {["SensoryLayer" := sample_layer]}) sample_layer
           (mkColumn 100 [mkCell 1 100; mkCell 2 100]));
    reflexivity.
Defined.

(** C5 as stated fails: a node named "cell" with a numeric "clickable" tag
  whose parent's "id" tag is the non-empty text "x" makes [int] raise
  [ValueError]; no cell takes the focus. *)
Lemma HandlePickedObject_mistagged_parent :
  getName sample_mistagged_path = "cell" /\
  py_int (getTag "clickable" sample_mistagged_path) = Some 1%Z /\
  getTag "id" (getParent sample_mistagged_path) <> EmptyString /\
  fst (HandlePickedObject sample_mistagged_path sample_world)
  = Py.Raise Py.ValueError /\
  ~ exists c path,
      takes_focus sample_world
        (snd (HandlePickedObject sample_mistagged_path sample_world)) c path.
Proof.
  split; [reflexivity|]. split; [reflexivity|]. split; [discriminate|].
  split; [reflexivity|].
  intros (c & path & Hf & _). vm_compute in Hf. discriminate.
Qed.

End InteractionFacts.

(** ** The training loop *)

Section HotgymFacts.
Import Hotgym.
Context {L : Library}.
Implicit Types (m : Main L) (sd : ServerData) (server : PandaServer L).

Lemma update_input_run m sd i f inp :
  serverData m = Some sd -> get_input i sd = Some inp ->
  exists sd',
    update_input "HTM1" i f m = (Py.Ok tt, set_serverData (Some sd') m) /\
    get_input i sd' = Some (f inp) /\
    (forall j, j <> i -> get_input j sd' = get_input j sd) /\
    (forall l, get_layer l sd' = get_layer l sd).
Proof.
  intros Hsd Hin. unfold get_input in Hin.
  destruct (HTMObjects sd !! "HTM1") as [obj|] eqn:Hobj; [|discriminate].
  cbn in Hin. unfold update_input.
  rewrite bind_get, (bind_lift_Some _ _ sd) by exact Hsd.
  rewrite (bind_lift_Some _ _ obj) by exact Hobj.
  rewrite (bind_lift_Some _ _ inp) by exact Hin.
  eexists. split; [reflexivity|].
  unfold get_input, get_layer. cbn. rewrite !lookup_insert_eq. cbn.
  rewrite lookup_insert_eq. split; [reflexivity|]. split.
  - intros j Hj. rewrite lookup_insert_ne by congruence. now rewrite Hobj.
  - intros l. now rewrite Hobj.
Qed.

Lemma update_layer_run m sd l f lay :
  serverData m = Some sd -> get_layer l sd = Some lay ->
  exists sd',
    update_layer "HTM1" l f m = (Py.Ok tt, set_serverData (Some sd') m) /\
    get_layer l sd' = Some (f lay) /\
    (forall i, get_input i sd' = get_input i sd).
Proof.
  intros Hsd Hin. unfold get_layer in Hin.
  destruct (HTMObjects sd !! "HTM1") as [obj|] eqn:Hobj; [|discriminate].
  cbn in Hin. unfold update_layer.
  rewrite bind_get, (bind_lift_Some _ _ sd) by exact Hsd.
  rewrite (bind_lift_Some _ _ obj) by exact Hobj.
  rewrite (bind_lift_Some _ _ lay) by exact Hin.
  eexists. split; [reflexivity|].
  unfold get_input, get_layer. cbn. rewrite !lookup_insert_eq. cbn.
  rewrite lookup_insert_eq. split; [reflexivity|].
  intros i. now rewrite Hobj.
Qed.


(* current facts: HC, HT, HL about the serverData of the state in the goal *)
Ltac run_consumption HC HT HL :=
  match goal with
  | |- context [Py.bind (update_input "HTM1" "SL_Consumption" ?f) ?k ?m] =>
      let sd' := fresh "sd" in
      let Hrun := fresh "Hrun" in
      let Hi := fresh "Hi" in
      let Ho := fresh "Ho" in
      let Hl := fresh "Hl" in
      edestruct (update_input_run m _ "SL_Consumption" f _ eq_refl HC)
        as (sd' & Hrun & Hi & Ho & Hl);
      rewrite (bind_Ok _ k _ _ _ Hrun); clear Hrun;
      rewrite <- (Ho "SL_TimeOfDay") in HT by discriminate;
      rewrite <- Hl in HL; clear HC Ho Hl; rename Hi into HC
  end.

Ltac run_time HC HT HL :=
  match goal with
  | |- context [Py.bind (update_input "HTM1" "SL_TimeOfDay" ?f) ?k ?m] =>
      let sd' := fresh "sd" in
      let Hrun := fresh "Hrun" in
      let Hi := fresh "Hi" in
      let Ho := fresh "Ho" in
      let Hl := fresh "Hl" in
      edestruct (update_input_run m _ "SL_TimeOfDay" f _ eq_refl HT)
        as (sd' & Hrun & Hi & Ho & Hl);
      rewrite (bind_Ok _ k _ _ _ Hrun); clear Hrun;
      rewrite <- (Ho "SL_Consumption") in HC by discriminate;
      rewrite <- Hl in HL; clear HT Ho Hl; rename Hi into HT
  end.

Ltac run_layer HC HT HL :=
  match goal with
  | |- context [Py.bind (update_layer "HTM1" "SensoryLayer" ?f) ?k ?m] =>
      let sd' := fresh "sd" in
      let Hrun := fresh "Hrun" in
      let Hi := fresh "Hi" in
      let Hl := fresh "Hl" in
      edestruct (update_layer_run m _ "SensoryLayer" f _ eq_refl HL)
        as (sd' & Hrun & Hl & Hi);
      rewrite (bind_Ok _ k _ _ _ Hrun); clear Hrun;
      rewrite <- Hi in HC; rewrite <- Hi in HT;
      clear HL Hi; rename Hl into HL
  end.

Lemma publish_step_run m sd count record r0 d c :
  serverData m = Some sd -> built sd ->
  parse_record record = Some (r0, d, c) ->
  exists sd',
    view_of sd' = Some (publish_out r0 d c (model_of m)).1.1.1 /\
    built sd' /\
    publish_step count record m
    = (Py.Ok tt,
       let '(view, ac, pcs, mo1) := publish_out r0 d c (model_of m) in
       let ps := pandaServer m in
       mkMain (pc m) (todo m) (Some (mkLocals count record c ac pcs))
         (mo_sp mo1) (mo_tm mo1) (anomaly_history m) (predictor m)
         (m_inputs m ++ [c]) (anomaly m) (anomalyProb m) (predictions m)
         (Some sd')
         (mkServer (runInLoop ps) (runOneStep ps) true
            (<["HTM1" := mo_sp mo1]> (spatialPoolers ps))
            (<["HTM1" := mo_tm mo1]> (temporalMemories ps))
            (published ps ++ [sd']))).
Proof.
  intros Hsd ([ci HC] & [ti HT] & [li HL]) Hparse.
  unfold parse_record in Hparse.
  destruct (record !! 0%nat) as [r0'|] eqn:E0; [|discriminate]. cbn in Hparse.
  destruct (strptime L r0') as [d'|] eqn:E1; [|discriminate]. cbn in Hparse.
  destruct (record !! 1%nat) as [r1|] eqn:E2; [|discriminate]. cbn in Hparse.
  destruct (float L r1) as [c'|] eqn:E3; [|discriminate]. cbn in Hparse.
  injection Hparse as -> -> ->.
  unfold publish_step.
  rewrite (bind_lift_Some _ _ _ _ _ E0), (bind_lift_Some _ _ _ _ _ E1),
    (bind_lift_Some _ _ _ _ _ E2), (bind_lift_Some _ _ _ _ _ E3).
  rewrite bind_modify, bind_get, !bind_modify, bind_get.
  destruct m as [pc0 todo0 cur0 sp0 tm0 ah0 pr0 in0 an0 ap0 pd0 sdo ps0].
  cbn in Hsd. subst sdo.
  cbn [set_inputs set_sp set_tm tm sp pc todo cur anomaly_history predictor
       m_inputs anomaly anomalyProb predictions serverData pandaServer].
  do 3 run_consumption HC HT HL.
  do 3 run_time HC HT HL.
  run_layer HC HT HL. rewrite bind_get.
  do 2 run_layer HC HT HL.
  rewrite !bind_modify, bind_get. cbn [serverData set_serverData with_server].
  rewrite (bind_lift_Some _ _ _ _ _ eq_refl), bind_modify.
  eexists. split; [|split; [|reflexivity]].
  - unfold view_of. rewrite HC, HT, HL. reflexivity.
  - unfold built. rewrite HC, HT, HL. eauto.
Qed.

Lemma publish_step_raise m count record :
  parse_record (L := L) record = None ->
  exists e, publish_step count record m = (Py.Raise e, m).
Proof.
  intros Hparse. unfold parse_record in Hparse. unfold publish_step.
  destruct (record !! 0%nat) as [r0|] eqn:E0; cbn in Hparse;
    [rewrite (bind_lift_Some _ _ _ _ _ eq_refl)|eexists; reflexivity].
  destruct (strptime L r0) as [d|] eqn:E1; cbn in Hparse;
    [rewrite (bind_lift_Some _ _ _ _ _ eq_refl)|eexists; reflexivity].
  destruct (record !! 1%nat) as [r1|] eqn:E2; cbn in Hparse;
    [rewrite (bind_lift_Some _ _ _ _ _ eq_refl)|eexists; reflexivity].
  destruct (float L r1) as [c|] eqn:E3; cbn in Hparse;
    [discriminate|eexists; reflexivity].
Qed.

Lemma append_prediction_run m n x p :
  predictions m !! n = Some p ->
  append_prediction n x m
  = (Py.Ok tt, set_predictions (<[n := p ++ [x]]> (predictions m)) m).
Proof.
  intros H. unfold append_prediction.
  now rewrite bind_get, (bind_lift_Some _ _ _ _ _ H).
Qed.

Lemma bind_assoc {S A B C} (m0 : Py.M S A) (k1 : A -> Py.M S B)
    (k2 : B -> Py.M S C) s :
  Py.bind (Py.bind m0 k1) k2 s = Py.bind m0 (fun x => Py.bind (k1 x) k2) s.
Proof. unfold Py.bind. destruct (m0 s) as [[a|e] s']; reflexivity. Qed.

Lemma learn_step_run m loc p1 p5 view :
  cur m = Some loc ->
  predictions m !! 1%nat = Some p1 -> predictions m !! 5%nat = Some p5 ->
  let step := learn_out view (l_count loc) (l_consumption loc)
                (l_activeColumns loc) (l_predictiveCellsSDR loc) (model_of m) in
  let after :=
    default (snd step) (train (l_count loc) (l_consumption loc) (snd step)) in
  learn_step m
  = (match int_of_float L (l_consumption loc) with
     | int_is _ => Py.Ok tt
     | r => Py.Raise (int_error r)
     end,
     mkMain (pc m) (todo m) (cur m) (mo_sp after) (mo_tm after)
       (mo_anomaly_history after) (mo_predictor after) (m_inputs m)
       (anomaly m ++ [o_rawAnomaly (fst step)])
       (anomalyProb m ++ [o_likelihood (fst step)])
       (<[5%nat := p5 ++ [o_prediction (fst step) 5%nat]]>
          (<[1%nat := p1 ++ [o_prediction (fst step) 1%nat]]> (predictions m)))
       (serverData m) (pandaServer m)).
Proof.
  intros Hcur H1 H5. unfold learn_step.
  rewrite bind_get, (bind_lift_Some _ _ _ _ _ Hcur), bind_modify, bind_get.
  cbn [foldr]. rewrite !bind_assoc.
  erewrite (bind_Ok (append_prediction 1 _));
    [|apply append_prediction_run; exact H1].
  cbn beta. rewrite ?bind_assoc.
  erewrite (bind_Ok (append_prediction 5 _));
    [|apply append_prediction_run; cbn;
      rewrite lookup_insert_ne by discriminate; exact H5].
  cbn beta. rewrite ?bind_assoc, bind_ret, !bind_modify.
  cbn zeta. unfold py_int_of_float, train.
  destruct (int_of_float L (l_consumption loc)) as [z| |];
    [rewrite bind_ret | rewrite bind_raise | rewrite bind_raise]; reflexivity.
Qed.

Lemma data_ok_frame m m' shown learned :
  published (pandaServer m') = published (pandaServer m) ->
  m_inputs m' = m_inputs m -> anomaly m' = anomaly m ->
  anomalyProb m' = anomalyProb m -> predictions m' = predictions m ->
  serverData m' = serverData m ->
  data_ok m shown learned -> data_ok m' shown learned.
Proof.
  unfold data_ok. intros -> -> -> -> -> ->. auto.
Qed.

Lemma Inv_frame R n m m' :
  pc m' = pc m -> todo m' = todo m -> cur m' = cur m ->
  model_of m' = model_of m ->
  published (pandaServer m') = published (pandaServer m) ->
  m_inputs m' = m_inputs m -> anomaly m' = anomaly m ->
  anomalyProb m' = anomalyProb m -> predictions m' = predictions m ->
  serverData m' = serverData m ->
  Inv R n m -> Inv R n m'.
Proof.
  intros Hpc Htodo Hcur Hmo Hpub Hin Han Hap Hpr Hsd.
  unfold Inv. rewrite Hpc, Htodo, Hcur, Hmo, Hpub, Hin, Han, Hpr.
  destruct (pc m).
  - intros (done & ? & ? & ?). exists done. eauto using data_ok_frame.
  - intros (done & loc & view & ? & ? & ? & ?). exists done, loc, view.
    eauto 10 using data_ok_frame.
  - intros (done & loc & view & ? & ? & ? & ?). exists done, loc, view.
    eauto 10 using data_ok_frame.
  - intros (done & loc & view & ? & ? & ? & ?). exists done, loc, view.
    eauto 10 using data_ok_frame.
  - intros (done & loc & view & ? & ? & ? & ?). exists done, loc, view.
    eauto 10 using data_ok_frame.
  - intros (? & ? & ?). eauto using data_ok_frame.
  - tauto.
  - tauto.
Qed.

(** Moving among the four places of the wait keeps the invariant. *)
Lemma Inv_body R n m m' :
  in_body (pc m) -> in_body (pc m') ->
  todo m' = todo m -> cur m' = cur m ->
  model_of m' = model_of m ->
  published (pandaServer m') = published (pandaServer m) ->
  m_inputs m' = m_inputs m -> anomaly m' = anomaly m ->
  anomalyProb m' = anomalyProb m -> predictions m' = predictions m ->
  serverData m' = serverData m ->
  Inv R n m -> Inv R n m'.
Proof.
  intros Hb Hb' Htodo Hcur Hmo Hpub Hin Han Hap Hpr Hsd HI.
  assert (Hbody : exists done loc view,
        cur m = Some loc /\
        let step := learn_out view (l_count loc) (l_consumption loc)
                      (l_activeColumns loc) (l_predictiveCellsSDR loc)
                      (model_of m) in
        R = done ++ fst step
                 :: reference_from
                      (train (l_count loc) (l_consumption loc) (snd step))
                      (todo m) /\
        length done + 1 + length (todo m) = n /\
        data_ok m (done ++ [fst step]) done).
  { unfold Inv in HI. destruct Hb as [E|[E|[E|E]]]; rewrite E in HI; exact HI. }
  destruct Hbody as (done & loc & view & H1 & H2 & H3 & H4).
  assert (exists done loc view,
        cur m' = Some loc /\
        let step := learn_out view (l_count loc) (l_consumption loc)
                      (l_activeColumns loc) (l_predictiveCellsSDR loc)
                      (model_of m') in
        R = done ++ fst step
                 :: reference_from
                      (train (l_count loc) (l_consumption loc) (snd step))
                      (todo m') /\
        length done + 1 + length (todo m') = n /\
        data_ok m' (done ++ [fst step]) done) as Hbody'.
  { exists done, loc, view. rewrite Hcur, Hmo, Htodo.
    eauto 10 using data_ok_frame. }
  unfold Inv. destruct Hb' as [E|[E|[E|E]]]; rewrite E; exact Hbody'.
Qed.

Lemma Inv_serve R n m a : Inv R n m -> Inv R n (serve a m).
Proof. destruct a; apply Inv_frame; reflexivity. Qed.

Lemma take_length_app {A} (l1 l2 : list A) : take (length l1) (l1 ++ l2) = l1.
Proof. now rewrite take_app_length. Qed.

Lemma reference_cons (mo : Model L) count record rest :
  reference mo ((count, record) :: rest)
  = match parse_record record with
    | None => []
    | Some (r0, dateString, consumption) =>
        let po := publish_out r0 dateString consumption mo in
        let lo := learn_out po.1.1.1 count consumption po.1.1.2 po.1.2 po.2 in
        lo.1 :: reference_from (train count consumption lo.2) rest
    end.
Proof.
  cbn [reference]. destruct (parse_record record) as [[[r0 d] c]|]; [|reflexivity].
  destruct (publish_out r0 d c mo) as [[[view ac] pcs] mo1].
  cbn [fst snd]. now destruct (learn_out view count c ac pcs mo1).
Qed.

Lemma reference_length_todo todo : forall (mo : Model L),
  length (reference mo todo) <= length todo.
Proof.
  induction todo as [|[count record] rest IH]; intros mo; [reflexivity|].
  rewrite reference_cons.
  destruct (parse_record record) as [[[r0 d] c]|]; [|cbn; lia].
  cbn zeta. cbn [length]. unfold reference_from.
  destruct (train _ _ _) as [mo3|]; [specialize (IH mo3)|]; cbn; lia.
Qed.

Lemma reference_from_length trained todo :
  length (reference_from (L := L) trained todo) <= length todo.
Proof.
  destruct trained as [mo|]; [apply reference_length_todo | cbn; lia].
Qed.

Lemma reference_nil (mo : Model L) : reference mo [] = [].
Proof. reflexivity. Qed.

Local Arguments learn_out : simpl never.
Local Arguments publish_out : simpl never.
Local Arguments reference : simpl never.
Local Arguments train : simpl never.

Lemma Inv_step R n m : Inv R n m -> Inv R n (step m).
Proof.
  intros HI. unfold step. destruct (pc m) eqn:Hpc.
  - (* AtFor *)
    unfold Inv in HI. rewrite Hpc in HI.
    destruct HI as (done & HR & Hlen & Hdata).
    destruct (todo m) as [|[count record] rest] eqn:Htodo.
    + rewrite reference_nil, app_nil_r in HR. subst done.
      unfold Inv. cbn. cbn in Hlen.
      split; [exact Htodo|]. split; [lia|]. exact Hdata.
    + rewrite reference_cons in HR.
      destruct Hdata as (Hv & Hin & Han & Hap & Hp1 & Hp5 & sd & Hsd & Hb).
      destruct (parse_record (L := L) record) as [[[r0 d] c]|] eqn:Hparse.
      * destruct (publish_step_run (set_todo rest m) sd count record r0 d c
                    Hsd Hb Hparse) as (sd' & Hview & Hb' & Hrun).
        unfold run_stmt. rewrite Hrun. clear Hrun.
        change (model_of (set_todo rest m)) with (model_of m) in *.
        destruct (publish_out r0 d c (model_of m)) as [[[view ac] pcs] mo1] eqn:Hpo.
        unfold Inv. cbn.
        exists done, (mkLocals count record c ac pcs), view.
        split; [reflexivity|]. cbn.
        assert (Hmo : mkModel (mo_sp mo1) (mo_tm mo1) (predictor m)
                        (anomaly_history m) = mo1).
        { unfold publish_out in Hpo. injection Hpo as _ _ _ <-. reflexivity. }
        unfold model_of. cbn. rewrite Hmo. cbn [fst snd] in HR.
        destruct (learn_out view count c ac pcs mo1) as [out mo2] eqn:Hlo.
        cbn [fst snd] in *. split; [exact HR|]. split; [cbn in Hlen; lia|].
        assert (Hov : o_view out = view /\ o_consumption out = c).
        { unfold learn_out in Hlo. injection Hlo as <- _. split; reflexivity. }
        destruct Hov as [Hov Hoc].
        unfold data_ok. cbn.
        rewrite !fmap_app, Hv, Hin. cbn. rewrite Hview, Hov, Hoc.
        repeat split; auto. eauto.
      * destruct (publish_step_raise (set_todo rest m) count record Hparse)
          as [e Hrun].
        unfold run_stmt. rewrite Hrun. unfold Inv. cbn.
        split.
        { exists (length done). rewrite HR, app_nil_r, firstn_all. exact Hv. }
        rewrite Han, Hin, !length_fmap, HR, app_nil_r. cbn in Hlen. lia.
  - (* AtWhileRunInLoop *)
    assert (Hb : in_body (pc m)) by (rewrite Hpc; unfold in_body; tauto).
    destruct (runInLoop (pandaServer m));
      (eapply Inv_body; [exact Hb| | | | | | | | | | |exact HI]);
      try reflexivity; unfold in_body; cbn; tauto.
  - assert (Hb : in_body (pc m)) by (rewrite Hpc; unfold in_body; tauto).
    destruct (runOneStep (pandaServer m));
      (eapply Inv_body; [exact Hb| | | | | | | | | | |exact HI]);
      try reflexivity; unfold in_body; cbn; tauto.
  - assert (Hb : in_body (pc m)) by (rewrite Hpc; unfold in_body; tauto).
    eapply Inv_body; [exact Hb| | | | | | | | | | |exact HI];
      try reflexivity; unfold in_body; cbn; tauto.
  - (* AtActivate *)
    unfold Inv in HI. rewrite Hpc in HI.
    destruct HI as (done & loc & view & Hcur & HR & Hlen & Hdata).
    destruct Hdata as (Hv & Hin & Han & Hap & Hp1 & Hp5 & Hsd).
    unfold run_stmt.
    rewrite (learn_step_run m loc _ _ view Hcur Hp1 Hp5).
    set (stp := learn_out view (l_count loc) (l_consumption loc)
                  (l_activeColumns loc) (l_predictiveCellsSDR loc)
                  (model_of m)) in *.
    cbn zeta in HR. unfold train in *.
    destruct (int_of_float L (l_consumption loc)) as [z| |] eqn:Hint.
    + (* the predictor learns *)
      unfold Inv. cbn. exists (done ++ [fst stp]).
      split; [rewrite <- app_assoc; exact HR|].
      split; [rewrite length_app; cbn; lia|].
      unfold data_ok. cbn. rewrite !fmap_app, Han, Hap. cbn.
      rewrite lookup_insert_ne by discriminate. rewrite !lookup_insert_eq.
      rewrite ?fmap_app in Hv. rewrite ?fmap_app in Hin.
      repeat split; auto.
    + (* int raises ValueError *)
      unfold Inv. cbn. cbn [reference_from] in HR. split.
      { exists (length R). rewrite firstn_all, HR. exact Hv. }
      rewrite Han, Hin, HR, !length_app, !length_fmap, !length_app.
      cbn. lia.
    + (* int raises OverflowError *)
      unfold Inv. cbn. cbn [reference_from] in HR. split.
      { exists (length R). rewrite firstn_all, HR. exact Hv. }
      rewrite Han, Hin, HR, !length_app, !length_fmap, !length_app.
      cbn. lia.
  - (* AtShift *)
    unfold Inv in HI. rewrite Hpc in HI.
    destruct HI as (Htodo & Hlen & Hv & Hin & Han & Hap & Hp1 & Hp5 & Hsd).
    unfold Inv. cbn. unfold shift_predictions.
    rewrite !map_lookup_imap, Hp1, Hp5. cbn. repeat split; auto.
  - unfold Inv in *. now rewrite Hpc in *.
  - unfold Inv in *. now rewrite Hpc in *.
Qed.

Lemma Inv_run R n schedule m : Inv R n m -> Inv R n (run schedule m).
Proof.
  revert m. induction schedule as [|t s IH]; intros m HI; [exact HI|].
  cbn. apply IH. destruct t; [now apply Inv_step | now apply Inv_serve].
Qed.

Lemma foldl_snoc {A} (acc l : list A) :
  foldl (fun records record => records ++ [record]) acc l = acc ++ l.
Proof.
  revert acc. induction l as [|x l IH]; intros acc; cbn.
  - now rewrite app_nil_r.
  - rewrite IH, <- app_assoc. reflexivity.
Qed.

Lemma read_records_drop (reader : list (list string)) :
  3 <= length reader -> read_records reader = Py.Ok (drop 3 reader).
Proof.
  destruct reader as [|h [|x [|y rest]]]; cbn; try lia.
  intros _. now rewrite foldl_snoc.
Qed.

Lemma read_records_short (reader : list (list string)) :
  length reader < 3 -> read_records reader = Py.Raise Py.StopIteration.
Proof.
  destruct reader as [|h [|x [|y rest]]]; cbn; try lia; reflexivity.
Qed.

Lemma read_records_inv (reader records : list (list string)) :
  read_records reader = Py.Ok records ->
  3 <= length reader /\ records = drop 3 reader.
Proof.
  destruct (Nat.lt_ge_cases (length reader) 3) as [H|H].
  - rewrite read_records_short by exact H. discriminate.
  - rewrite read_records_drop by exact H. intros [= <-]. auto.
Qed.

Lemma length_enumerate {A} (l : list A) : length (enumerate l) = length l.
Proof. unfold enumerate. apply length_imap. Qed.

Lemma Inv_start sd server reader records :
  read_records reader = Py.Ok records -> built sd ->
  Inv (reference (new_model records) (enumerate records)) (length records)
    (main_start (L := L) (Some sd) server reader).
Proof.
  intros Hread Hb. unfold main_start. rewrite Hread. unfold Inv. cbn.
  exists []. split; [reflexivity|]. split; [apply length_enumerate|].
  unfold data_ok. cbn. repeat split; eauto.
Qed.



Lemma run_app s1 s2 m : run (s1 ++ s2) m = run s2 (run s1 m).
Proof. unfold run. apply foldl_app. Qed.

(** The first half of the body on a record that can be read. *)
Lemma publish_round R n m count record rest r0 d c :
  Inv R n m -> pc m = AtFor ->
  todo m = (count, record) :: rest -> parse_record record = Some (r0, d, c) ->
  Inv R n (step m) /\ pc (step m) = AtWhileRunInLoop /\
  todo (step m) = rest /\
  (exists ac pcs, cur (step m) = Some (mkLocals count record c ac pcs)) /\
  runInLoop (pandaServer (step m)) = runInLoop (pandaServer m) /\
  runOneStep (pandaServer (step m)) = runOneStep (pandaServer m) /\
  length (published (pandaServer (step m)))
  = S (length (published (pandaServer m))) /\
  tm (step m) = tm_activateDendrites L (tm m) true /\
  anomaly (step m) = anomaly m.
Proof.
  intros HI Hpc Htodo Hparse.
  split; [now apply Inv_step|].
  unfold Inv in HI. rewrite Hpc in HI.
  destruct HI as (done & _ & _ & Hdata).
  destruct Hdata as (_ & _ & _ & _ & _ & _ & sd & Hsd & Hb).
  destruct (publish_step_run (set_todo rest m) sd count record r0 d c
              Hsd Hb Hparse) as (sd' & _ & _ & Hrun).
  unfold step. rewrite Hpc, Htodo. unfold run_stmt. rewrite Hrun.
  unfold publish_out. cbn. rewrite length_app. cbn.
  repeat split; eauto; lia.
Qed.

(** The second half of the body on a consumption that [int] accepts. *)
Lemma learn_round R n m loc bucket :
  Inv R n m -> pc m = AtActivate -> cur m = Some loc ->
  int_of_float L (l_consumption loc) = int_is bucket ->
  Inv R n (step m) /\ pc (step m) = AtFor /\ todo (step m) = todo m /\
  pandaServer (step m) = pandaServer m /\
  steps_done (step m) = S (steps_done m).
Proof.
  intros HI Hpc Hcur Hint.
  split; [now apply Inv_step|].
  unfold Inv in HI. rewrite Hpc in HI.
  destruct HI as (done & loc' & view & Hcur' & _ & _ & Hdata).
  rewrite Hcur in Hcur'. injection Hcur' as <-.
  destruct Hdata as (_ & _ & _ & _ & Hp1 & Hp5 & _).
  unfold step. rewrite Hpc. unfold run_stmt.
  rewrite (learn_step_run m loc _ _ view Hcur Hp1 Hp5), Hint.
  unfold steps_done. cbn. rewrite length_app. cbn. repeat split; lia.
Qed.

(** One pass of the loop body on a record the loop gets through, the gui
  letting the loop run. *)
Lemma loop_round R n m count record rest :
  Inv R n m -> pc m = AtFor -> runInLoop (pandaServer m) = true ->
  todo m = (count, record) :: rest -> processable (L := L) record ->
  let m' := run (replicate 4 Prog) m in
  Inv R n m' /\ pc m' = AtFor /\ runInLoop (pandaServer m') = true /\
  todo m' = rest.
Proof.
  intros HI Hpc Hloop Htodo (r0 & d & c & z & Hparse & Hint). cbn zeta.
  cbn [replicate run foldl exec].
  destruct (publish_round R n m count record rest r0 d c HI Hpc Htodo Hparse)
    as (HI1 & Hpc1 & Htodo1 & (ac & pcs & Hcur1) & Hl1 & _).
  rewrite Hloop in Hl1.
  set (m1 := step m) in *. clearbody m1.
  assert (Hs2 : step m1 = set_pc AtReset m1).
  { unfold step. now rewrite Hpc1, Hl1. }
  pose proof (Inv_step _ _ _ HI1) as HI2. rewrite Hs2 in *.
  pose proof (Inv_step _ _ _ HI2) as HI3.
  set (m3 := step (set_pc AtReset m1)) in *.
  assert (Hm3 : m3 = set_pc AtActivate
                       (with_server (set_runOneStep false) m1))
    by reflexivity.
  destruct (learn_round R n m3 (mkLocals count record c ac pcs) z HI3)
    as (HI4 & Hpc4 & Htodo4 & Hps4 & _).
  - now rewrite Hm3.
  - rewrite Hm3. exact Hcur1.
  - exact Hint.
  - split; [exact HI4|]. split; [exact Hpc4|].
    rewrite Hps4, Htodo4, Hm3. cbn. auto.
Qed.

Lemma loop_rounds R n good : forall m rest,
  Inv R n m -> pc m = AtFor -> runInLoop (pandaServer m) = true ->
  todo m = good ++ rest -> Forall (fun cr => processable (L := L) cr.2) good ->
  let m' := run (replicate (4 * length good) Prog) m in
  Inv R n m' /\ pc m' = AtFor /\ runInLoop (pandaServer m') = true /\
  todo m' = rest.
Proof.
  induction good as [|[count record] good IH];
    intros m rest HI Hpc Hloop Htodo Hall; cbn zeta.
  - cbn. auto.
  - apply Forall_cons in Hall as [Hr Hall]. cbn in Hr.
    replace (4 * length ((count, record) :: good))
      with (4 + 4 * length good) by (cbn [length]; lia).
    rewrite replicate_add, run_app.
    destruct (loop_round R n m count record (good ++ rest) HI Hpc Hloop
                Htodo Hr) as (HI' & Hpc' & Hloop' & Htodo').
    exact (IH _ rest HI' Hpc' Hloop' Htodo' Hall).
Qed.

Lemma loop_completes R n k : forall m,
  length (todo m) = k ->
  Inv R n m -> pc m = AtFor -> runInLoop (pandaServer m) = true ->
  Forall (fun cr => processable (L := L) cr.2) (todo m) ->
  pc (run (replicate (4 * k + 2) Prog) m) = Finished.
Proof.
  intros m Hk HI Hpc Hloop Hall.
  destruct (loop_rounds R n (todo m) m [] HI Hpc Hloop
              (eq_sym (app_nil_r _)) Hall) as (_ & Hpc' & _ & Htodo').
  rewrite Hk in Hpc', Htodo'.
  rewrite replicate_add, run_app.
  set (m' := run (replicate (4 * k) Prog) m) in *. clearbody m'.
  cbn. unfold step at 2. rewrite Hpc', Htodo'. reflexivity.
Qed.

(** *** The wait *)
















(** *** The shift of the predictions *)

Lemma shift_once_take (l : list Prediction) :
  shift_once l = take (length l) (nan :: l).
Proof.
  unfold shift_once. generalize nan as x.
  induction l as [|y l IH]; intros x; [reflexivity|].
  change (removelast (x :: y :: l)) with (x :: removelast (y :: l)).
  rewrite IH. reflexivity.
Qed.

Lemma take_cons_take {A} k (x : A) l :
  take k (x :: take k l) = take k (x :: l).
Proof.
  destruct k as [|k]; [reflexivity|]. cbn. f_equal.
  rewrite take_take. f_equal. lia.
Qed.

Lemma shift_take n (l : list Prediction) :
  shift n l = take (length l) (replicate n nan ++ l).
Proof.
  unfold shift. induction n as [|n IH].
  - cbn. now rewrite firstn_all.
  - rewrite Nat.iter_succ, IH. cbn [replicate app].
    rewrite shift_once_take, length_take, length_app, length_replicate.
    replace (length l `min` (n + length l)) with (length l) by lia.
    apply take_cons_take.
Qed.

Lemma shift_length n (l : list Prediction) : length (shift n l) = length l.
Proof.
  rewrite shift_take, length_take, length_app, length_replicate. lia.
Qed.

Lemma shift_lookup n (l : list Prediction) i :
  i < length l ->
  shift n l !! i = if (i <? n)%nat then Some nan else l !! (i - n).
Proof.
  intros Hi. rewrite shift_take, lookup_take_lt by exact Hi.
  destruct (Nat.ltb_spec i n) as [H|H].
  - rewrite lookup_app_l by (rewrite length_replicate; lia).
    apply lookup_replicate_2. exact H.
  - rewrite lookup_app_r by (rewrite length_replicate; lia).
    now rewrite length_replicate.
Qed.

(** *** What the entries of [reference] are *)


Lemma reference_length_le todo : forall (mo : Model L),
  length (reference mo todo) <= length todo.
Proof.
  exact (reference_length_todo todo).
Qed.

Lemma enumerate_lookup {A} (l : list A) i count x :
  enumerate l !! i = Some (count, x) -> count = i /\ l !! i = Some x.
Proof.
  unfold enumerate. rewrite list_lookup_imap.
  destruct (l !! i); cbn; [|discriminate]. intros [= <- <-]. auto.
Qed.

(** *** What the invariant gives *)


Lemma start_at_for global server reader records :
  read_records reader = Py.Ok records ->
  pc (main_start (L := L) global server reader) = AtFor /\
  todo (main_start (L := L) global server reader) = enumerate records /\
  runInLoop (pandaServer (main_start (L := L) global server reader))
  = runInLoop server /\
  runOneStep (pandaServer (main_start (L := L) global server reader))
  = runOneStep server /\
  credit (main_start (L := L) global server reader)
  = if runOneStep server then 1 else 0.
Proof. intros H. unfold main_start. rewrite H. cbn. auto. Qed.

Lemma start_completes sd server reader records :
  read_records reader = Py.Ok records -> built sd ->
  Forall (processable (L := L)) records ->
  pc (run (Server (SetRunInLoop true)
           :: replicate (4 * length records + 2) Prog)
        (main_start (Some sd) server reader)) = Finished.
Proof.
  intros Hread Hb Hall.
  destruct (start_at_for (Some sd) server reader records Hread)
    as (Hpc & Htodo & _).
  cbn [run foldl exec].
  set (m := serve (SetRunInLoop true) (main_start (Some sd) server reader)).
  fold (run (replicate (4 * length records + 2) Prog) m).
  eapply (loop_completes _ _ (length records) m).
  - subst m. cbn. rewrite Htodo. apply length_enumerate.
  - apply Inv_serve, Inv_start; eassumption.
  - exact Hpc.
  - reflexivity.
  - subst m. cbn. rewrite Htodo. apply Forall_lookup. intros i [count record] Hi.
    apply enumerate_lookup in Hi as [_ Hi]. cbn.
    rewrite Forall_lookup in Hall. exact (Hall i record Hi).
Qed.


(** *** Leaving the wait, and the gui asking step by step *)










(** *** Where the sequential reading stops *)












(** C7: for each horizon [n_steps] of 1 and 5, the list of predictions is,
  just before the shift, what the steps produced, one entry per input;
  after the shift it has the same length, its entries before [n_steps]
  are NaN, entry [i] from [n_steps] on is the prediction produced at step
  [i - n_steps], and the last [n_steps] produced predictions are gone.
  The shift is reached when every record can be read, [int] accepts
  every consumption and the gui lets the loop run. *)
Theorem predictions_are_shifted (reader records : list (list string))
    (sd : ServerData) (server : PandaServer L) (schedule : list Tick)
    (n_steps : nat) :
  read_records reader = Py.Ok records -> built sd ->
  n_steps = 1 \/ n_steps = 5 ->
  let m := main schedule (Some sd) server reader in
  let R : list (StepOut L) :=
    reference (new_model records) (enumerate records) in
  let produced := (fun o => o_prediction o n_steps) <$> R in
  (pc m = AtShift ->
   predictions m !! n_steps = Some produced /\
   length produced = length (m_inputs m)) /\
  (pc m = Finished ->
   exists pred_list,
     predictions m !! n_steps = Some pred_list /\
     length pred_list = length (m_inputs m) /\
     pred_list = take (length produced) (replicate n_steps nan ++ produced) /\
     (forall i, i < length pred_list ->
        pred_list !! i
        = if (i <? n_steps)%nat then Some nan else produced !! (i - n_steps)) /\
     (forall j, length produced <= j + n_steps ->
        pred_list !! (j + n_steps) = None)) /\
  (Forall (processable (L := L)) records ->
   pc (run (Server (SetRunInLoop true)
            :: replicate (4 * length records + 2) Prog)
         (main_start (Some sd) server reader)) = Finished).
Proof.
  intros Hread Hb Hn m R produced. unfold main in m.
  assert (HI : Inv R (length records) m).
  { apply Inv_run, Inv_start; assumption. }
  split.
  { intros Hpc. unfold Inv in HI. rewrite Hpc in HI.
    destruct HI as (_ & _ & _ & Hin & _ & _ & Hp1 & Hp5 & _).
    split; [destruct Hn as [-> | ->]; assumption|].
    subst produced. now rewrite Hin, !length_fmap. }
  split; [|intros Hall; now apply start_completes].
  intros Hpc. unfold Inv in HI. rewrite Hpc in HI.
  destruct HI as (_ & _ & Hin & _ & Hp1 & Hp5).
  exists (shift n_steps produced).
  split; [destruct Hn as [-> | ->]; assumption|].
  split; [subst produced; now rewrite shift_length, Hin, !length_fmap|].
  split; [apply shift_take|].
  split.
  - intros i Hi. rewrite shift_length in Hi. now apply shift_lookup.
  - intros j Hj. apply lookup_ge_None_2. rewrite shift_length. lia.
Qed.


End HotgymFacts.

Section HotgymWitnesses.
Import Hotgym.






Lemma predictions_are_shifted_witness :
  read_records sample_reader = Py.Ok (drop 3 sample_reader) /\
  built BuildPandaSystem /\
  (1 = 1 \/ 1 = 5) /\
  (let m := main sample_schedule (Some BuildPandaSystem) sample_server sample_reader in
  let R : list (StepOut toy) :=
    reference (new_model (drop 3 sample_reader)) (enumerate (drop 3 sample_reader)) in
  let produced := (fun o => o_prediction o 1) <$> R in
  (pc m = AtShift ->
   predictions m !! 1 = Some produced /\
   length produced = length (m_inputs m)) /\
  (pc m = Finished ->
   exists pred_list,
     predictions m !! 1 = Some pred_list /\
     length pred_list = length (m_inputs m) /\
     pred_list = take (length produced) (replicate 1 nan ++ produced) /\
     (forall i, i < length pred_list ->
        pred_list !! i
        = if (i <? 1)%nat then Some nan else produced !! (i - 1)) /\
     (forall j, length produced <= j + 1 ->
        pred_list !! (j + 1) = None)) /\
  (Forall (processable (L := toy)) (drop 3 sample_reader) ->
   pc (run (Server (SetRunInLoop true)
            :: replicate (4 * length (drop 3 sample_reader) + 2) Prog)
         (main_start (Some BuildPandaSystem) sample_server sample_reader)) = Finished)).
Proof.
  split; [reflexivity|].
  split; [repeat split; eexists; vm_compute; reflexivity|].
  split; [left; reflexivity|].
  apply (predictions_are_shifted (L := toy) sample_reader
           (drop 3 sample_reader) BuildPandaSystem sample_server
           sample_schedule 1).
  - reflexivity.
  - repeat split; eexists; vm_compute; reflexivity.
  - left; reflexivity.
Defined.

End HotgymWitnesses.

(** * More of the code *)

(** ** The neuron, from creation on *)

Section NeuronMore.
Import Neuron.

(** X1: [CreateGfx] has two outcomes.  When the loader cannot load the
  model [cube] it raises the loader's [OSError] and the neuron is as it
  was: no node is assigned.  Otherwise it returns: the node is the loaded
  model with a black filled wireframe, at the origin, with scale 0.5 on
  every axis, and with the colour that [UpdateState] gives, red for an
  active neuron and white for an inactive one, whatever node the neuron
  held before. *)
Theorem CreateGfx_sets_up_the_node (loader : string -> option Node)
    (n : cNeuron) :
  CreateGfx loader n
  = match loader "cube" with
    | Some cube =>
        (Py.Ok tt,
         mkNeuron (state n)
           (Some (mkNode (model cube)
                    (Some (if state n then red else white))
                    (RenderFilledWireframe black) (0, 0, 0)%Q
                    (1 # 2, 1 # 2, 1 # 2)%Q)))
    | None => (Py.Raise Py.OSError, n)
    end.
Proof.
  unfold CreateGfx. destruct (loader "cube") as [cube|].
  - destruct n as [[] nd]; reflexivity.
  - reflexivity.
Qed.

(** X2: on a neuron whose [CreateGfx] has not run, [UpdateState] and
  [getNode] raise [AttributeError] for the missing attribute, which the
  class knows under its mangled name [_cNeuron__node], and leave the
  neuron as it is. *)
Theorem neuron_without_node_raises (n : cNeuron) :
  node n = None ->
  UpdateState n = (Py.Raise (Py.AttributeError "_cNeuron__node"), n) /\
  getNode n = (Py.Raise (Py.AttributeError "_cNeuron__node"), n).
Proof.
  intros H. unfold UpdateState, getNode. split.
  - now rewrite bind_get, (bind_lift_None _ _ _ _ H).
  - now rewrite bind_get, H.
Qed.

Lemma neuron_without_node_raises_witness :
  node (init 0) = None /\
  UpdateState (init 0)
  = (Py.Raise (Py.AttributeError "_cNeuron__node"), init 0) /\
  getNode (init 0) = (Py.Raise (Py.AttributeError "_cNeuron__node"), init 0).
Proof.
  split; [reflexivity|]. apply (neuron_without_node_raises (init 0)).
  reflexivity.
Defined.

(** X3: running [UpdateState] a second time gives what the first run
  gave; after [CreateGfx] has made the node it changes nothing at all,
  and [getNode] then returns the node that [CreateGfx] made, without
  changing the neuron. *)
Theorem UpdateState_settles (loader : string -> option Node) (n : cNeuron)
    (cube : Node) :
  UpdateState (snd (UpdateState n)) = UpdateState n /\
  (loader "cube" = Some cube ->
   UpdateState (snd (CreateGfx loader n))
   = (Py.Ok tt, snd (CreateGfx loader n)) /\
   getNode (snd (CreateGfx loader n))
   = (Py.Ok (mkNode (model cube)
               (Some (if state n then red else white))
               (RenderFilledWireframe black) (0, 0, 0)%Q
               (1 # 2, 1 # 2, 1 # 2)%Q),
      snd (CreateGfx loader n))).
Proof.
  split.
  - destruct n as [[] [nd|]]; reflexivity.
  - intros H. unfold CreateGfx.
    rewrite (bind_lift_Some _ _ _ _ _ H).
    split; destruct n as [[] nd]; reflexivity.
Qed.

Lemma UpdateState_settles_witness :
  UpdateState (snd (UpdateState (init 1))) = UpdateState (init 1) /\
  sample_loader "cube" = Some sample_cube /\
  UpdateState (snd (CreateGfx sample_loader (init 1)))
  = (Py.Ok tt, snd (CreateGfx sample_loader (init 1))) /\
  getNode (snd (CreateGfx sample_loader (init 1)))
  = (Py.Ok (mkNode (model sample_cube)
              (Some (if state (init 1) then red else white))
              (RenderFilledWireframe black) (0, 0, 0)%Q
              (1 # 2, 1 # 2, 1 # 2)%Q),
     snd (CreateGfx sample_loader (init 1))).
Proof.
  destruct (UpdateState_settles sample_loader (init 1) sample_cube)
    as [H1 H2].
  split; [exact H1|]. split; [reflexivity|]. exact (H2 eq_refl).
Defined.

End NeuronMore.

(** ** The controller: set-up, keys, mouse and picking *)

Section InteractionMore.
Import Interaction InteractionScenes.

Ltac run_key Hk Hall :=
  erewrite (bind_Ok (getkey _));
  [| apply getkey_value;
     [exact Hk | apply (key_names_bound _ _ Hall); repeat constructor]].

Ltac exec_step :=
  match goal with
  | |- context [Py.bind Py.get _ _] => rewrite bind_get
  | |- context [Py.bind (Py.modify _) _ _] => rewrite bind_modify
  | |- context [Py.bind (Py.ret _) _ _] => rewrite bind_ret
  | |- context [Py.bind (Py.raise _) _ _] => rewrite bind_raise
  | |- context [Py.bind (printLog _ _) _ _] =>
      rewrite bind_printLog by (vm_compute; discriminate)
  | |- context [printLog _ _ _] =>
      rewrite printLog_run by (vm_compute; discriminate)
  | |- context [Py.bind (Py.lift _ ?o) _ _] =>
      let E := fresh "E" in destruct o eqn:E; cbn [Py.lift]
  | |- context [Py.bind (Py.when ?b _) _ _] =>
      let E := fresh "E" in destruct b eqn:E; cbn [Py.when]
  | |- context [Py.when ?b _ _] =>
      let E := fresh "E" in destruct b eqn:E; cbn [Py.when]
  | |- context [(if ?b then _ else _) _] =>
      let E := fresh "E" in destruct b eqn:E
  | |- context [Py.bind (match ?o with Some _ => _ | None => _ end) _ _] =>
      let E := fresh "E" in destruct o eqn:E
  end.

(** X4: [SetupKeys] never raises.  Afterwards [keys] holds 0 for each of
  the eleven key names and has no other entry; each key name has its
  three events registered with [onKey]: the key and shift-key with value
  1, key-up with value 0; escape and the four mouse events are
  registered, the default mouse control is off, and the speed boost and
  the focused cell are as before. *)
Theorem SetupKeys_registers_every_key (w : cInteraction) :
  let w' := snd (SetupKeys w) in
  fst (SetupKeys w) = Py.Ok tt /\
  (exists ks, keys w' = Some ks /\
     forall k, ks !! k = if bool_decide (k ∈ key_names) then Some 0%Z else None) /\
  Forall (fun k =>
            accepted (base w') !! k = Some (HonKey k 1) /\
            accepted (base w') !! ("shift-" +:+ k) = Some (HonKey k 1) /\
            accepted (base w') !! (k +:+ "-up") = Some (HonKey k 0))
    key_names /\
  accepted (base w') !! "escape" = Some HonEscape /\
  accepted (base w') !! "mouse1" = Some (HonMouseEvent "left" true) /\
  accepted (base w') !! "mouse1-up" = Some (HonMouseEvent "left" false) /\
  accepted (base w') !! "mouse3" = Some (HonMouseEvent "right" true) /\
  accepted (base w') !! "mouse3-up" = Some (HonMouseEvent "right" false) /\
  mouseDisabled (base w') = true /\
  speedBoost w' = speedBoost w /\ focusedCell w' = focusedCell w.
Proof.
  cbn zeta. split; [reflexivity|]. split.
  { exists (foldl (fun m k => <[k := 0%Z]> m) ∅ key_names).
    split; [reflexivity|]. intros k.
    unfold key_names. cbn [foldl].
    repeat (rewrite lookup_insert; case_decide; [subst k; reflexivity|]).
    rewrite lookup_empty, bool_decide_eq_false_2; [reflexivity|].
    intros Hin. repeat (apply elem_of_cons in Hin as [Hin|Hin]; [congruence|]).
    inversion Hin. }
  split.
  { repeat constructor; cbn;
      repeat (rewrite lookup_insert_ne by discriminate);
      apply lookup_insert_eq. }
  repeat split; cbn;
    repeat (rewrite lookup_insert_ne by discriminate);
    try apply lookup_insert_eq.
Qed.

(** X5: the handlers need the set-up methods.  Without [keys], [onKey]
  and a frame of [UpdateCameraMovement] raise [AttributeError] and change
  nothing; without the picker ray, [onClickObject] raises
  [AttributeError], and a left click does so after its log line; a frame
  that rotates the camera before any right-button event has stored a
  mouse position raises [AttributeError] as well. *)
Theorem controller_before_setup_raises (w : cInteraction) (key : string)
    (value : Z) :
  (keys w = None ->
   onKey key value w = (Py.Raise (Py.AttributeError "keys"), w) /\
   (rotating w = false ->
    UpdateCameraMovement w = (Py.Raise (Py.AttributeError "keys"), w))) /\
  (picker w = None ->
   onClickObject w = (Py.Raise (Py.AttributeError "pickerRay"), w) /\
   onMouseEvent "left" true w
   = (Py.Raise (Py.AttributeError "pickerRay"),
      write_stdout (OutStr "Mouse event:left") w)) /\
  (rotating w = true -> mouseX_last w = None ->
   UpdateCameraMovement w = (Py.Raise (Py.AttributeError "mouseX_last"), w)).
Proof.
  split; [|split].
  - intros Hk. split.
    + unfold onKey. now rewrite bind_get, (bind_lift_None _ _ _ _ Hk).
    + intros Hrot. unfold UpdateCameraMovement. rewrite bind_get.
      fold (rotating w). rewrite Hrot, bind_ret. cbn zeta.
      cbv [getkey Py.bind Py.get Py.lift Py.raise]. now rewrite Hk.
  - intros Hp. split.
    + unfold onClickObject. now rewrite bind_get, (bind_lift_None _ _ _ _ Hp).
    + unfold onMouseEvent.
      rewrite bind_printLog by (vm_compute; discriminate).
      rewrite bool_decide_eq_false_2 by discriminate.
      rewrite bool_decide_eq_true_2 by reflexivity. cbn [andb].
      unfold onClickObject. rewrite bind_get.
      now rewrite (bind_lift_None _ _ _ _ Hp).
  - intros Hrot Hx. unfold UpdateCameraMovement. rewrite bind_get.
    fold (rotating w). rewrite Hrot.
    rewrite bind_assoc. now rewrite (bind_lift_None _ _ _ _ Hx).
Qed.

Lemma controller_before_setup_raises_witness :
  keys sample_fresh = None /\ rotating sample_fresh = false /\
  picker sample_fresh = None /\
  onKey "a" 1 sample_fresh
  = (Py.Raise (Py.AttributeError "keys"), sample_fresh) /\
  UpdateCameraMovement sample_fresh
  = (Py.Raise (Py.AttributeError "keys"), sample_fresh) /\
  onClickObject sample_fresh
  = (Py.Raise (Py.AttributeError "pickerRay"), sample_fresh).
Proof.
  destruct (controller_before_setup_raises sample_fresh "a" 1)
    as (Hk & Hp & _).
  split; [reflexivity|]. split; [reflexivity|]. split; [reflexivity|].
  destruct (Hk eq_refl) as [H1 H2]. destruct (Hp eq_refl) as [H3 _].
  split; [exact H1|]. split; [exact (H2 eq_refl)|exact H3].
Defined.

Lemma onKey_run key value w ks space :
  keys w = Some ks ->
  <[key := value]> ks !! "space" = Some space ->
  onKey key value w
  = (Py.Ok tt,
     let stored := set_keys (Some (<[key := value]> ks)) w in
     if truthy space
     then with_gui (call_gui (onSpeedBoostChanged (negb (speedBoost w))))
            (set_speedBoost (negb (speedBoost w)) stored)
     else stored).
Proof.
  intros Hk Hs. unfold onKey.
  rewrite bind_get, (bind_lift_Some _ _ _ _ _ Hk), bind_modify.
  rewrite (bind_lift_Some _ _ _ _ _ Hs).
  destruct (truthy space); reflexivity.
Qed.

(** X6: pressing and releasing space toggles the speed boost exactly
  once, on the press: the release stores 0 and toggles nothing, and the
  gui is told once. *)
Theorem space_tap_toggles_once (w : cInteraction) (ks : gmap string Z) :
  keys w = Some ks ->
  let pressed := onKey "space" 1 w in
  let released := onKey "space" 0 (snd pressed) in
  fst pressed = Py.Ok tt /\ fst released = Py.Ok tt /\
  speedBoost (snd pressed) = negb (speedBoost w) /\
  speedBoost (snd released) = negb (speedBoost w) /\
  gui_calls (gui (snd released))
  = gui_calls (gui w) ++ [onSpeedBoostChanged (negb (speedBoost w))] /\
  keys (snd released) = Some (<["space" := 0%Z]> ks).
Proof.
  intros Hk. cbn zeta.
  rewrite (onKey_run "space" 1 w ks 1 Hk) by apply lookup_insert_eq.
  cbn [truthy Z.eqb negb fst snd].
  erewrite (onKey_run "space" 0 _ _ 0); [|reflexivity|apply lookup_insert_eq].
  cbn. rewrite insert_insert_eq. repeat split; reflexivity.
Qed.

Lemma space_tap_toggles_once_witness :
  keys sample_world = Some (keys_of sample_world) /\
  (let pressed := onKey "space" 1 sample_world in
   let released := onKey "space" 0 (snd pressed) in
   fst pressed = Py.Ok tt /\ fst released = Py.Ok tt /\
   speedBoost (snd pressed) = negb (speedBoost sample_world) /\
   speedBoost (snd released) = negb (speedBoost sample_world) /\
   gui_calls (gui (snd released))
   = gui_calls (gui sample_world)
     ++ [onSpeedBoostChanged (negb (speedBoost sample_world))] /\
   keys (snd released) = Some (<["space" := 0%Z]> (keys_of sample_world))).
Proof.
  split; [reflexivity|].
  apply (space_tap_toggles_once sample_world (keys_of sample_world)).
  reflexivity.
Defined.

(** X7: the speed boost is toggled by every key event that finds a
  nonzero value under space.  Pressing and releasing another key while
  space is held therefore toggles it twice, leaving it as it was with the
  gui told both times; with space up the same tap toggles nothing. *)
Theorem key_tap_leaves_speedBoost (w : cInteraction) (ks : gmap string Z)
    (key : string) (space : Z) :
  keys w = Some ks -> key <> "space" -> ks !! "space" = Some space ->
  let pressed := onKey key 1 w in
  let released := onKey key 0 (snd pressed) in
  fst pressed = Py.Ok tt /\ fst released = Py.Ok tt /\
  speedBoost (snd pressed)
  = (if truthy space then negb (speedBoost w) else speedBoost w) /\
  speedBoost (snd released) = speedBoost w /\
  gui_calls (gui (snd released))
  = gui_calls (gui w)
    ++ (if truthy space
        then [onSpeedBoostChanged (negb (speedBoost w));
              onSpeedBoostChanged (speedBoost w)]
        else []) /\
  keys (snd released) = Some (<[key := 0%Z]> ks).
Proof.
  intros Hk Hne Hs. cbn zeta.
  rewrite (onKey_run key 1 w ks space Hk)
    by (now rewrite lookup_insert_ne by exact Hne).
  destruct (truthy space) eqn:Ht; cbn [fst snd].
  - erewrite (onKey_run key 0 _ _ space);
      [|reflexivity|now rewrite !lookup_insert_ne by exact Hne].
    rewrite Ht. cbn. rewrite insert_insert_eq, negb_involutive, <- app_assoc.
    repeat split; reflexivity.
  - erewrite (onKey_run key 0 _ _ space);
      [|reflexivity|now rewrite !lookup_insert_ne by exact Hne].
    rewrite Ht. cbn. rewrite insert_insert_eq, app_nil_r.
    repeat split; reflexivity.
Qed.

Lemma key_tap_leaves_speedBoost_witness :
  keys sample_space_held = Some (keys_of sample_space_held) /\
  "w" <> "space" /\
  keys_of sample_space_held !! "space" = Some 1%Z /\
  (let pressed := onKey "w" 1 sample_space_held in
   let released := onKey "w" 0 (snd pressed) in
   fst pressed = Py.Ok tt /\ fst released = Py.Ok tt /\
   speedBoost (snd pressed)
   = (if truthy 1 then negb (speedBoost sample_space_held)
      else speedBoost sample_space_held) /\
   speedBoost (snd released) = speedBoost sample_space_held /\
   gui_calls (gui (snd released))
   = gui_calls (gui sample_space_held)
     ++ (if truthy 1
         then [onSpeedBoostChanged (negb (speedBoost sample_space_held));
               onSpeedBoostChanged (speedBoost sample_space_held)]
         else []) /\
   keys (snd released) = Some (<["w" := 0%Z]> (keys_of sample_space_held))).
Proof.
  split; [reflexivity|]. split; [discriminate|]. split; [reflexivity|].
  apply (key_tap_leaves_speedBoost sample_space_held
           (keys_of sample_space_held) "w" 1);
    [reflexivity | discriminate | reflexivity].
Defined.

Lemma onMouseEvent_right_run press w :
  onMouseEvent "right" press w
  = (Py.Ok tt,
     let logged := write_stdout (OutStr "Mouse event:right") w in
     let turned := with_base (set_rotateCamera press) logged in
     let mw := mouseWatcherNode (base w) in
     if hasMouse mw
     then set_mouseY_last (Some (getMouseY mw))
            (set_mouseX_last (Some (getMouseX mw)) turned)
     else set_mouseY_last (Some 0%Q) (set_mouseX_last (Some 0%Q) turned)).
Proof.
  unfold onMouseEvent.
  rewrite bind_printLog by (vm_compute; discriminate).
  rewrite bool_decide_eq_true_2 by reflexivity.
  rewrite bind_modify, bind_get. cbn zeta.
  destruct (hasMouse (mouseWatcherNode (base w))) eqn:Hm;
    cbn [base with_base write_stdout mouseWatcherNode set_rotateCamera];
    rewrite Hm; reflexivity.
Qed.

Lemma UpdateCameraMovement_still (w : cInteraction) (ks : gmap string Z) :
  keys w = Some ks ->
  Forall (fun k => is_Some (ks !! k)) key_names ->
  (rotating w = true ->
   mouseX_last w = Some (getMouseX (mouseWatcherNode (base w))) /\
   mouseY_last w = Some (getMouseY (mouseWatcherNode (base w)))) ->
  let frame := UpdateCameraMovement w in
  let K := key_value ks in
  fst frame = Py.Ok tt /\
  exists dt : Q,
    (dt == Qmin (clock_dt w) (1 # 20))%Q /\
    (camHeading (base (snd frame))
     == camHeading (base w) + 90 * dt * (K "arrow_left" - K "arrow_right"))%Q /\
    (camPitch (base (snd frame))
     == camPitch (base w) + 90 * dt * (K "arrow_up" - K "arrow_down"))%Q.
Proof.
  intros Hk Hall Hrot. cbn zeta.
  pose proof (clamp_is_min (clock_dt w)) as Hdt. cbn zeta in Hdt.
  set (dt := if Qle_bool (clock_dt w) (1 # 20)
             then clock_dt w else (1 # 20)%Q) in *.
  unfold UpdateCameraMovement. rewrite bind_get.
  fold (rotating w).
  destruct (rotating w) eqn:Erot.
  - destruct (Hrot eq_refl) as [Hx Hy].
    rewrite (bind_Ok _ _ _
               (getMouseX (mouseWatcherNode (base w))
                - getMouseX (mouseWatcherNode (base w)),
                getMouseY (mouseWatcherNode (base w))
                - getMouseY (mouseWatcherNode (base w)))%Q
               (set_mouseY_last (Some (getMouseY (mouseWatcherNode (base w))))
                  (set_mouseX_last
                     (Some (getMouseX (mouseWatcherNode (base w)))) w))).
    2:{ now rewrite (bind_lift_Some _ _ _ _ _ Hx), (bind_lift_Some _ _ _ _ _ Hy). }
    cbn zeta. fold dt.
    do 6 run_key Hk Hall. rewrite !bind_modify.
    do 2 run_key Hk Hall. rewrite !bind_modify.
    do 2 run_key Hk Hall. rewrite !bind_modify.
    cbn. split; [reflexivity|]. exists dt. split; [apply Hdt|].
    split; ring.
  - rewrite bind_ret. cbn zeta. fold dt.
    do 6 run_key Hk Hall. rewrite !bind_modify.
    do 2 run_key Hk Hall. rewrite !bind_modify.
    do 2 run_key Hk Hall. rewrite !bind_modify.
    cbn. split; [reflexivity|]. exists dt. split; [apply Hdt|].
    split; ring.
Qed.

(** X8: a right-button event sets [rotateCamera] to the button state
  and stores as the last mouse position the position the mouse watcher
  reports, or 0 and 0 when there is no mouse.  The next frame, with the mouse still where it was, succeeds and
  turns the camera by the arrow keys alone: no turn comes from the
  mouse. *)
Theorem right_button_starts_without_a_jump (w : cInteraction)
    (ks : gmap string Z) (press : bool) :
  keys w = Some ks ->
  Forall (fun k => is_Some (ks !! k)) key_names ->
  let held := snd (onMouseEvent "right" press w) in
  let frame := UpdateCameraMovement held in
  let K := key_value ks in
  let mw := mouseWatcherNode (base w) in
  rotateCamera (base held) = press /\
  mouseX_last held = Some (if hasMouse mw then getMouseX mw else 0%Q) /\
  mouseY_last held = Some (if hasMouse mw then getMouseY mw else 0%Q) /\
  fst frame = Py.Ok tt /\
  exists dt : Q,
    (dt == Qmin (clock_dt w) (1 # 20))%Q /\
    (camHeading (base (snd frame))
     == camHeading (base w) + 90 * dt * (K "arrow_left" - K "arrow_right"))%Q /\
    (camPitch (base (snd frame))
     == camPitch (base w) + 90 * dt * (K "arrow_up" - K "arrow_down"))%Q.
Proof.
  intros Hk Hall. cbn zeta. rewrite onMouseEvent_right_run. cbn [snd].
  cbn zeta.
  set (held := if hasMouse (mouseWatcherNode (base w)) then _ else _).
  assert (Hb : base held = set_rotateCamera press (base w))
    by (subst held; destruct (hasMouse _); reflexivity).
  assert (Hkeys : keys held = Some ks)
    by (subst held; destruct (hasMouse _); exact Hk).
  assert (Hclock : clock_dt held = clock_dt w)
    by (subst held; destruct (hasMouse _); reflexivity).
  assert (Hlast :
    mouseX_last held
    = Some (if hasMouse (mouseWatcherNode (base w))
            then getMouseX (mouseWatcherNode (base w)) else 0%Q) /\
    mouseY_last held
    = Some (if hasMouse (mouseWatcherNode (base w))
            then getMouseY (mouseWatcherNode (base w)) else 0%Q))
    by (subst held; destruct (hasMouse _); split; reflexivity).
  assert (Hrot : rotating held = true ->
     mouseX_last held = Some (getMouseX (mouseWatcherNode (base held))) /\
     mouseY_last held = Some (getMouseY (mouseWatcherNode (base held)))).
  { unfold rotating. rewrite Hb.
    change (mouseWatcherNode (set_rotateCamera press (base w)))
      with (mouseWatcherNode (base w)).
    subst held. destruct (hasMouse (mouseWatcherNode (base w)));
      [split; reflexivity | discriminate]. }
  destruct (UpdateCameraMovement_still held ks Hkeys Hall Hrot)
    as (Hok & dt & Hdt & Hh & Hp).
  split; [now rewrite Hb|]. split; [apply Hlast|]. split; [apply Hlast|].
  split; [exact Hok|]. exists dt.
  rewrite Hclock in Hdt. rewrite Hb in Hh, Hp.
  repeat split; assumption.
Qed.

Lemma right_button_starts_without_a_jump_witness :
  keys sample_world = Some (keys_of sample_world) /\
  Forall (fun k => is_Some (keys_of sample_world !! k)) key_names /\
  let held := snd (onMouseEvent "right" true sample_world) in
  let frame := UpdateCameraMovement held in
  let K := key_value (keys_of sample_world) in
  let mw := mouseWatcherNode (base sample_world) in
  rotateCamera (base held) = true /\
  mouseX_last held = Some (if hasMouse mw then getMouseX mw else 0%Q) /\
  mouseY_last held = Some (if hasMouse mw then getMouseY mw else 0%Q) /\
  fst frame = Py.Ok tt /\
  exists dt : Q,
    (dt == Qmin (clock_dt sample_world) (1 # 20))%Q /\
    (camHeading (base (snd frame))
     == camHeading (base sample_world)
        + 90 * dt * (K "arrow_left" - K "arrow_right"))%Q /\
    (camPitch (base (snd frame))
     == camPitch (base sample_world)
        + 90 * dt * (K "arrow_up" - K "arrow_down"))%Q.
Proof.
  split; [reflexivity|]. split; [repeat constructor; vm_compute; eauto|].
  apply (right_button_starts_without_a_jump sample_world
           (keys_of sample_world) true);
    [reflexivity | repeat constructor; vm_compute; eauto].
Defined.

Lemma index_column_lookup uid cols i :
  index_column uid cols = Some i ->
  exists col, cols !! i = Some col /\ col_uid col = uid.
Proof.
  revert i. induction cols as [|c cols IH]; intros i; cbn; [discriminate|].
  unfold column_is. destruct (col_uid c =? uid)%nat eqn:E.
  - intros [= <-]. apply Nat.eqb_eq in E. eauto.
  - destruct (index_column uid cols) as [j|]; [|discriminate].
    intros [= <-]. apply (IH j eq_refl).
Qed.

Lemma index_column_NoDup cols i col :
  NoDup (col_uid <$> cols) -> cols !! i = Some col ->
  index_column (col_uid col) cols = Some i.
Proof.
  revert i. induction cols as [|c cols IH]; intros i Hnd Hi; [discriminate|].
  apply NoDup_cons in Hnd as [Hc Hnd]. cbn. unfold column_is.
  destruct i as [|i]; cbn in Hi.
  - injection Hi as ->. now rewrite Nat.eqb_refl.
  - destruct (col_uid c =? col_uid col)%nat eqn:E.
    + apply Nat.eqb_eq in E. exfalso. apply Hc. rewrite E.
      apply list_elem_of_fmap. exists col. split; [reflexivity|].
      eapply list_elem_of_lookup_2; eassumption.
    + now rewrite (IH i Hnd Hi).
Qed.

Lemma py_index_NoDup cs i c :
  NoDup (cell_uid <$> cs) -> cs !! i = Some c ->
  py_index cell_is c cs = Some i.
Proof.
  revert i. induction cs as [|x cs IH]; intros i Hnd Hi; [discriminate|].
  apply NoDup_cons in Hnd as [Hc Hnd]. cbn [py_index].
  destruct i as [|i]; cbn in Hi.
  - injection Hi as ->. unfold cell_is at 1. now rewrite Nat.eqb_refl.
  - destruct (cell_is x c) eqn:E.
    + apply Nat.eqb_eq in E. exfalso. apply Hc. rewrite E.
      apply list_elem_of_fmap. exists c. split; [reflexivity|].
      eapply list_elem_of_lookup_2; eassumption.
    + now rewrite (IH i Hnd Hi).
Qed.

Lemma py_getitem_nonneg {A} (l : list A) (i : Z) x :
  (0 <= i)%Z -> py_getitem l i = Some x -> l !! Z.to_nat i = Some x.
Proof.
  intros Hi. unfold py_getitem.
  now rewrite (proj2 (Z.leb_le 0 i) Hi).
Qed.

Lemma logged_snoc lines o w :
  write_stdout o (logged lines w) = logged (lines ++ [o]) w.
Proof. unfold logged. now rewrite foldl_app. Qed.

(** X9: whatever it is given and whether it returns or raises,
  [HandlePickedObject] leaves the base, the keys, the speed boost, the
  stored mouse position, the picker, the clock, the client's terminate
  flag, the gui's call log and its two synapse switches alone, and only
  adds to what has been printed. *)
Theorem HandlePickedObject_frame (obj : NodePath) (w : cInteraction) :
  let w' := snd (HandlePickedObject obj w) in
  base w' = base w /\ keys w' = keys w /\ speedBoost w' = speedBoost w /\
  mouseX_last w' = mouseX_last w /\ mouseY_last w' = mouseY_last w /\
  picker w' = picker w /\ clock_dt w' = clock_dt w /\
  terminateClientThread (client w') = terminateClientThread (client w) /\
  gui_calls (gui w') = gui_calls (gui w) /\
  showProximalSynapses (gui w') = showProximalSynapses (gui w) /\
  showDistalSynapses (gui w') = showDistalSynapses (gui w) /\
  stdout w `prefix_of` stdout w'.
Proof.
  cbn zeta. unfold HandlePickedObject, int.
  repeat exec_step; cbn; repeat split;
    try reflexivity; repeat apply prefix_app_r; reflexivity.
Qed.

(** X10: when [HandlePickedObject] raises anything but [ValueError], it
  has changed nothing except for the lines it printed: the failing
  lookups all come before the first write to the focus. *)
Theorem HandlePickedObject_fails_cleanly (obj : NodePath) (w : cInteraction)
    (e : Py.exn) :
  fst (HandlePickedObject obj w) = Py.Raise e ->
  e <> Py.ValueError ->
  exists lines, snd (HandlePickedObject obj w) = logged lines w.
Proof.
  unfold HandlePickedObject, int.
  repeat exec_step; cbn [fst snd]; intros He Hne;
    try discriminate He; try (injection He as <-; congruence).
  all: try (eexists [_]; reflexivity).
  all: try (eexists [_; _]; reflexivity).
  all: try (eexists [_; _; _]; reflexivity).
  all: try (eexists [_; _; _; _]; reflexivity).
  all: exfalso;
    match goal with
    | H : index_column _ _ = Some _ |- _ =>
        apply index_column_lookup in H as (? & ? & _); congruence
    end.
Qed.


Lemma HandlePickedObject_fails_cleanly_witness :
  fst (HandlePickedObject sample_stale_path sample_world)
  = Py.Raise (Py.KeyError "HTM2") /\
  Py.KeyError "HTM2" <> Py.ValueError /\
  exists lines,
    snd (HandlePickedObject sample_stale_path sample_world)
    = logged lines sample_world.
Proof.
  split; [reflexivity|]. split; [discriminate|].
  apply (HandlePickedObject_fails_cleanly sample_stale_path sample_world
           (Py.KeyError "HTM2")); [reflexivity | discriminate].
Defined.

Lemma id_tag_nonempty (obj : NodePath) (parentId : Z) :
  py_int (getTag "id" (getParent obj)) = Some parentId ->
  bool_decide (getTag "id" (getParent obj) = EmptyString) = false.
Proof.
  intros Hparent. apply bool_decide_eq_false. intros E.
  rewrite E, py_int_empty in Hparent. discriminate.
Qed.

Ltac run_tags Hthis Hparent :=
  unfold HandlePickedObject, int;
  rewrite bind_printLog by (vm_compute; discriminate);
  rewrite (bind_lift_Some _ _ _ _ _ Hthis);
  rewrite bind_printLog by (vm_compute; discriminate);
  cbn zeta;
  rewrite (id_tag_nonempty _ _ Hparent), (bind_lift_Some _ _ _ _ _ Hparent);
  rewrite bind_printLog by (vm_compute; discriminate).

(** X11: for a picked node with readable tags whose name is not [cell],
  [HandlePickedObject] prints its three log lines and changes nothing
  else; it returns, except for a node named [basement], where it raises
  [AttributeError] for the method [testRoutine] that the class does not
  define. *)
Theorem HandlePickedObject_other_names (obj : NodePath) (w : cInteraction)
    (thisId parentId : Z) :
  py_int (getTag "clickable" obj) = Some thisId ->
  py_int (getTag "id" (getParent obj)) = Some parentId ->
  getName obj <> "cell" ->
  HandlePickedObject obj w
  = (if bool_decide (getName obj = "basement")
     then Py.Raise (Py.AttributeError "testRoutine") else Py.Ok tt,
     logged (tag_lines obj thisId parentId) w).
Proof.
  intros Hthis Hparent Hname. run_tags Hthis Hparent.
  rewrite bool_decide_eq_false_2 by exact Hname.
  now destruct (bool_decide (getName obj = "basement")).
Qed.

Lemma HandlePickedObject_other_names_witness :
  py_int (getTag "clickable" sample_basement_path) = Some 7%Z /\
  py_int (getTag "id" (getParent sample_basement_path)) = Some 0%Z /\
  getName sample_basement_path <> "cell" /\
  HandlePickedObject sample_basement_path sample_world
  = (if bool_decide (getName sample_basement_path = "basement")
     then Py.Raise (Py.AttributeError "testRoutine") else Py.Ok tt,
     logged (tag_lines sample_basement_path 7 0) sample_world).
Proof.
  split; [reflexivity|]. split; [reflexivity|]. split; [discriminate|].
  apply (HandlePickedObject_other_names sample_basement_path sample_world 7 0);
    [reflexivity | reflexivity | discriminate].
Defined.

(** X12: for a cell node whose path names an HTM object the base does
  not hold, or a layer the object does not hold, [HandlePickedObject]
  raises [KeyError] with that name after its four log lines, and nothing
  else has changed. *)
Theorem HandlePickedObject_unknown_object (obj : NodePath) (w : cInteraction)
    (thisId parentId : Z) (h l : string) :
  getName obj = "cell" ->
  py_int (getTag "clickable" obj) = Some thisId ->
  py_int (getTag "id" (getParent obj)) = Some parentId ->
  split_on "/" (str_path obj) !! 1%nat = Some h ->
  split_on "/" (str_path obj) !! 2%nat = Some l ->
  (HTMObjects (base w) !! h ≫= fun o => layers o !! l) = None ->
  HandlePickedObject obj w
  = (Py.Raise (Py.KeyError (match HTMObjects (base w) !! h with Some _ => l | None => h end)),
     logged (tag_lines obj thisId parentId ++ [OutStr "We clicked on cell"]) w).
Proof.
  intros Hname Hthis Hparent Hh Hl Hnone. run_tags Hthis Hparent.
  rewrite bool_decide_eq_true_2 by exact Hname.
  rewrite bind_printLog by (vm_compute; discriminate).
  rewrite (bind_lift_Some _ _ _ _ _ Hh), (bind_lift_Some _ _ _ _ _ Hl), bind_get.
  cbn [base write_stdout].
  destruct (HTMObjects (base w) !! h) as [o|] eqn:Eo; cbn in Hnone.
  - rewrite (bind_lift_Some _ _ o) by reflexivity.
    now rewrite (bind_lift_None _ _ _ _ Hnone).
  - now rewrite (bind_lift_None _ _ _ _ eq_refl).
Qed.

Lemma HandlePickedObject_unknown_object_witness :
  getName sample_stale_path = "cell" /\
  py_int (getTag "clickable" sample_stale_path) = Some 1%Z /\
  py_int (getTag "id" (getParent sample_stale_path)) = Some 0%Z /\
  split_on "/" (str_path sample_stale_path) !! 1%nat = Some "HTM2" /\
  split_on "/" (str_path sample_stale_path) !! 2%nat = Some "SensoryLayer" /\
  (HTMObjects (base sample_world) !! "HTM2"
     ≫= fun o => layers o !! "SensoryLayer") = None /\
  HandlePickedObject sample_stale_path sample_world
  = (Py.Raise (Py.KeyError
       (match HTMObjects (base sample_world) !! "HTM2" with
        | Some _ => "SensoryLayer" | None => "HTM2" end)),
     logged (tag_lines sample_stale_path 1 0 ++ [OutStr "We clicked on cell"])
       sample_world).
Proof.
  do 6 (split; [reflexivity|]).
  apply (HandlePickedObject_unknown_object sample_stale_path sample_world
           1 0 "HTM2" "SensoryLayer"); reflexivity.
Defined.


Lemma py_getitem_position {A} (l : list A) (i : Z) x :
  py_getitem l i = Some x -> l !! py_position (length l) i = Some x.
Proof.
  unfold py_getitem, py_position. destruct (0 <=? i)%Z; [trivial|].
  now destruct (- Z.of_nat (length l) <=? i)%Z.
Qed.

(** X13: when the picked cell is found and the layer is well formed
  (columns and cells are distinct objects, and the cell's [column] is the
  column that holds it), [HandlePickedObject] returns, the gui's
  [columnID] and [cellID] are the positions that the two tags index,
  negative tags counted from the end, and the client is asked for the
  proximal and the distal data exactly as the gui's two switches say, in
  that order. *)
Theorem HandlePickedObject_locates_the_cell (obj : NodePath)
    (w : cInteraction) (thisId parentId : Z) (h l : string)
    (HTMObj : HTMObject) (Layer : Layer) (column : Column) (c : Cell) :
  getName obj = "cell" ->
  py_int (getTag "clickable" obj) = Some thisId ->
  py_int (getTag "id" (getParent obj)) = Some parentId ->
  split_on "/" (str_path obj) !! 1%nat = Some h ->
  split_on "/" (str_path obj) !! 2%nat = Some l ->
  HTMObjects (base w) !! h = Some HTMObj ->
  layers HTMObj !! l = Some Layer ->
  py_getitem (corticalColumns Layer) parentId = Some column ->
  py_getitem (cells column) thisId = Some c ->
  NoDup (col_uid <$> corticalColumns Layer) ->
  NoDup (cell_uid <$> cells column) ->
  cell_column c = col_uid column ->
  let r := HandlePickedObject obj w in
  fst r = Py.Ok tt /\
  columnID (gui (snd r))
  = Some (py_position (length (corticalColumns Layer)) parentId) /\
  cellID (gui (snd r)) = Some (py_position (length (cells column)) thisId) /\
  client_calls (client (snd r))
  = client_calls (client w) ++ synapse_requests (gui w).
Proof.
  intros Hname Hthis Hparent Hh Hl Hobj Hlay Hcol Hcell Hcols Hcells Hlink.
  apply py_getitem_position in Hcol as Hcol'.
  apply py_getitem_position in Hcell as Hcell'.
  pose proof (index_column_NoDup _ _ _ Hcols Hcol') as Hi.
  rewrite <- Hlink in Hi.
  pose proof (py_index_NoDup _ _ _ Hcells Hcell') as Hj.
  cbn zeta. run_tags Hthis Hparent.
  rewrite bool_decide_eq_true_2 by exact Hname.
  rewrite bind_printLog by (vm_compute; discriminate).
  rewrite (bind_lift_Some _ _ _ _ _ Hh), (bind_lift_Some _ _ _ _ _ Hl), bind_get.
  rewrite (bind_lift_Some _ _ HTMObj) by exact Hobj.
  rewrite (bind_lift_Some _ _ _ _ _ Hlay), (bind_lift_Some _ _ _ _ _ Hcol),
    (bind_lift_Some _ _ _ _ _ Hcell).
  rewrite bind_modify.
  assert (Hfocus : forall (o : option Cell) (k : Meth unit) (s : cInteraction),
    (match o with
     | Some previous => Py.modify (call_cell (resetFocus (cell_uid previous)))
     | None => Py.ret tt
     end ;;; k)%py s
    = k (match o with
         | Some previous => call_cell (resetFocus (cell_uid previous)) s
         | None => s
         end)).
  { intros [p|] k s; [apply bind_modify | apply bind_ret]. }
  rewrite Hfocus. rewrite !bind_modify.
  rewrite (bind_lift_Some _ _ _ _ _ Hi), bind_modify.
  rewrite (bind_lift_Some _ _ _ _ _ Hcol').
  rewrite (bind_lift_Some _ _ _ _ _ Hj), bind_modify, bind_get.
  unfold synapse_requests.
  cbn [focusedCell write_stdout set_focusedPath].
  destruct (focusedCell w);
    cbn [gui with_gui set_cellID set_columnID set_gui_focusedPath
         set_gui_focusedCell call_cell set_focusedCell set_focusedPath
         write_stdout showProximalSynapses showDistalSynapses];
    destruct (showProximalSynapses (gui w)), (showDistalSynapses (gui w));
    cbn; rewrite <- ?app_assoc, ?app_nil_r; repeat split; reflexivity.
Qed.

Lemma HandlePickedObject_locates_the_cell_witness :
  getName sample_cell_path = "cell" /\
  py_int (getTag "clickable" sample_cell_path) = Some 1%Z /\
  py_int (getTag "id" (getParent sample_cell_path)) = Some 0%Z /\
  split_on "/" (str_path sample_cell_path) !! 1%nat = Some "HTM1" /\
  split_on "/" (str_path sample_cell_path) !! 2%nat = Some "SensoryLayer" /\
  HTMObjects (base sample_focused) !! "HTM1"
  = Some (mkHTMObject {["SensoryLayer" := sample_layer]}) /\
  layers (mkHTMObject {["SensoryLayer" := sample_layer]}) !! "SensoryLayer"
  = Some sample_layer /\
  py_getitem (corticalColumns sample_layer) 0
  = Some (mkColumn 100 [mkCell 1 100; mkCell 2 100]) /\
  py_getitem (cells (mkColumn 100 [mkCell 1 100; mkCell 2 100])) 1
  = Some (mkCell 2 100) /\
  NoDup (col_uid <$> corticalColumns sample_layer) /\
  NoDup (cell_uid <$> cells (mkColumn 100 [mkCell 1 100; mkCell 2 100])) /\
  cell_column (mkCell 2 100) = col_uid (mkColumn 100 [mkCell 1 100; mkCell 2 100]) /\
  let r := HandlePickedObject sample_cell_path sample_focused in
  fst r = Py.Ok tt /\
  columnID (gui (snd r))
  = Some (py_position (length (corticalColumns sample_layer)) 0) /\
  cellID (gui (snd r))
  = Some (py_position
            (length (cells (mkColumn 100 [mkCell 1 100; mkCell 2 100]))) 1) /\
  client_calls (client (snd r))
  = client_calls (client sample_focused) ++ synapse_requests (gui sample_focused).
Proof.
  do 9 (split; [reflexivity|]).
  split; [refine (bool_decide_unpack (NoDup _) _); vm_compute; exact I|].
  split; [refine (bool_decide_unpack (NoDup _) _); vm_compute; exact I|].
  split; [reflexivity|].
  apply (HandlePickedObject_locates_the_cell sample_cell_path sample_focused
           1 0 "HTM1" "SensoryLayer"
           (mkHTMObject {["SensoryLayer" := sample_layer]}) sample_layer
           (mkColumn 100 [mkCell 1 100; mkCell 2 100]) (mkCell 2 100));
    try reflexivity; refine (bool_decide_unpack (NoDup _) _); vm_compute;
    exact I.
Defined.

End InteractionMore.

(** ** The window and escape handlers *)

Section InteractionEventFacts.
Import Interaction InteractionEvents.

(** X14: [onWindowEvent] on a closed window raises [SystemExit(0)] out of
  [CloseApp]: the lens and the gui are not touched and the client's
  terminate flag keeps its value.  On an open window of height 0 it
  raises [ZeroDivisionError] after [setFov(60)] alone.  Otherwise it
  returns, the lens has received [setFov(60)], [setAspectRatio] with the
  width over the height, and [setFar(500)], in that order, the lens has
  been set once and the gui has been told once. *)
Theorem onWindowEvent_outcomes (a : App) :
  let r := onWindowEvent a in
  let a' := snd r in
  win a' = win a /\
  terminateClientThread (client (self a'))
  = terminateClientThread (client (self a)) /\
  if isClosed (win a)
  then fst r = PyMore.Raise (PyMore.Known (Py.SystemExit 0)) /\
       self a' = write_stdout (OutStr "CLOSE app event") (self a) /\
       lens a' = lens a /\ setLens_calls a' = setLens_calls a /\
       gui_onWindowEvent_calls a' = gui_onWindowEvent_calls a
  else
    self a' = self a /\
    if (getYSize (win a) =? 0)%Z
    then fst r = PyMore.Raise PyMore.ZeroDivisionError /\
         lens a' = lens a ++ [setFov 60] /\
         setLens_calls a' = setLens_calls a /\
         gui_onWindowEvent_calls a' = gui_onWindowEvent_calls a
    else fst r = PyMore.Ok tt /\
         lens a'
         = lens a ++ [setFov 60;
                      setAspectRatio (inject_Z (getXSize (win a))
                                      / inject_Z (getYSize (win a)));
                      setFar 500] /\
         setLens_calls a' = S (setLens_calls a) /\
         gui_onWindowEvent_calls a' = S (gui_onWindowEvent_calls a).
Proof.
  cbn zeta. unfold onWindowEvent.
  destruct (isClosed (win a)) eqn:Hc.
  - repeat split; reflexivity.
  - cbn [set_self win call_lens]. unfold true_div.
    destruct (getYSize (win a) =? 0)%Z eqn:Hy; cbn.
    + repeat split; reflexivity.
    + rewrite <- !app_assoc. repeat split; reflexivity.
Qed.

Lemma foldl_DestroySynapses (l : list string) (a : App) :
  foldl call_DestroySynapses a l
  = mkApp (self a) (win a) (lens a) (setLens_calls a)
      (gui_onWindowEvent_calls a) (DestroySynapses_calls a ++ l).
Proof.
  revert a. induction l as [|k l IH]; intros a; cbn.
  - rewrite app_nil_r. now destruct a.
  - rewrite IH. cbn. now rewrite <- app_assoc.
Qed.

(** X15: [onEscape] calls [DestroySynapses] exactly once on every HTM
  object of the base and on nothing else, and changes nothing of the
  controller: the focused cell stays focused. *)
Theorem onEscape_visits_every_object (a : App) :
  let a' := onEscape a in
  self a' = self a /\ lens a' = lens a /\
  exists visited : list string,
    DestroySynapses_calls a' = DestroySynapses_calls a ++ visited /\
    NoDup visited /\
    forall k, k ∈ visited <-> is_Some (HTMObjects (base (self a)) !! k).
Proof.
  cbn zeta. unfold onEscape. rewrite foldl_DestroySynapses. cbn.
  split; [reflexivity|]. split; [reflexivity|].
  eexists. split; [reflexivity|]. split.
  - apply NoDup_fst_map_to_list.
  - intros k. rewrite list_elem_of_fmap. split.
    + intros [[k' o] [-> Hin]]. apply elem_of_map_to_list in Hin. eauto.
    + intros [o Ho]. exists (k, o). split; [reflexivity|].
      now apply elem_of_map_to_list.
Qed.

End InteractionEventFacts.

(** ** How [main] ends *)

Section HotgymMore.
Import Hotgym HotgymRuns.
Context {L : Library}.
Implicit Types (m : Main L) (sd : ServerData) (server : PandaServer L).

Lemma same_but_flags_refl m : same_but_flags m m.
Proof.
  exists (runInLoop (pandaServer m)), (runOneStep (pandaServer m)).
  now destruct m as [? ? ? ? ? ? ? ? ? ? ? ? []].
Qed.

Lemma same_but_flags_serve m m' a :
  same_but_flags m m' -> same_but_flags m (serve a m').
Proof.
  intros (b1 & b2 & ->). destruct a as [b|b].
  - now exists b, b2.
  - now exists b1, b.
Qed.

Lemma halted_exec m m' t :
  halted m -> same_but_flags m m' ->
  same_but_flags m (exec m' t).
Proof.
  intros Hh Hs. destruct t as [|a]; [|now apply same_but_flags_serve].
  destruct Hs as (b1 & b2 & ->). exists b1, b2.
  cbn [exec]. unfold step. cbn [pc with_server].
  destruct Hh as [-> | [e ->]]; reflexivity.
Qed.

Lemma halted_run schedule : forall m m',
  halted m -> same_but_flags m m' -> same_but_flags m (run schedule m').
Proof.
  induction schedule as [|t schedule IH]; intros m m' Hh Hs; [exact Hs|].
  cbn [run foldl]. apply (IH m (exec m' t) Hh).
  now apply halted_exec.
Qed.

(** X16: on a file of fewer than three rows [main] raises
  [StopIteration] while skipping the header rows: under every schedule
  nothing is published, no input is read and no step is done. *)
Theorem main_on_a_short_file (reader : list (list string))
    (schedule : list Tick) (global : option ServerData)
    (server : PandaServer L) :
  length reader < 3 ->
  let m := main schedule global server reader in
  pc m = Raised Py.StopIteration /\
  published (pandaServer m) = [] /\ m_inputs m = [] /\ steps_done m = 0 /\
  serverData m = global.
Proof.
  intros Hlen. cbn zeta. unfold main.
  set (start := main_start global server reader).
  assert (Hpc : pc start = Raised Py.StopIteration).
  { subst start. unfold main_start.
    now rewrite (read_records_short reader Hlen). }
  assert (Hh : halted start) by (right; eauto).
  pose proof (halted_run schedule start start Hh (same_but_flags_refl _))
    as (b1 & b2 & ->).
  unfold steps_done. cbn. rewrite Hpc.
  subst start. unfold main_start.
  rewrite (read_records_short reader Hlen). cbn. auto.
Qed.


Lemma publish_step_parse_error m count record :
  parse_record (L := L) record = None ->
  publish_step count record m = (Py.Raise (parse_error (L := L) record), m).
Proof.
  intros Hparse. unfold parse_record in Hparse. unfold publish_step, parse_error.
  destruct record as [|r0 fields]; [reflexivity|].
  cbn in Hparse. rewrite (bind_lift_Some _ _ r0) by reflexivity.
  destruct (strptime L r0) as [d|] eqn:E1; cbn in Hparse; [|reflexivity].
  rewrite (bind_lift_Some _ _ d) by reflexivity.
  destruct fields as [|r1 fields]; [reflexivity|].
  cbn in Hparse. rewrite (bind_lift_Some _ _ r1) by reflexivity.
  destruct (float L r1) as [c|] eqn:E3; [discriminate|reflexivity].
Qed.

Lemma Inv_AtFor_counts R n m :
  Inv R n m -> pc m = AtFor ->
  length (published (pandaServer m)) + length (todo m) = n /\
  length (m_inputs m) + length (todo m) = n /\
  steps_done m + length (todo m) = n.
Proof.
  intros HI Hpc. unfold Inv in HI. rewrite Hpc in HI.
  destruct HI as (done & _ & Hlen & Hv & Hin & Han & _).
  apply (f_equal length) in Hv. rewrite !length_fmap in Hv.
  unfold steps_done. rewrite Hv, Hin, Han, !length_fmap. auto.
Qed.

Lemma publish_round_inputs R n m count record rest r0 d c :
  Inv R n m -> pc m = AtFor ->
  todo m = (count, record) :: rest -> parse_record record = Some (r0, d, c) ->
  m_inputs (step m) = m_inputs m ++ [c].
Proof.
  intros HI Hpc Htodo Hparse.
  unfold Inv in HI. rewrite Hpc in HI.
  destruct HI as (done & _ & _ & Hdata).
  destruct Hdata as (_ & _ & _ & _ & _ & _ & sd & Hsd & Hb).
  destruct (publish_step_run (set_todo rest m) sd count record r0 d c
              Hsd Hb Hparse) as (sd' & _ & _ & Hrun).
  unfold step. rewrite Hpc, Htodo. unfold run_stmt. rewrite Hrun.
  unfold publish_out. reflexivity.
Qed.

(** The second half of the body on a consumption that [int] rejects. *)
Lemma learn_raises R n m loc :
  Inv R n m -> pc m = AtActivate -> cur m = Some loc ->
  (forall bucket, int_of_float L (l_consumption loc) <> int_is bucket) ->
  pc (step m) = Raised (int_error (int_of_float L (l_consumption loc))) /\
  pandaServer (step m) = pandaServer m /\
  m_inputs (step m) = m_inputs m /\
  predictor (step m) = predictor m /\
  steps_done (step m) = S (steps_done m).
Proof.
  intros HI Hpc Hcur Hint.
  unfold Inv in HI. rewrite Hpc in HI.
  destruct HI as (done & loc' & view & Hcur' & _ & _ & Hdata).
  rewrite Hcur in Hcur'. injection Hcur' as <-.
  destruct Hdata as (_ & _ & _ & _ & Hp1 & Hp5 & _).
  unfold step. rewrite Hpc. unfold run_stmt.
  rewrite (learn_step_run m loc _ _ view Hcur Hp1 Hp5).
  unfold steps_done, train.
  destruct (int_of_float L (l_consumption loc)) as [z| |];
    [now destruct (Hint z) | |];
    cbn; rewrite length_app; cbn; repeat split; lia.
Qed.

(** X18: when the records start with ones the loop gets through and then
  one it does not, and the gui lets the loop run, [main] publishes and
  learns the first ones, one step each, and stops at the bad record.  A
  record that cannot be read raises before anything is appended or
  published for it: [IndexError] for a missing field, [ValueError] for a
  date or number that does not parse.  A record that reads as a NaN or
  an infinity is published and its step is done up to line 220; then
  [int] raises [ValueError] or [OverflowError] at line 221 and the
  predictor does not learn from it.  The records after the bad one are
  never reached, however long the program is run on. *)
Theorem main_stops_at_the_first_bad_record (reader : list (list string))
    (good : list (list string)) (bad : list string)
    (later : list (list string)) (sd : ServerData) (server : PandaServer L)
    (more : list Tick) :
  read_records reader = Py.Ok (good ++ bad :: later) -> built sd ->
  Forall (processable (L := L)) good -> ~ processable (L := L) bad ->
  let schedule :=
    Server (SetRunInLoop true) :: replicate (4 * length good + 4) Prog ++ more in
  let m := main schedule (Some sd) server reader in
  match parse_record (L := L) bad with
  | None =>
      pc m = Raised (parse_error (L := L) bad) /\
      length (published (pandaServer m)) = length good /\
      length (m_inputs m) = length good /\
      steps_done m = length good
  | Some (_, _, consumption) =>
      pc m = Raised (int_error (int_of_float L consumption)) /\
      length (published (pandaServer m)) = S (length good) /\
      length (m_inputs m) = S (length good) /\
      steps_done m = S (length good)
  end.
Proof.
  intros Hread Hb Hgood Hbad. cbn zeta. unfold main.
  set (records := good ++ bad :: later) in *.
  destruct (start_at_for (Some sd) server reader records Hread)
    as (Hpc & Htodo & _).
  pose proof (Inv_start sd server reader records Hread Hb) as HI.
  cbn [run foldl exec].
  set (m0 := serve (SetRunInLoop true) (main_start (Some sd) server reader)).
  fold (run (replicate (4 * length good + 4) Prog ++ more) m0).
  rewrite run_app, replicate_add, run_app.
  apply (Inv_serve _ _ _ (SetRunInLoop true)) in HI. fold m0 in HI.
  assert (Htodo0 : todo m0
                   = enumerate good
                     ++ (length good, bad)
                        :: imap (fun i x => (S (length good + i), x)) later).
  { subst m0. cbn. rewrite Htodo. subst records. unfold enumerate.
    rewrite imap_app. cbn. f_equal. f_equal; [now rewrite Nat.add_0_r|].
    apply imap_ext. intros i x _. cbn. f_equal. lia. }
  assert (Hall : Forall (fun cr => processable (L := L) cr.2) (enumerate good)).
  { apply Forall_lookup. intros i [count record] Hi.
    apply enumerate_lookup in Hi as [_ Hi]. cbn.
    rewrite Forall_lookup in Hgood. exact (Hgood i record Hi). }
  destruct (loop_rounds _ _ (enumerate good) m0 _ HI Hpc eq_refl Htodo0 Hall)
    as (HI1 & Hpc1 & Hloop1 & Htodo1).
  rewrite length_enumerate in HI1, Hpc1, Hloop1, Htodo1.
  set (m1 := run (replicate (4 * length good) Prog) m0) in *.
  destruct (Inv_AtFor_counts _ _ _ HI1 Hpc1) as (Hc1 & Hc2 & Hc3).
  rewrite Htodo1 in Hc1, Hc2, Hc3. cbn [length] in Hc1, Hc2, Hc3.
  rewrite length_imap in Hc1, Hc2, Hc3.
  assert (Hn : length records = length good + S (length later)).
  { subst records. rewrite length_app. reflexivity. }
  clearbody m1.
  destruct (parse_record (L := L) bad) as [[[r0 d] c]|] eqn:Hparse.
  - (* the record reads, and [int] rejects its consumption *)
    assert (Hint : forall z, int_of_float L c <> int_is z).
    { intros z Hz. apply Hbad. exists r0, d, c, z. auto. }
    destruct (publish_round _ _ m1 _ bad _ r0 d c HI1 Hpc1 Htodo1 Hparse)
      as (HI2 & Hpc2 & _ & (ac & pcs & Hcur2) & Hl2 & _ & Hpub2 & _ & Han2).
    pose proof (publish_round_inputs _ _ m1 _ bad _ r0 d c HI1 Hpc1 Htodo1
                  Hparse) as Hin2.
    rewrite Hloop1 in Hl2.
    cbn [replicate run foldl exec].
    set (m2 := step m1) in *. clearbody m2.
    assert (Hs3 : step m2 = set_pc AtReset m2).
    { unfold step. now rewrite Hpc2, Hl2. }
    pose proof (Inv_step _ _ _ HI2) as HI3. rewrite Hs3 in *.
    pose proof (Inv_step _ _ _ HI3) as HI4.
    set (m4 := step (set_pc AtReset m2)) in *.
    assert (Hm4 : m4 = set_pc AtActivate
                         (with_server (set_runOneStep false) m2))
      by reflexivity.
    destruct (learn_raises _ _ m4 (mkLocals (length good) bad c ac pcs) HI4)
      as (Hpc5 & Hps5 & Hin5 & _ & Hsteps5);
      [now rewrite Hm4 | rewrite Hm4; exact Hcur2 | exact Hint |].
    cbn [l_consumption] in Hpc5.
    fold (run more (step m4)).
    assert (Hh : halted (step m4)) by (right; eauto).
    pose proof (halted_run more (step m4) (step m4) Hh (same_but_flags_refl _))
      as (b1 & b2 & ->).
    unfold steps_done in *. set (m5 := step m4) in *. clearbody m5.
    rewrite Hm4 in Hps5, Hin5, Hsteps5.
    cbn in Hps5, Hin5, Hsteps5 |- *.
    rewrite Hpc5, Hps5, Hin5, Hsteps5. cbn.
    rewrite Hpub2, Han2, Hin2, length_app. cbn.
    split; [reflexivity|]. repeat split; lia.
  - (* the record cannot be read *)
    assert (Hstep : run (replicate 4 Prog) m1
                    = set_pc (Raised (parse_error (L := L) bad))
                        (set_todo
                           (imap (fun i x => (S (length good + i), x)) later)
                           m1)).
    { cbn [replicate run foldl exec]. unfold step at 4.
      rewrite Hpc1, Htodo1. unfold run_stmt.
      rewrite (publish_step_parse_error _ _ _ Hparse). reflexivity. }
    rewrite Hstep. clear Hstep.
    set (m2 := set_pc _ _).
    assert (Hh : halted m2) by (right; eexists; reflexivity).
    pose proof (halted_run more m2 m2 Hh (same_but_flags_refl _))
      as (b1 & b2 & ->).
    unfold steps_done in *. cbn. split; [reflexivity|]. repeat split; lia.
Qed.




Lemma quiet_server_run pre : forall m,
  Forall (fun t => t <> Prog) pre -> same_but_flags m (run pre m).
Proof.
  induction pre as [|t pre IH] using rev_ind; intros m Hall.
  - apply same_but_flags_refl.
  - apply Forall_app in Hall as [Hpre Ht]. apply Forall_cons in Ht as [Ht _].
    rewrite run_app. cbn [run foldl].
    destruct t as [|a]; [congruence|].
    cbn [exec]. apply same_but_flags_serve. now apply IH.
Qed.

(** X20: without [BuildPandaSystem] the global [serverData] is undefined,
  and the first step of [main] on a readable first record raises
  [NameError] at line 173: the record's consumption is already appended
  to the inputs, nothing is published and no step is done, whatever
  comes after. *)
Theorem main_without_BuildPandaSystem (reader : list (list string))
    (record : list string) (rest : list (list string))
    (r0 : string) (d : Datetime L) (c : Float L)
    (server : PandaServer L) (pre post : list Tick) :
  read_records reader = Py.Ok (record :: rest) ->
  parse_record record = Some (r0, d, c) ->
  Forall (fun t => t <> Prog) pre ->
  let m := main (pre ++ Prog :: post) None server reader in
  pc m = Raised (Py.NameError "serverData") /\
  published (pandaServer m) = [] /\ m_inputs m = [c] /\ steps_done m = 0.
Proof.
  intros Hread Hparse Hpre. cbn zeta. unfold main.
  rewrite run_app. cbn [run foldl exec].
  set (start := main_start None server reader).
  destruct (quiet_server_run pre start Hpre) as (b1 & b2 & ->).
  assert (Hstep : exists m1,
    step (with_server
            (fun p => set_runInLoop b1 (set_runOneStep b2 p)) start) = m1 /\
    pc m1 = Raised (Py.NameError "serverData") /\
    published (pandaServer m1) = [] /\ m_inputs m1 = [c] /\ anomaly m1 = []).
  { eexists. split; [reflexivity|].
    subst start. unfold main_start. rewrite Hread.
    unfold step. cbn [pc with_server todo enumerate imap].
    unfold run_stmt, publish_step.
    unfold parse_record in Hparse.
    destruct (record !! 0%nat) as [r0'|] eqn:E0; [|discriminate].
    cbn in Hparse.
    destruct (strptime L r0') as [d'|] eqn:E1; [|discriminate].
    cbn in Hparse.
    destruct (record !! 1%nat) as [r1|] eqn:E2; [|discriminate].
    cbn in Hparse.
    destruct (float L r1) as [c'|] eqn:E3; [|discriminate]. cbn in Hparse.
    injection Hparse as -> -> ->.
    rewrite (bind_lift_Some _ _ r0) by reflexivity.
    rewrite (bind_lift_Some _ _ _ _ _ E1).
    rewrite (bind_lift_Some _ _ r1) by reflexivity.
    rewrite (bind_lift_Some _ _ _ _ _ E3).
    rewrite bind_modify, bind_get, !bind_modify, bind_get.
    unfold update_input at 1. rewrite bind_assoc, bind_get.
    cbn [serverData set_tm set_sp set_inputs set_todo with_server set_pc].
    rewrite bind_assoc, (bind_lift_None _ _ _ _ eq_refl).
    cbn. auto. }
  destruct Hstep as (m1 & -> & Hpc & Hpub & Hin & Han).
  change (foldl exec m1 post) with (run post m1).
  assert (Hh : halted m1) by (right; eauto).
  pose proof (halted_run post m1 m1 Hh (same_but_flags_refl _))
    as (c1 & c2 & ->).
  unfold steps_done. cbn. rewrite Hpc, Hpub, Hin, Han. auto.
Qed.


Global Instance server_grows_preorder : PreOrder (server_grows (L := L)).
Proof.
  split.
  - intros p. unfold server_grows. auto.
  - intros p q r (H1 & H2 & H3) (H4 & H5 & H6). unfold server_grows.
    rewrite H4, H5. repeat split; auto. now transitivity (published q).
Qed.

Lemma respects_bind (R : relation (PandaServer L)) `{!PreOrder R} {A B} (s : Py.M (Main L) A)
    (k : A -> Py.M (Main L) B) :
  respects R s -> (forall a, respects R (k a)) -> respects R (Py.bind s k).
Proof.
  intros Hs Hk m. specialize (Hs m). unfold Py.bind.
  destruct (s m) as [[a|e] m1]; cbn in *; [|exact Hs].
  now transitivity (pandaServer m1); [|apply Hk].
Qed.

Lemma respects_ret (R : relation (PandaServer L)) `{!PreOrder R} {A} (a : A) : respects R (Py.ret a).
Proof. intros m. reflexivity. Qed.

Lemma respects_get (R : relation (PandaServer L)) `{!PreOrder R} : respects R Py.get.
Proof. intros m. reflexivity. Qed.

Lemma respects_lift (R : relation (PandaServer L)) `{!PreOrder R} {A} e (o : option A) :
  respects R (Py.lift e o).
Proof. intros m. destruct o; reflexivity. Qed.

Lemma respects_raise (R : relation (PandaServer L)) `{!PreOrder R} {A} e :
  respects R (Py.raise (A := A) e).
Proof. intros m. reflexivity. Qed.

Lemma respects_modify (R : relation (PandaServer L)) (f : Main L -> Main L) :
  (forall m, R (pandaServer m) (pandaServer (f m))) ->
  respects R (Py.modify f).
Proof. intros Hf m. apply Hf. Qed.

Ltac same_server_tac :=
  repeat first
    [ apply respects_bind; [apply _ | |intros ?]
    | apply respects_ret; apply _ | apply respects_get; apply _
    | apply respects_lift; apply _
    | apply respects_modify; intros ?; reflexivity ].

Ltac grows_leaf :=
  unfold server_grows; cbn; repeat split;
  solve [reflexivity | apply prefix_app_r; reflexivity].

Lemma update_input_same_server h i f :
  respects (L := L) eq (update_input h i f).
Proof. unfold update_input. same_server_tac. Qed.

Lemma update_layer_same_server h l f :
  respects (L := L) eq (update_layer h l f).
Proof. unfold update_layer. same_server_tac. Qed.

Lemma append_prediction_same_server n x :
  respects (L := L) eq (append_prediction n x).
Proof. unfold append_prediction. same_server_tac. Qed.

Lemma respects_eq (R : relation (PandaServer L)) `{!PreOrder R} {A} (s : Py.M (Main L) A) :
  respects eq s -> respects R s.
Proof. intros Hs m. now rewrite <- (Hs m). Qed.

Lemma publish_step_grows count record :
  respects (L := L) server_grows (publish_step count record).
Proof.
  unfold publish_step.
  repeat first
    [ apply respects_eq; [apply _ | apply update_input_same_server]
    | apply respects_eq; [apply _ | apply update_layer_same_server]
    | apply respects_bind; [apply _ | |intros ?]
    | apply respects_ret; apply _ | apply respects_get; apply _
    | apply respects_lift; apply _
    | apply respects_modify; intros ?; cbn; grows_leaf ].
Qed.

Lemma py_int_of_float_same_server x :
  respects (L := L) eq (py_int_of_float x).
Proof.
  unfold py_int_of_float. destruct (int_of_float L x);
    [apply respects_ret | apply respects_raise | apply respects_raise];
    apply _.
Qed.

Lemma learn_step_same_server : respects (L := L) eq learn_step.
Proof.
  unfold learn_step. cbn [foldr].
  repeat first
    [ apply append_prediction_same_server
    | apply py_int_of_float_same_server
    | apply respects_bind; [apply _ | |intros ?]
    | apply respects_ret; apply _ | apply respects_get; apply _
    | apply respects_lift; apply _
    | apply respects_modify; intros ?; reflexivity ].
Qed.

Lemma run_stmt_respects (R : relation (PandaServer L)) (s : Py.M (Main L) unit) after m :
  respects R s -> R (pandaServer m) (pandaServer (run_stmt s after m)).
Proof.
  intros Hs. specialize (Hs m). unfold run_stmt.
  destruct (s m) as [[[]|e] m1]; exact Hs.
Qed.

(** X21: no step of [main] writes [runInLoop]; the only write to
  [runOneStep] is the reset to [False] at line 194; the list of published
  states only grows, and only in the step that takes the next record. *)
Theorem main_writes_one_flag (m : Main L) :
  runInLoop (pandaServer (step m)) = runInLoop (pandaServer m) /\
  (runOneStep (pandaServer (step m)) = runOneStep (pandaServer m) \/
   pc m = AtReset /\ runOneStep (pandaServer (step m)) = false) /\
  (published (pandaServer m) `prefix_of` published (pandaServer (step m))) /\
  (pc m <> AtFor ->
   published (pandaServer (step m)) = published (pandaServer m)).
Proof.
  assert (Hfor : pc m = AtFor ->
    server_grows (pandaServer m) (pandaServer (step m))).
  { intros Hpc. unfold step. rewrite Hpc.
    destruct (todo m) as [|[count record] rest]; [reflexivity|].
    apply (run_stmt_respects _ _ _ (set_todo rest m)), publish_step_grows. }
  assert (Hact : pc m = AtActivate ->
    pandaServer (step m) = pandaServer m).
  { intros Hpc. unfold step. rewrite Hpc. symmetry.
    apply (run_stmt_respects eq), learn_step_same_server. }
  destruct (pc m) eqn:Hpc.
  - destruct (Hfor eq_refl) as (H1 & H2 & H3).
    split; [exact H1|]. split; [now left|]. split; [exact H3|]. congruence.
  - unfold step. rewrite Hpc.
    destruct (runInLoop (pandaServer m)) eqn:E; cbn; rewrite ?E;
      (split; [|split; [|split]]); auto; reflexivity.
  - unfold step. rewrite Hpc.
    destruct (runOneStep (pandaServer m)) eqn:E; cbn; rewrite ?E;
      (split; [|split; [|split]]); auto; reflexivity.
  - unfold step. rewrite Hpc. cbn.
    (split; [|split; [|split]]); auto; reflexivity.
  - rewrite (Hact eq_refl). (split; [|split; [|split]]); auto; reflexivity.
  - unfold step. rewrite Hpc. cbn.
    (split; [|split; [|split]]); auto; reflexivity.
  - unfold step. rewrite Hpc.
    (split; [|split; [|split]]); auto; reflexivity.
  - unfold step. rewrite Hpc.
    (split; [|split; [|split]]); auto; reflexivity.
Qed.

(** X22: the visualisation is at most one record ahead of the learning.
  Between taking a record and [tm.activateCells], one more state has been
  published (and one more input read) than steps are done; at the head of
  the loop, at the shift and at the end the three numbers are equal. *)
Theorem main_shows_one_record_ahead (reader records : list (list string))
    (sd : ServerData) (server : PandaServer L) (schedule : list Tick) :
  read_records reader = Py.Ok records -> built sd ->
  let m := main schedule (Some sd) server reader in
  let shown := length (published (pandaServer m)) in
  match pc m with
  | AtFor | AtShift | Finished =>
      shown = steps_done m /\ length (m_inputs m) = steps_done m
  | AtWhileRunInLoop | AtWhileRunOneStep | AtReset | AtActivate =>
      shown = S (steps_done m) /\ length (m_inputs m) = S (steps_done m)
  | Raised _ => steps_done m <= length (m_inputs m)
  end.
Proof.
  intros Hread Hb. cbn zeta. unfold main.
  pose proof (Inv_run _ _ schedule _
                (Inv_start sd server reader records Hread Hb)) as HI.
  set (m := run schedule (main_start (Some sd) server reader)) in *.
  clearbody m. unfold Inv in HI. unfold steps_done.
  destruct (pc m).
  - destruct HI as (done & _ & _ & Hv & -> & -> & _).
    apply (f_equal length) in Hv. rewrite !length_fmap in *. auto.
  - destruct HI as (done & loc & view & _ & _ & _ & Hv & -> & -> & _).
    apply (f_equal length) in Hv. rewrite !length_fmap, ?length_app in *.
    cbn in *. split; lia.
  - destruct HI as (done & loc & view & _ & _ & _ & Hv & -> & -> & _).
    apply (f_equal length) in Hv. rewrite !length_fmap, ?length_app in *.
    cbn in *. split; lia.
  - destruct HI as (done & loc & view & _ & _ & _ & Hv & -> & -> & _).
    apply (f_equal length) in Hv. rewrite !length_fmap, ?length_app in *.
    cbn in *. split; lia.
  - destruct HI as (done & loc & view & _ & _ & _ & Hv & -> & -> & _).
    apply (f_equal length) in Hv. rewrite !length_fmap, ?length_app in *.
    cbn in *. split; lia.
  - destruct HI as (_ & _ & Hv & -> & -> & _).
    apply (f_equal length) in Hv. rewrite !length_fmap in *. auto.
  - destruct HI as (_ & Hv & -> & -> & _).
    apply (f_equal length) in Hv. rewrite !length_fmap in *. auto.
  - lia.
Qed.

(** X23: what a finished [main] has computed does not depend on when the
  gui let it step: two finished runs on the same file, under any two
  schedules and with any two servers, have published the same views and
  hold the same inputs, anomalies and shifted predictions. *)
Theorem main_result_ignores_the_timing (reader records : list (list string))
    (sd : ServerData) (server1 server2 : PandaServer L)
    (schedule1 schedule2 : list Tick) :
  read_records reader = Py.Ok records -> built sd ->
  let m1 := main schedule1 (Some sd) server1 reader in
  let m2 := main schedule2 (Some sd) server2 reader in
  pc m1 = Finished -> pc m2 = Finished ->
  view_of <$> published (pandaServer m1)
  = view_of <$> published (pandaServer m2) /\
  m_inputs m1 = m_inputs m2 /\ anomaly m1 = anomaly m2 /\
  predictions m1 !! 1%nat = predictions m2 !! 1%nat /\
  predictions m1 !! 5%nat = predictions m2 !! 5%nat.
Proof.
  intros Hread Hb. cbn zeta. unfold main. intros Hpc1 Hpc2.
  pose proof (Inv_run _ _ schedule1 _
                (Inv_start sd server1 reader records Hread Hb)) as HI1.
  pose proof (Inv_run _ _ schedule2 _
                (Inv_start sd server2 reader records Hread Hb)) as HI2.
  unfold Inv in HI1, HI2. rewrite Hpc1 in HI1. rewrite Hpc2 in HI2.
  destruct HI1 as (_ & -> & -> & -> & -> & ->).
  destruct HI2 as (_ & -> & -> & -> & -> & ->).
  auto.
Qed.

End HotgymMore.

(** ** The accuracy figures and the value returned *)

Section AccuracyFacts.
Import Hotgym HotgymAccuracy HotgymFigures.
Context {L : Library} (F : Arith L).

Lemma real_predictions_cons (x : Prediction) (l : list Prediction) :
  real_predictions (x :: l)
  = match x with nan => 0 | predicted _ => 1 end + real_predictions l.
Proof.
  unfold real_predictions. rewrite filter_cons.
  destruct x; destruct (decide _) as [H|H]; cbn; try reflexivity; exfalso.
  - now apply H.
  - apply H. discriminate.
Qed.

Lemma score_run (predictions : gmap nat (list Prediction)) idx inp
    (t : Tally F) n pred_list x a samples :
  predictions !! n = Some pred_list -> pred_list !! idx = Some x ->
  accuracy F t !! n = Some a -> accuracy_samples F t !! n = Some samples ->
  exists t',
    score F predictions idx inp t n = PyMore.Ok t' /\
    accuracy F t' !! n = Some (add_error F inp a x) /\
    accuracy_samples F t' !! n
    = Some (samples + real_predictions [x]) /\
    (forall k, k <> n ->
       accuracy F t' !! k = accuracy F t !! k /\
       accuracy_samples F t' !! k = accuracy_samples F t !! k).
Proof.
  intros Hp Hx Ha Hs. unfold score. rewrite Hp, Hx.
  destruct x as [|val].
  - exists t. split; [reflexivity|]. rewrite real_predictions_cons. cbn.
    rewrite Nat.add_0_r. auto.
  - rewrite Ha, Hs. eexists. split; [reflexivity|].
    rewrite real_predictions_cons. cbn.
    rewrite !lookup_insert_eq. split; [reflexivity|].
    split; [f_equal; lia|].
    intros k Hk. rewrite !lookup_insert_ne by congruence. auto.
Qed.


Lemma horizons_run (predictions : gmap nat (list Prediction)) idx inp
    (t : Tally F) p1 p5 x1 x5 a1 s1 a5 s5 :
  predictions !! 1 = Some p1 -> predictions !! 5 = Some p5 ->
  p1 !! idx = Some x1 -> p5 !! idx = Some x5 ->
  holds F t a1 s1 a5 s5 ->
  exists t',
    PyMore.for_each (score F predictions idx inp) t horizons = PyMore.Ok t' /\
    holds F t' (add_error F inp a1 x1) (s1 + real_predictions [x1])
               (add_error F inp a5 x5) (s5 + real_predictions [x5]).
Proof.
  intros Hp1 Hp5 Hx1 Hx5 (Ha1 & Hs1 & Ha5 & Hs5).
  destruct (score_run predictions idx inp t 1 p1 x1 a1 s1 Hp1 Hx1 Ha1 Hs1)
    as (t1 & Hrun1 & Ha1' & Hs1' & Hk1).
  destruct (Hk1 5 ltac:(discriminate)) as [Ha5' Hs5'].
  rewrite Ha5, Hs5 in *.
  destruct (score_run predictions idx inp t1 5 p5 x5 a5 s5 Hp5 Hx5 Ha5' Hs5')
    as (t2 & Hrun2 & Ha5'' & Hs5'' & Hk5).
  destruct (Hk5 1 ltac:(discriminate)) as [Ha1'' Hs1''].
  exists t2. split.
  - unfold horizons. cbn [PyMore.for_each]. rewrite Hrun1. cbn [PyMore.bind].
    rewrite Hrun2. reflexivity.
  - unfold holds. rewrite Ha1'', Hs1'', Ha1', Hs1'. auto.
Qed.

Lemma real_predictions_app (l1 l2 : list Prediction) :
  real_predictions (l1 ++ l2) = real_predictions l1 + real_predictions l2.
Proof. unfold real_predictions. now rewrite filter_app, length_app. Qed.

Lemma tally_from (predictions : gmap nat (list Prediction)) p1 p5 inputs :
  predictions !! 1 = Some p1 -> predictions !! 5 = Some p5 ->
  forall k (t : Tally F) a1 s1 a5 s5,
  holds F t a1 s1 a5 s5 ->
  k + length inputs <= length p1 -> k + length inputs <= length p5 ->
  exists t',
    PyMore.for_each
      (fun t entry =>
         PyMore.for_each (score F predictions entry.1 entry.2) t horizons)
      t (imap (fun i x => (k + i, x)) inputs) = PyMore.Ok t' /\
    holds F t'
      (foldl (fun a entry => add_error F entry.1 a entry.2) a1
         (zip inputs (drop k p1)))
      (s1 + real_predictions (take (length inputs) (drop k p1)))
      (foldl (fun a entry => add_error F entry.1 a entry.2) a5
         (zip inputs (drop k p5)))
      (s5 + real_predictions (take (length inputs) (drop k p5))).
Proof.
  intros Hp1 Hp5.
  induction inputs as [|inp inputs IH]; intros k t a1 s1 a5 s5 Ht Hl1 Hl5.
  - exists t. split; [reflexivity|]. cbn.
    unfold real_predictions. cbn. rewrite !Nat.add_0_r. exact Ht.
  - cbn [length] in Hl1, Hl5.
    destruct (lookup_lt_is_Some_2 p1 k ltac:(lia)) as [x1 Hx1].
    destruct (lookup_lt_is_Some_2 p5 k ltac:(lia)) as [x5 Hx5].
    rewrite (drop_S _ _ _ Hx1), (drop_S _ _ _ Hx5).
    cbn [imap PyMore.for_each zip zip_with foldl length take fst snd].
    rewrite Nat.add_0_r.
    destruct (horizons_run predictions k inp t p1 p5 x1 x5 a1 s1 a5 s5
                Hp1 Hp5 Hx1 Hx5 Ht) as (t1 & Hrun & Ht1).
    rewrite Hrun. cbn [PyMore.bind].
    destruct (IH (S k) t1 _ _ _ _ Ht1 ltac:(lia) ltac:(lia))
      as (t2 & Hrun2 & Ht2).
    exists t2. split.
    + rewrite <- Hrun2. f_equal. apply imap_ext. intros i x _. cbn.
      f_equal. lia.
    + rewrite !(real_predictions_cons _ (take _ _)).
      rewrite !real_predictions_cons in Ht2. cbn in Ht2.
      rewrite !Nat.add_0_r in Ht2.
      rewrite !Nat.add_assoc. exact Ht2.
Qed.

Lemma tally_sums (predictions : gmap nat (list Prediction))
    (p1 p5 : list Prediction) (inputs : list (Float L)) :
  predictions !! 1 = Some p1 -> predictions !! 5 = Some p5 ->
  length inputs <= length p1 -> length inputs <= length p5 ->
  exists t,
    tally F predictions inputs = PyMore.Ok t /\
    holds F t
      (squared_errors F inputs p1)
      (real_predictions (take (length inputs) p1))
      (squared_errors F inputs p5)
      (real_predictions (take (length inputs) p5)).
Proof.
  intros Hp1 Hp5 Hl1 Hl5. unfold tally.
  destruct (tally_from predictions p1 p5 inputs Hp1 Hp5 0
              (mkTally F (<[5 := acc_zero F]> (<[1 := acc_zero F]> ∅))
                 (<[5 := 0]> (<[1 := 0]> ∅)))
              (acc_zero F) 0 (acc_zero F) 0)
    as (t & Hrun & Ht); [|exact Hl1|exact Hl5|].
  - unfold holds. cbn.
    rewrite !lookup_insert_eq, !(lookup_insert_ne _ 5 1) by discriminate.
    rewrite !lookup_insert_eq. auto.
  - exists t. split; [exact Hrun|]. exact Ht.
Qed.


(** X24: the accuracy loop of lines 243-248 computes, for each horizon on
  its own, the sum of the squared errors over the predictions that are
  not NaN and the number of those predictions, when each prediction list
  is at least as long as the inputs; it then raises nothing. *)
Theorem tally_sums_each_horizon (predictions : gmap nat (list Prediction))
    (p1 p5 : list Prediction) (inputs : list (Float L)) :
  predictions !! 1 = Some p1 -> predictions !! 5 = Some p5 ->
  length inputs <= length p1 -> length inputs <= length p5 ->
  exists t,
    tally F predictions inputs = PyMore.Ok t /\
    holds F t
      (squared_errors F inputs p1)
      (real_predictions (take (length inputs) p1))
      (squared_errors F inputs p5)
      (real_predictions (take (length inputs) p5)).
Proof. exact (tally_sums predictions p1 p5 inputs). Qed.

Lemma root_mean_square_run (t : Tally F) n a samples :
  accuracy F t !! n = Some a -> accuracy_samples F t !! n = Some samples ->
  root_mean_square F t n
  = if (samples =? 0)%nat then PyMore.Raise PyMore.ZeroDivisionError
    else PyMore.Ok (mkTally F (<[n := root_mean F a samples]> (accuracy F t))
                      (accuracy_samples F t)).
Proof. intros Ha Hs. unfold root_mean_square. now rewrite Ha, Hs. Qed.

Lemma figures_run (t : Tally F) a1 s1 a5 s5 :
  holds F t a1 s1 a5 s5 ->
  PyMore.bind (PyMore.for_each (root_mean_square F) t horizons) (fun t =>
    match accuracy F t !! 5 with
    | None => key_error (A := Acc F) 5
    | Some a => PyMore.Ok (negate F a)
    end)
  = if (s1 =? 0)%nat || (s5 =? 0)%nat
    then PyMore.Raise PyMore.ZeroDivisionError
    else PyMore.Ok (negate F (root_mean F a5 s5)).
Proof.
  intros (Ha1 & Hs1 & Ha5 & Hs5). unfold horizons. cbn [PyMore.for_each].
  rewrite (root_mean_square_run t 1 a1 s1 Ha1 Hs1).
  destruct (s1 =? 0)%nat; [reflexivity|]. cbn [PyMore.bind orb].
  rewrite (root_mean_square_run _ 5 a5 s5).
  - destruct (s5 =? 0)%nat; [reflexivity|]. cbn.
    now rewrite lookup_insert_eq.
  - cbn. now rewrite lookup_insert_ne by discriminate.
  - exact Hs5.
Qed.

Lemma main_return_value_aux (m : Main L) (p1 p5 : list Prediction) :
  predictions m !! 1 = Some p1 -> predictions m !! 5 = Some p5 ->
  length (m_inputs m) <= length p1 -> length (m_inputs m) <= length p5 ->
  let n := length (m_inputs m) in
  main_return F m
  = if (real_predictions (take n p1) =? 0)%nat
       || (real_predictions (take n p5) =? 0)%nat
    then PyMore.Raise PyMore.ZeroDivisionError
    else PyMore.Ok
           (negate F (root_mean F (squared_errors F (m_inputs m) p5)
                        (real_predictions (take n p5)))).
Proof.
  intros Hp1 Hp5 Hl1 Hl5. cbn zeta. unfold main_return.
  destruct (tally_sums (predictions m) p1 p5 (m_inputs m) Hp1 Hp5 Hl1 Hl5)
    as (t & Hrun & Ht).
  rewrite Hrun. cbn [PyMore.bind]. unfold squared_errors in Ht.
  exact (figures_run t _ _ _ _ Ht).
Qed.

(** X25: what [main] returns.  When some horizon has no prediction other
  than NaN among the entries matched with an input, line 250 divides by
  zero and [main] raises [ZeroDivisionError]; otherwise it returns minus
  the root mean squared error of the five-step predictions. *)
Theorem main_return_value (m : Main L) (p1 p5 : list Prediction) :
  predictions m !! 1 = Some p1 -> predictions m !! 5 = Some p5 ->
  length (m_inputs m) <= length p1 -> length (m_inputs m) <= length p5 ->
  let n := length (m_inputs m) in
  main_return F m
  = if (real_predictions (take n p1) =? 0)%nat
       || (real_predictions (take n p5) =? 0)%nat
    then PyMore.Raise PyMore.ZeroDivisionError
    else PyMore.Ok
           (negate F (root_mean F (squared_errors F (m_inputs m) p5)
                        (real_predictions (take n p5)))).
Proof. exact (main_return_value_aux m p1 p5). Qed.

Lemma real_predictions_replicate k : real_predictions (replicate k nan) = 0.
Proof.
  induction k as [|k IH]; [reflexivity|].
  cbn [replicate]. now rewrite real_predictions_cons.
Qed.

(** X26: after a finished loop the accuracy lines raise neither
  [KeyError] nor [IndexError]: [main] either returns a figure or raises
  [ZeroDivisionError].  On a file of at most five records it always
  raises [ZeroDivisionError], because the shift leaves the five-step
  list all NaN. *)
Theorem main_return_on_a_finished_run (reader records : list (list string))
    (sd : ServerData) (server : PandaServer L) (schedule : list Tick) :
  read_records reader = Py.Ok records -> built sd ->
  let m := main schedule (Some sd) server reader in
  pc m = Finished ->
  (main_return F m = PyMore.Raise PyMore.ZeroDivisionError \/
   exists a, main_return F m = PyMore.Ok a) /\
  (length records <= 5 ->
   main_return F m = PyMore.Raise PyMore.ZeroDivisionError).
Proof.
  intros Hread Hb. cbn zeta. unfold main. intros Hpc.
  pose proof (Inv_run _ _ schedule _
                (Inv_start sd server reader records Hread Hb)) as HI.
  set (m := run schedule (main_start (Some sd) server reader)) in *.
  clearbody m. unfold Inv in HI. rewrite Hpc in HI.
  destruct HI as (Hlen & _ & Hin & _ & Hp1 & Hp5).
  set (R := reference (new_model records) (enumerate records)) in *.
  assert (Hn : length (m_inputs m) = length R)
    by now rewrite Hin, length_fmap.
  pose proof (main_return_eq := fun H1 H5 =>
    main_return_value_aux m _ _ Hp1 Hp5 H1 H5).
  rewrite !shift_length, !length_fmap in main_return_eq.
  specialize (main_return_eq ltac:(lia) ltac:(lia)).
  rewrite main_return_eq. split.
  - destruct (_ || _); eauto.
  - intros Hshort.
    assert (H5 : take (length (m_inputs m))
                   (shift 5 ((fun o => o_prediction o 5) <$> R))
                 = replicate (length R) nan).
    { rewrite shift_take, length_fmap, Hn, take_take, Nat.min_id.
      rewrite take_app_le by (rewrite length_replicate; lia).
      rewrite take_replicate. f_equal. lia. }
    rewrite H5, real_predictions_replicate.
    now rewrite orb_true_r.
Qed.

End AccuracyFacts.

(** ** The runs above on the small library *)

Section HotgymMoreWitnesses.
Import Hotgym HotgymRuns HotgymAccuracy HotgymFigures.

Lemma main_on_a_short_file_witness :
  length sample_short_reader < 3 /\
  (let m := main (L := toy) sample_schedule None sample_server
              sample_short_reader in
   pc m = Raised Py.StopIteration /\
   published (pandaServer m) = [] /\ m_inputs m = [] /\ steps_done m = 0 /\
   serverData m = None).
Proof.
  split; [cbn; lia|].
  apply (main_on_a_short_file (L := toy) sample_short_reader sample_schedule
           None sample_server).
  cbn; lia.
Defined.

Lemma main_stops_at_the_first_bad_record_witness :
  read_records sample_nan_reader
  = Py.Ok ([["7/2/10 0:00"; "21"]] ++ ["7/2/10 1:00"; "nan"]
           :: [["7/2/10 2:00"; "4"]]) /\
  built BuildPandaSystem /\
  Forall (processable (L := toy_nan)) [["7/2/10 0:00"; "21"]] /\
  ~ processable (L := toy_nan) ["7/2/10 1:00"; "nan"] /\
  parse_record (L := toy_nan) ["7/2/10 1:00"; "nan"]
  = Some ("7/2/10 1:00", "7/2/10 1:00", None) /\
  (let schedule :=
     Server (SetRunInLoop true)
     :: replicate (4 * length [["7/2/10 0:00"; "21"]] + 4) Prog ++ [Prog] in
   let m := main (L := toy_nan) schedule (Some BuildPandaSystem)
              sample_nan_server sample_nan_reader in
   pc m = Raised Py.ValueError /\
   length (published (pandaServer m)) = 2 /\
   length (m_inputs m) = 2 /\
   steps_done m = 2).
Proof.
  assert (Hgood : Forall (processable (L := toy_nan)) [["7/2/10 0:00"; "21"]]).
  { repeat constructor.
    exists "7/2/10 0:00", "7/2/10 0:00", (Some 21%Z), 21%Z.
    split; reflexivity. }
  assert (Hbad : ~ processable (L := toy_nan) ["7/2/10 1:00"; "nan"]).
  { intros (r0 & d & c & z & Hp & Hi).
    vm_compute in Hp. injection Hp as <- <- <-. discriminate Hi. }
  split; [reflexivity|].
  split; [repeat split; eexists; vm_compute; reflexivity|].
  split; [exact Hgood|]. split; [exact Hbad|]. split; [reflexivity|].
  apply (main_stops_at_the_first_bad_record (L := toy_nan) sample_nan_reader
           [["7/2/10 0:00"; "21"]] ["7/2/10 1:00"; "nan"]
           [["7/2/10 2:00"; "4"]] BuildPandaSystem sample_nan_server [Prog]).
  - reflexivity.
  - repeat split; eexists; vm_compute; reflexivity.
  - exact Hgood.
  - exact Hbad.
Defined.


Lemma main_without_BuildPandaSystem_witness :
  read_records sample_reader
  = Py.Ok (["7/2/10 0:00"; "21"]
           :: [["7/2/10 1:00"; "16"]; ["7/2/10 2:00"; "4"]]) /\
  parse_record (L := toy) ["7/2/10 0:00"; "21"]
  = Some ("7/2/10 0:00", "7/2/10 0:00", 21%Z) /\
  Forall (fun t => t <> Prog) [Server (SetRunInLoop true)] /\
  (let m := main (L := toy) ([Server (SetRunInLoop true)] ++ Prog :: [Prog])
              None sample_server sample_reader in
   pc m = Raised (Py.NameError "serverData") /\
   published (pandaServer m) = [] /\ m_inputs m = [21%Z] /\
   steps_done m = 0).
Proof.
  split; [reflexivity|]. split; [reflexivity|].
  split; [repeat constructor; discriminate|].
  apply (main_without_BuildPandaSystem (L := toy) sample_reader
           ["7/2/10 0:00"; "21"]
           [["7/2/10 1:00"; "16"]; ["7/2/10 2:00"; "4"]]
           "7/2/10 0:00" "7/2/10 0:00" 21%Z sample_server
           [Server (SetRunInLoop true)] [Prog]).
  - reflexivity.
  - reflexivity.
  - repeat constructor; discriminate.
Defined.

Lemma main_shows_one_record_ahead_witness :
  read_records sample_reader = Py.Ok (drop 3 sample_reader) /\
  built BuildPandaSystem /\
  (let m := main (L := toy) [Prog] (Some BuildPandaSystem) sample_server
              sample_reader in
   let shown := length (published (pandaServer m)) in
   match pc m with
   | AtFor | AtShift | Finished =>
       shown = steps_done m /\ length (m_inputs m) = steps_done m
   | AtWhileRunInLoop | AtWhileRunOneStep | AtReset | AtActivate =>
       shown = S (steps_done m) /\ length (m_inputs m) = S (steps_done m)
   | Raised _ => steps_done m <= length (m_inputs m)
   end).
Proof.
  split; [reflexivity|].
  split; [repeat split; eexists; vm_compute; reflexivity|].
  apply (main_shows_one_record_ahead (L := toy) sample_reader
           (drop 3 sample_reader) BuildPandaSystem sample_server [Prog]).
  - reflexivity.
  - repeat split; eexists; vm_compute; reflexivity.
Defined.

Lemma main_result_ignores_the_timing_witness :
  read_records sample_reader = Py.Ok (drop 3 sample_reader) /\
  built BuildPandaSystem /\
  (let m1 := main (L := toy) sample_schedule (Some BuildPandaSystem)
               sample_server sample_reader in
   let m2 := main (L := toy) sample_stepwise_schedule (Some BuildPandaSystem)
               sample_server sample_reader in
   pc m1 = Finished /\ pc m2 = Finished /\
   view_of <$> published (pandaServer m1)
   = view_of <$> published (pandaServer m2) /\
   m_inputs m1 = m_inputs m2 /\ anomaly m1 = anomaly m2 /\
   predictions m1 !! 1%nat = predictions m2 !! 1%nat /\
   predictions m1 !! 5%nat = predictions m2 !! 5%nat).
Proof.
  split; [reflexivity|].
  split; [repeat split; eexists; vm_compute; reflexivity|].
  cbn zeta. split; [reflexivity|]. split; [reflexivity|].
  apply (main_result_ignores_the_timing (L := toy) sample_reader
           (drop 3 sample_reader) BuildPandaSystem sample_server sample_server
           sample_schedule sample_stepwise_schedule).
  - reflexivity.
  - repeat split; eexists; vm_compute; reflexivity.
  - reflexivity.
  - reflexivity.
Defined.

Lemma tally_sums_each_horizon_witness :
  sample_predictions !! 1 = Some [nan; predicted 21; predicted 16] /\
  sample_predictions !! 5 = Some [nan; nan; predicted 20] /\
  length sample_inputs <= length [nan; predicted 21; predicted 16] /\
  length sample_inputs <= length [nan; nan; predicted 20] /\
  exists t,
    tally toy_arith sample_predictions sample_inputs = PyMore.Ok t /\
    holds toy_arith t
      (squared_errors toy_arith sample_inputs
         [nan; predicted 21; predicted 16])
      (real_predictions
         (take (length sample_inputs) [nan; predicted 21; predicted 16]))
      (squared_errors toy_arith sample_inputs [nan; nan; predicted 20])
      (real_predictions
         (take (length sample_inputs) [nan; nan; predicted 20])).
Proof.
  split; [reflexivity|]. split; [reflexivity|].
  split; [cbn; lia|]. split; [cbn; lia|].
  apply (tally_sums_each_horizon toy_arith sample_predictions
           [nan; predicted 21; predicted 16] [nan; nan; predicted 20]
           sample_inputs);
    [reflexivity | reflexivity | cbn; lia | cbn; lia].
Defined.

Lemma main_return_value_witness :
  predictions sample_scored !! 1 = Some [nan; predicted 21; predicted 16] /\
  predictions sample_scored !! 5 = Some [nan; nan; predicted 20] /\
  length (m_inputs sample_scored)
  <= length [nan; predicted 21; predicted 16] /\
  length (m_inputs sample_scored) <= length [nan; nan; predicted 20] /\
  main_return toy_arith sample_scored
  = if (real_predictions
          (take (length (m_inputs sample_scored))
             [nan; predicted 21; predicted 16]) =? 0)%nat
       || (real_predictions
             (take (length (m_inputs sample_scored))
                [nan; nan; predicted 20]) =? 0)%nat
    then PyMore.Raise PyMore.ZeroDivisionError
    else PyMore.Ok
           (negate toy_arith
              (root_mean toy_arith
                 (squared_errors toy_arith (m_inputs sample_scored)
                    [nan; nan; predicted 20])
                 (real_predictions
                    (take (length (m_inputs sample_scored))
                       [nan; nan; predicted 20])))).
Proof.
  split; [reflexivity|]. split; [reflexivity|].
  split; [vm_compute; lia|]. split; [vm_compute; lia|].
  apply (main_return_value toy_arith sample_scored
           [nan; predicted 21; predicted 16] [nan; nan; predicted 20]);
    [reflexivity | reflexivity | vm_compute; lia | vm_compute; lia].
Defined.

Lemma main_return_on_a_finished_run_witness :
  read_records sample_reader = Py.Ok (drop 3 sample_reader) /\
  built BuildPandaSystem /\
  (let m := main (L := toy) sample_schedule (Some BuildPandaSystem)
              sample_server sample_reader in
   pc m = Finished /\
   (main_return toy_arith m = PyMore.Raise PyMore.ZeroDivisionError \/
    exists a, main_return toy_arith m = PyMore.Ok a) /\
   (length (drop 3 sample_reader) <= 5 ->
    main_return toy_arith m = PyMore.Raise PyMore.ZeroDivisionError)).
Proof.
  split; [reflexivity|].
  split; [repeat split; eexists; vm_compute; reflexivity|].
  cbn zeta. split; [reflexivity|].
  apply (main_return_on_a_finished_run toy_arith sample_reader
           (drop 3 sample_reader) BuildPandaSystem sample_server
           sample_schedule).
  - reflexivity.
  - repeat split; eexists; vm_compute; reflexivity.
  - reflexivity.
Defined.

End HotgymMoreWitnesses.
